(** * The TTL cache of the museum catalogue (utils/almacen_datos.py)

    A shallow embedding of [EntradaCache] and [AlmacenDatos], and the
    properties of the cache layer stated over it.

    Modelling conventions.
    - Python values that reach the cache are of the dynamic type [valor];
      [None] is the constructor [VNone], so that the sentinel returned by a
      miss and a stored [None] are the same value, as in the source.
    - [time.time()] is an input: every public method takes the instant
      [ahora] at which it runs under the lock, a rational number of seconds,
      and every clock read made during that call returns it. Float rounding
      of the clock arithmetic is not modelled.
    - A method is a computation in the monad [M]: it receives the store and
      returns the store it leaves behind together with either its return
      value or the exception it raised.
    - The dictionaries are finite maps; iteration order is not modelled.
    - The predicate passed to [buscar_obras_por_criterio] is code of the
      caller: applied to a value it answers with a truth value or raises. *)

From Stdlib Require Import ZArith QArith Qround Lqa Ascii Sorted.
From stdpp Require Import gmap strings list fin_maps.

Local Open Scope Z_scope.

(** ** Domain objects (models/) *)

Record Artista := {
  nombre : string;
  nacionalidad : option string;
  fecha_nacimiento : option string;
  fecha_muerte : option string
}.

Record ObraArte := {
  id_obra : Z;
  titulo : string;
  artista : Artista;
  clasificacion : option string;
  fecha_creacion : option string;
  url_imagen : option string;
  departamento : option string
}.

Record Departamento := {
  id_departamento : Z;
  nombre_departamento : string
}.

(** ** Python values *)

#[warnings="-register-all"]
Inductive valor :=
| VNone
| VEntero (z : Z)
| VCadena (s : string)
| VObra (o : ObraArte)
| VDepartamento (d : Departamento)
| VLista (l : list valor).

(** [x is not None] *)
Definition is_not_None (v : valor) : bool :=
  match v with VNone => false | _ => true end.

(** [isinstance(x, ObraArte)] *)
Definition isinstance_ObraArte (v : valor) : bool :=
  match v with VObra _ => true | _ => false end.

(** [isinstance(x, list)] *)
Definition isinstance_list (v : valor) : bool :=
  match v with VLista _ => true | _ => false end.

(** The exceptions the cache itself raises, and [Otra_excepcion] for any
    other class that code of the caller may raise. *)
Inductive excepcion :=
| ValueError (mensaje : string)
| KeyError
| AttributeError
| Otra_excepcion (clase : string).

Definition resultado (A : Type) : Type := excepcion + A.

(** ** Rational helpers *)

(** [x < y] on rationals, as a boolean. *)
Definition Qltb (x y : Q) : bool := negb (Qle_bool y x).

(** Python's [int(x)] on a float: truncation toward zero. *)
Definition py_int (x : Q) : Z := Z.quot (Qnum x) (Zpos (Qden x)).

(** ** EntradaCache *)

Record EntradaCache := {
  datos : valor;
  timestamp : Q;
  tiempo_vida : Q
}.

(** [EntradaCache(datos, tiempo_vida)] evaluated at the instant [ahora]. *)
Definition nueva_EntradaCache (d : valor) (tv : Q) (ahora : Q) : EntradaCache :=
  {| datos := d; timestamp := ahora; tiempo_vida := tv |}.

(** The default of the [tiempo_vida] argument. *)
Definition tiempo_vida_por_defecto : Q := 300.

Definition es_valida (e : EntradaCache) (ahora : Q) : bool :=
  Qltb (ahora - timestamp e) (tiempo_vida e).

Definition obtener_datos (e : EntradaCache) (ahora : Q) : valor :=
  if es_valida e ahora then datos e else VNone.

(** ** AlmacenDatos: state *)

Definition TIEMPO_VIDA_OBRAS : Q := 600.
Definition TIEMPO_VIDA_DEPARTAMENTOS : Q := 1800.
Definition TIEMPO_VIDA_BUSQUEDAS : Q := 300.
Definition TIEMPO_VIDA_LISTAS_IDS : Q := 180.

Record Estadisticas := {
  hits_obras : Z;
  misses_obras : Z;
  hits_departamentos : Z;
  misses_departamentos : Z;
  hits_busquedas : Z;
  misses_busquedas : Z;
  limpiezas_automaticas : Z
}.

Record AlmacenDatos := {
  _cache_obras : gmap Z EntradaCache;
  _cache_departamentos : option EntradaCache;
  _cache_busquedas : gmap string EntradaCache;
  _cache_ids_departamento : gmap Z EntradaCache;
  _estadisticas : Estadisticas
}.

(** [AlmacenDatos()] *)
Definition nuevo_AlmacenDatos : AlmacenDatos :=
  {| _cache_obras := ∅;
     _cache_departamentos := None;
     _cache_busquedas := ∅;
     _cache_ids_departamento := ∅;
     _estadisticas :=
       {| hits_obras := 0; misses_obras := 0;
          hits_departamentos := 0; misses_departamentos := 0;
          hits_busquedas := 0; misses_busquedas := 0;
          limpiezas_automaticas := 0 |} |}.

(** Field updates. *)
Definition con_obras (f : gmap Z EntradaCache → gmap Z EntradaCache)
    (s : AlmacenDatos) : AlmacenDatos :=
  {| _cache_obras := f (_cache_obras s);
     _cache_departamentos := _cache_departamentos s;
     _cache_busquedas := _cache_busquedas s;
     _cache_ids_departamento := _cache_ids_departamento s;
     _estadisticas := _estadisticas s |}.

Definition con_departamentos (d : option EntradaCache)
    (s : AlmacenDatos) : AlmacenDatos :=
  {| _cache_obras := _cache_obras s;
     _cache_departamentos := d;
     _cache_busquedas := _cache_busquedas s;
     _cache_ids_departamento := _cache_ids_departamento s;
     _estadisticas := _estadisticas s |}.

Definition con_busquedas (f : gmap string EntradaCache → gmap string EntradaCache)
    (s : AlmacenDatos) : AlmacenDatos :=
  {| _cache_obras := _cache_obras s;
     _cache_departamentos := _cache_departamentos s;
     _cache_busquedas := f (_cache_busquedas s);
     _cache_ids_departamento := _cache_ids_departamento s;
     _estadisticas := _estadisticas s |}.

Definition con_ids_departamento (f : gmap Z EntradaCache → gmap Z EntradaCache)
    (s : AlmacenDatos) : AlmacenDatos :=
  {| _cache_obras := _cache_obras s;
     _cache_departamentos := _cache_departamentos s;
     _cache_busquedas := _cache_busquedas s;
     _cache_ids_departamento := f (_cache_ids_departamento s);
     _estadisticas := _estadisticas s |}.

Definition con_estadisticas (f : Estadisticas → Estadisticas)
    (s : AlmacenDatos) : AlmacenDatos :=
  {| _cache_obras := _cache_obras s;
     _cache_departamentos := _cache_departamentos s;
     _cache_busquedas := _cache_busquedas s;
     _cache_ids_departamento := _cache_ids_departamento s;
     _estadisticas := f (_estadisticas s) |}.

(** The counters of [_estadisticas], incremented by [+= 1]. *)
Inductive contador :=
| Hits_obras | Misses_obras
| Hits_departamentos | Misses_departamentos
| Hits_busquedas | Misses_busquedas
| Limpiezas_automaticas.

Definition incrementar (c : contador) (e : Estadisticas) : Estadisticas :=
  match c with
  | Hits_obras =>
      {| hits_obras := hits_obras e + 1; misses_obras := misses_obras e;
         hits_departamentos := hits_departamentos e;
         misses_departamentos := misses_departamentos e;
         hits_busquedas := hits_busquedas e;
         misses_busquedas := misses_busquedas e;
         limpiezas_automaticas := limpiezas_automaticas e |}
  | Misses_obras =>
      {| hits_obras := hits_obras e; misses_obras := misses_obras e + 1;
         hits_departamentos := hits_departamentos e;
         misses_departamentos := misses_departamentos e;
         hits_busquedas := hits_busquedas e;
         misses_busquedas := misses_busquedas e;
         limpiezas_automaticas := limpiezas_automaticas e |}
  | Hits_departamentos =>
      {| hits_obras := hits_obras e; misses_obras := misses_obras e;
         hits_departamentos := hits_departamentos e + 1;
         misses_departamentos := misses_departamentos e;
         hits_busquedas := hits_busquedas e;
         misses_busquedas := misses_busquedas e;
         limpiezas_automaticas := limpiezas_automaticas e |}
  | Misses_departamentos =>
      {| hits_obras := hits_obras e; misses_obras := misses_obras e;
         hits_departamentos := hits_departamentos e;
         misses_departamentos := misses_departamentos e + 1;
         hits_busquedas := hits_busquedas e;
         misses_busquedas := misses_busquedas e;
         limpiezas_automaticas := limpiezas_automaticas e |}
  | Hits_busquedas =>
      {| hits_obras := hits_obras e; misses_obras := misses_obras e;
         hits_departamentos := hits_departamentos e;
         misses_departamentos := misses_departamentos e;
         hits_busquedas := hits_busquedas e + 1;
         misses_busquedas := misses_busquedas e;
         limpiezas_automaticas := limpiezas_automaticas e |}
  | Misses_busquedas =>
      {| hits_obras := hits_obras e; misses_obras := misses_obras e;
         hits_departamentos := hits_departamentos e;
         misses_departamentos := misses_departamentos e;
         hits_busquedas := hits_busquedas e;
         misses_busquedas := misses_busquedas e + 1;
         limpiezas_automaticas := limpiezas_automaticas e |}
  | Limpiezas_automaticas =>
      {| hits_obras := hits_obras e; misses_obras := misses_obras e;
         hits_departamentos := hits_departamentos e;
         misses_departamentos := misses_departamentos e;
         hits_busquedas := hits_busquedas e;
         misses_busquedas := misses_busquedas e;
         limpiezas_automaticas := limpiezas_automaticas e + 1 |}
  end.

(** ** The method monad: state plus exceptions *)

Definition M (A : Type) : Type := AlmacenDatos → resultado A * AlmacenDatos.

Definition ret {A} (x : A) : M A := λ s, (inr x, s).
Definition raise {A} (e : excepcion) : M A := λ s, (inl e, s).
Definition bind {A B} (m : M A) (k : A → M B) : M B :=
  λ s, match m s with
       | (inr x, s') => k x s'
       | (inl e, s') => (inl e, s')
       end.
Definition leer : M AlmacenDatos := λ s, (inr s, s).
Definition modificar (f : AlmacenDatos → AlmacenDatos) : M unit :=
  λ s, (inr tt, f s).

Declare Scope metodo_scope.
Delimit Scope metodo_scope with metodo.
Notation "x <- m ;; k" := (bind m (λ x, k))
  (at level 100, m at next level, right associativity) : metodo_scope.
Notation "m ;; k" := (bind m (λ _, k))
  (at level 100, right associativity) : metodo_scope.
Local Open Scope metodo_scope.

(** [for x in l: cuerpo(x)] *)
Fixpoint para_cada {A} (l : list A) (cuerpo : A → M unit) : M unit :=
  match l with
  | [] => ret tt
  | x :: l' => cuerpo x ;; para_cada l' cuerpo
  end.

(** [self._estadisticas[c] += 1] *)
Definition sumar_uno (c : contador) : M unit :=
  modificar (con_estadisticas (incrementar c)).

(** ** Dictionary primitives *)

(** [len(d)] *)
Definition len {K} `{Countable K} (d : gmap K EntradaCache) : Z :=
  Z.of_nat (size d).

(** [k in d] *)
Definition contiene {K} `{Countable K} (d : gmap K EntradaCache) (k : K) : bool :=
  match d !! k with Some _ => true | None => false end.

(** [d[k]], which raises [KeyError] on an absent key. *)
Definition subscript {K} `{Countable K} (d : gmap K EntradaCache) (k : K)
    : M EntradaCache :=
  match d !! k with Some e => ret e | None => raise KeyError end.

(** [del self._cache_obras[k]] *)
Definition del_obra (k : Z) : M unit :=
  s <- leer ;;
  if contiene (_cache_obras s) k then modificar (con_obras (delete k))
  else raise KeyError.

(** [del self._cache_busquedas[k]] *)
Definition del_busqueda (k : string) : M unit :=
  s <- leer ;;
  if contiene (_cache_busquedas s) k then modificar (con_busquedas (delete k))
  else raise KeyError.

(** [del self._cache_ids_departamento[k]] *)
Definition del_ids_departamento (k : Z) : M unit :=
  s <- leer ;;
  if contiene (_cache_ids_departamento s) k
  then modificar (con_ids_departamento (delete k))
  else raise KeyError.

(** [[k for k, entrada in d.items() if not entrada.es_valida()]] *)
Definition claves_expiradas {K} `{Countable K} (d : gmap K EntradaCache)
    (ahora : Q) : list K :=
  (filter (λ p, negb (es_valida p.2 ahora)) (map_to_list d)).*1.

(** [obra.id_obra] *)
Definition atributo_id_obra (v : valor) : M Z :=
  match v with VObra o => ret (id_obra o) | _ => raise AttributeError end.

(** [1 if self._cache_departamentos else 0]: an [EntradaCache] defines
    neither [__bool__] nor [__len__], so it is truthy whenever present. *)
Definition uno_si_presente (d : option EntradaCache) : Z :=
  match d with Some _ => 1 | None => 0 end.

(** ** AlmacenDatos: private helpers *)

Definition _limpiar_entradas_expiradas (ahora : Q) : M unit :=
  s <- leer ;;
  let ids_expirados := claves_expiradas (_cache_obras s) ahora in
  para_cada ids_expirados del_obra ;;
  s <- leer ;;
  let claves_exp := claves_expiradas (_cache_busquedas s) ahora in
  para_cada claves_exp del_busqueda ;;
  s <- leer ;;
  let ids_dept_expirados := claves_expiradas (_cache_ids_departamento s) ahora in
  para_cada ids_dept_expirados del_ids_departamento ;;
  s <- leer ;;
  match _cache_departamentos s with
  | Some e =>
      if negb (es_valida e ahora) then modificar (con_departamentos None)
      else ret tt
  | None => ret tt
  end.

Definition total_entradas (s : AlmacenDatos) : Z :=
  len (_cache_obras s) + len (_cache_busquedas s)
  + len (_cache_ids_departamento s).

Definition _limpiar_cache_si_necesario (ahora : Q) : M unit :=
  s <- leer ;;
  if 1000 <? total_entradas s then
    _limpiar_entradas_expiradas ahora ;;
    sumar_uno Limpiezas_automaticas
  else ret tt.

Definition _estimar_uso_memoria (s : AlmacenDatos) : Z :=
  let memoria_obras := inject_Z (len (_cache_obras s) * 2) in
  let memoria_departamentos :=
    inject_Z (match _cache_departamentos s with Some _ => 5 | None => 0 end) in
  let memoria_busquedas := (inject_Z (len (_cache_busquedas s)) * (1 # 2))%Q in
  let memoria_ids_dept := inject_Z (len (_cache_ids_departamento s) * 1) in
  py_int (memoria_obras + memoria_departamentos + memoria_busquedas
          + memoria_ids_dept)%Q.

(** ** AlmacenDatos: public methods *)

Definition obtener_obra (id : Z) (ahora : Q) : M valor :=
  s <- leer ;;
  devuelto <-
    (if contiene (_cache_obras s) id then
       entrada <- subscript (_cache_obras s) id ;;
       let obra := obtener_datos entrada ahora in
       if is_not_None obra then
         sumar_uno Hits_obras ;; ret (Some obra)
       else
         del_obra id ;; ret None
     else ret None) ;;
  match devuelto with
  | Some obra => ret obra
  | None => sumar_uno Misses_obras ;; ret VNone
  end.

Definition almacenar_obra (obra : valor) (ahora : Q) : M unit :=
  if negb (isinstance_ObraArte obra) then
    raise (ValueError "El parámetro debe ser una instancia de ObraArte")
  else
    let entrada := nueva_EntradaCache obra TIEMPO_VIDA_OBRAS ahora in
    k <- atributo_id_obra obra ;;
    modificar (con_obras <[k := entrada]>) ;;
    _limpiar_cache_si_necesario ahora.

Definition obtener_departamentos (ahora : Q) : M valor :=
  s <- leer ;;
  devuelto <-
    (match _cache_departamentos s with
     | Some entrada =>
         let departamentos := obtener_datos entrada ahora in
         if is_not_None departamentos then
           sumar_uno Hits_departamentos ;; ret (Some departamentos)
         else
           modificar (con_departamentos None) ;; ret None
     | None => ret None
     end) ;;
  match devuelto with
  | Some departamentos => ret departamentos
  | None => sumar_uno Misses_departamentos ;; ret VNone
  end.

Definition almacenar_departamentos (departamentos : valor) (ahora : Q) : M unit :=
  if negb (isinstance_list departamentos) then
    raise (ValueError "El parámetro debe ser una lista de departamentos")
  else
    let entrada :=
      nueva_EntradaCache departamentos TIEMPO_VIDA_DEPARTAMENTOS ahora in
    modificar (con_departamentos (Some entrada)).

Definition obtener_resultado_busqueda (clave_busqueda : string) (ahora : Q)
    : M valor :=
  s <- leer ;;
  devuelto <-
    (if contiene (_cache_busquedas s) clave_busqueda then
       entrada <- subscript (_cache_busquedas s) clave_busqueda ;;
       let res := obtener_datos entrada ahora in
       if is_not_None res then
         sumar_uno Hits_busquedas ;; ret (Some res)
       else
         del_busqueda clave_busqueda ;; ret None
     else ret None) ;;
  match devuelto with
  | Some res => ret res
  | None => sumar_uno Misses_busquedas ;; ret VNone
  end.

Definition almacenar_resultado_busqueda (clave_busqueda : string)
    (ids_obras : valor) (ahora : Q) : M unit :=
  if negb (isinstance_list ids_obras) then
    raise (ValueError "ids_obras debe ser una lista")
  else
    let entrada := nueva_EntradaCache ids_obras TIEMPO_VIDA_BUSQUEDAS ahora in
    modificar (con_busquedas <[clave_busqueda := entrada]>) ;;
    _limpiar_cache_si_necesario ahora.

Definition obtener_ids_departamento (id_dep : Z) (ahora : Q) : M valor :=
  s <- leer ;;
  devuelto <-
    (if contiene (_cache_ids_departamento s) id_dep then
       entrada <- subscript (_cache_ids_departamento s) id_dep ;;
       let ids := obtener_datos entrada ahora in
       if is_not_None ids then ret (Some ids)
       else del_ids_departamento id_dep ;; ret None
     else ret None) ;;
  match devuelto with
  | Some ids => ret ids
  | None => ret VNone
  end.

Definition almacenar_ids_departamento (id_dep : Z) (ids_obras : valor)
    (ahora : Q) : M unit :=
  if negb (isinstance_list ids_obras) then
    raise (ValueError "ids_obras debe ser una lista")
  else
    let entrada := nueva_EntradaCache ids_obras TIEMPO_VIDA_LISTAS_IDS ahora in
    modificar (con_ids_departamento <[id_dep := entrada]>).

(** [criterio(obra)] runs code of the caller: it answers, and the answer is
    read as a truth value, or it raises. Nothing guards the call, so what
    the predicate raises leaves the loop and the method. *)
Fixpoint recorrer_obras (criterio : valor → resultado bool) (ahora : Q)
    (entradas : list EntradaCache) (obras_encontradas : list valor)
    : M (list valor) :=
  match entradas with
  | [] => ret obras_encontradas
  | entrada :: resto =>
      let obra := obtener_datos entrada ahora in
      if is_not_None obra then
        match criterio obra with
        | inl e => raise e
        | inr true =>
            recorrer_obras criterio ahora resto (obras_encontradas ++ [obra])
        | inr false => recorrer_obras criterio ahora resto obras_encontradas
        end
      else recorrer_obras criterio ahora resto obras_encontradas
  end.

Definition buscar_obras_por_criterio (criterio : valor → resultado bool)
    (ahora : Q) : M (list valor) :=
  s <- leer ;;
  recorrer_obras criterio ahora (map_to_list (_cache_obras s)).*2 [].

Arguments buscar_obras_por_criterio : simpl never.

(** A predicate that answers on every value, as the annotation
    [Callable[[ObraArte], bool]] promises. *)
Definition responde (criterio : valor → bool) : valor → resultado bool :=
  λ v, inr (criterio v).

(** The predicate raises [e] on a cached work that is valid at [ahora]. *)
Definition criterio_lanza (criterio : valor → resultado bool) (ahora : Q)
    (s : AlmacenDatos) (e : excepcion) : Prop :=
  ∃ k entrada, _cache_obras s !! k = Some entrada
    ∧ is_not_None (obtener_datos entrada ahora) = true
    ∧ criterio (obtener_datos entrada ahora) = inl e.

Definition invalidar_cache_obras : M unit :=
  modificar (con_obras (λ _, ∅)).

Definition invalidar_cache_departamentos : M unit :=
  modificar (con_departamentos None).

Definition invalidar_cache_busquedas : M unit :=
  modificar (con_busquedas (λ _, ∅)).

Definition invalidar_todo_cache : M unit :=
  modificar (con_obras (λ _, ∅)) ;;
  modificar (con_departamentos None) ;;
  modificar (con_busquedas (λ _, ∅)) ;;
  modificar (con_ids_departamento (λ _, ∅)).

(** The dictionary returned by [obtener_estadisticas_cache]: a copy of the
    counters, the sizes, and the hit ratios. The ratios are rationals: the
    float division is modelled by the exact quotient. *)
Record EstadisticasCache := {
  contadores : Estadisticas;
  obras_en_cache : Z;
  busquedas_en_cache : Z;
  departamentos_en_cache : Z;
  ids_departamentos_en_cache : Z;
  memoria_estimada_kb : Z;
  hit_ratio_obras : Q;
  hit_ratio_departamentos : Q;
  hit_ratio_busquedas : Q
}.

(** [hits / total if total > 0 else 0] *)
Definition ratio (hits total : Z) : Q :=
  if 0 <? total then (inject_Z hits / inject_Z total)%Q else 0%Q.

Definition obtener_estadisticas_cache : M EstadisticasCache :=
  s <- leer ;;
  let estadisticas := _estadisticas s in
  let total_obras := hits_obras estadisticas + misses_obras estadisticas in
  let total_departamentos :=
    hits_departamentos estadisticas + misses_departamentos estadisticas in
  let total_busquedas :=
    hits_busquedas estadisticas + misses_busquedas estadisticas in
  ret {| contadores := estadisticas;
         obras_en_cache := len (_cache_obras s);
         busquedas_en_cache := len (_cache_busquedas s);
         departamentos_en_cache := uno_si_presente (_cache_departamentos s);
         ids_departamentos_en_cache := len (_cache_ids_departamento s);
         memoria_estimada_kb := _estimar_uso_memoria s;
         hit_ratio_obras := ratio (hits_obras estadisticas) total_obras;
         hit_ratio_departamentos :=
           ratio (hits_departamentos estadisticas) total_departamentos;
         hit_ratio_busquedas :=
           ratio (hits_busquedas estadisticas) total_busquedas |}.

(** The dictionary returned by [limpiar_cache_manual]. *)
Record Eliminados := {
  obras_eliminadas : Z;
  busquedas_eliminadas : Z;
  ids_departamentos_eliminados : Z;
  departamentos_eliminados : Z
}.

Definition limpiar_cache_manual (ahora : Q) : M Eliminados :=
  antes <- leer ;;
  _limpiar_entradas_expiradas ahora ;;
  despues <- leer ;;
  ret {| obras_eliminadas :=
           len (_cache_obras antes) - len (_cache_obras despues);
         busquedas_eliminadas :=
           len (_cache_busquedas antes) - len (_cache_busquedas despues);
         ids_departamentos_eliminados :=
           len (_cache_ids_departamento antes)
           - len (_cache_ids_departamento despues);
         departamentos_eliminados :=
           uno_si_presente (_cache_departamentos antes)
           - uno_si_presente (_cache_departamentos despues) |}.

(** ** The public interface as data *)

Inductive llamada :=
| Obtener_obra (id : Z)
| Almacenar_obra (obra : valor)
| Obtener_departamentos
| Almacenar_departamentos (departamentos : valor)
| Obtener_resultado_busqueda (clave_busqueda : string)
| Almacenar_resultado_busqueda (clave_busqueda : string) (ids_obras : valor)
| Obtener_ids_departamento (id_dep : Z)
| Almacenar_ids_departamento (id_dep : Z) (ids_obras : valor)
| Buscar_obras_por_criterio (criterio : valor → resultado bool)
| Invalidar_cache_obras
| Invalidar_cache_departamentos
| Invalidar_cache_busquedas
| Invalidar_todo_cache
| Obtener_estadisticas_cache
| Limpiar_cache_manual.

Inductive respuesta :=
| RNada
| RValor (v : valor)
| RObras (l : list valor)
| REstadisticas (e : EstadisticasCache)
| REliminados (e : Eliminados).

Definition responder {A} (f : A → respuesta) (m : M A) : M respuesta :=
  x <- m ;; ret (f x).

(** One call of a public method at the instant [ahora]. *)
Definition ejecutar (c : llamada) (ahora : Q) : M respuesta :=
  match c with
  | Obtener_obra id => responder RValor (obtener_obra id ahora)
  | Almacenar_obra obra => responder (λ _, RNada) (almacenar_obra obra ahora)
  | Obtener_departamentos => responder RValor (obtener_departamentos ahora)
  | Almacenar_departamentos d =>
      responder (λ _, RNada) (almacenar_departamentos d ahora)
  | Obtener_resultado_busqueda k =>
      responder RValor (obtener_resultado_busqueda k ahora)
  | Almacenar_resultado_busqueda k ids =>
      responder (λ _, RNada) (almacenar_resultado_busqueda k ids ahora)
  | Obtener_ids_departamento k =>
      responder RValor (obtener_ids_departamento k ahora)
  | Almacenar_ids_departamento k ids =>
      responder (λ _, RNada) (almacenar_ids_departamento k ids ahora)
  | Buscar_obras_por_criterio criterio =>
      responder RObras (buscar_obras_por_criterio criterio ahora)
  | Invalidar_cache_obras => responder (λ _, RNada) invalidar_cache_obras
  | Invalidar_cache_departamentos =>
      responder (λ _, RNada) invalidar_cache_departamentos
  | Invalidar_cache_busquedas =>
      responder (λ _, RNada) invalidar_cache_busquedas
  | Invalidar_todo_cache => responder (λ _, RNada) invalidar_todo_cache
  | Obtener_estadisticas_cache =>
      responder REstadisticas obtener_estadisticas_cache
  | Limpiar_cache_manual => responder REliminados (limpiar_cache_manual ahora)
  end.

(** The store left by a sequence of timed calls; a caller that receives an
    exception goes on with the store as the failed call left it. *)
Definition estado_tras (traza : list (llamada * Q)) (s : AlmacenDatos)
    : AlmacenDatos :=
  foldl (λ s cq, (ejecutar cq.1 cq.2 s).2) s traza.

(** The stores a program can observe: those reached from [AlmacenDatos()]
    through the public methods. *)
Definition alcanzable (s : AlmacenDatos) : Prop :=
  ∃ traza, s = estado_tras traza nuevo_AlmacenDatos.

(** ** Reference description of the sweep *)

(** The entries of a dictionary that are still valid at [ahora]. *)
Definition vigentes {K} `{Countable K} (d : gmap K EntradaCache) (ahora : Q)
    : gmap K EntradaCache :=
  filter (λ p, es_valida p.2 ahora = true) d.

(** The entries of a dictionary that have expired at [ahora]. *)
Definition expiradas {K} `{Countable K} (d : gmap K EntradaCache) (ahora : Q)
    : gmap K EntradaCache :=
  filter (λ p, es_valida p.2 ahora = false) d.

Definition departamentos_vigentes (d : option EntradaCache) (ahora : Q)
    : option EntradaCache :=
  match d with
  | Some e => if es_valida e ahora then Some e else None
  | None => None
  end.

(** The store with every expired entry of the four regions removed. *)
Definition barrido (ahora : Q) (s : AlmacenDatos) : AlmacenDatos :=
  {| _cache_obras := vigentes (_cache_obras s) ahora;
     _cache_departamentos :=
       departamentos_vigentes (_cache_departamentos s) ahora;
     _cache_busquedas := vigentes (_cache_busquedas s) ahora;
     _cache_ids_departamento := vigentes (_cache_ids_departamento s) ahora;
     _estadisticas := _estadisticas s |}.

(** ** Well-formed stores *)

(** What the [isinstance] guards of the [almacenar_*] methods establish. *)
Record bien_formado (s : AlmacenDatos) : Prop := {
  bf_obras :
    map_Forall (λ k e, ∃ o, datos e = VObra o ∧ id_obra o = k
                            ∧ tiempo_vida e = TIEMPO_VIDA_OBRAS)
               (_cache_obras s);
  bf_departamentos :
    ∀ e, _cache_departamentos s = Some e →
         (∃ l, datos e = VLista l) ∧ tiempo_vida e = TIEMPO_VIDA_DEPARTAMENTOS;
  bf_busquedas :
    map_Forall (λ _ e, (∃ l, datos e = VLista l)
                       ∧ tiempo_vida e = TIEMPO_VIDA_BUSQUEDAS)
               (_cache_busquedas s);
  bf_ids_departamento :
    map_Forall (λ _ e, (∃ l, datos e = VLista l)
                       ∧ tiempo_vida e = TIEMPO_VIDA_LISTAS_IDS)
               (_cache_ids_departamento s)
}.

(** The store left by the threshold check of [_limpiar_cache_si_necesario]. *)
Definition tras_comprobar_limpieza (ahora : Q) (s : AlmacenDatos)
    : AlmacenDatos :=
  if 1000 <? total_entradas s
  then con_estadisticas (incrementar Limpiezas_automaticas) (barrido ahora s)
  else s.

(** [c] is a successful [almacenar_obra] of a work whose id is [id]. *)
Definition almacena_id (id : Z) (c : llamada) : bool :=
  match c with
  | Almacenar_obra (VObra o) => bool_decide (id_obra o = id)
  | _ => false
  end.

(** [c] neither empties the works region nor stores a work under [id]. *)
Definition conserva_obra (id : Z) (c : llamada) : bool :=
  match c with
  | Invalidar_cache_obras | Invalidar_todo_cache => false
  | Almacenar_obra (VObra o) => negb (bool_decide (id_obra o = id))
  | _ => true
  end.

(** [c] is an [almacenar_*] call whose value has the wrong shape. *)
Definition argumento_invalido (c : llamada) : bool :=
  match c with
  | Almacenar_obra obra => negb (isinstance_ObraArte obra)
  | Almacenar_departamentos d => negb (isinstance_list d)
  | Almacenar_resultado_busqueda _ ids => negb (isinstance_list ids)
  | Almacenar_ids_departamento _ ids => negb (isinstance_list ids)
  | _ => false
  end.

(** ** Test data (tests/test_almacen_datos.py) *)

Definition artista_test : Artista :=
  {| nombre := "Vincent van Gogh";
     nacionalidad := Some "Dutch"%string;
     fecha_nacimiento := Some "1853"%string;
     fecha_muerte := Some "1890"%string |}.

Definition obra_test : ObraArte :=
  {| id_obra := 123;
     titulo := "The Starry Night";
     artista := artista_test;
     clasificacion := Some "Paintings"%string;
     fecha_creacion := Some "1889"%string;
     url_imagen := Some "https://example.com/image.jpg"%string;
     departamento := Some "European Paintings"%string |}.

Definition obra_2 : ObraArte :=
  {| id_obra := 456;
     titulo := "Obra 2";
     artista := artista_test;
     clasificacion := None;
     fecha_creacion := None;
     url_imagen := None;
     departamento := None |}.

(** A work whose artist has no recorded nationality. *)
Definition artista_anonimo : Artista :=
  {| nombre := "Anonymous";
     nacionalidad := None;
     fecha_nacimiento := None;
     fecha_muerte := None |}.

Definition obra_anonima : ObraArte :=
  {| id_obra := 789;
     titulo := "Untitled";
     artista := artista_anonimo;
     clasificacion := None;
     fecha_creacion := None;
     url_imagen := None;
     departamento := None |}.

(** [lambda obra: obra.artista.nacionalidad.startswith("Dutch")]: on a work
    whose artist has no nationality the attribute lookup on [None] raises
    [AttributeError]. *)
Definition criterio_holandes : valor → resultado bool :=
  λ v, match v with
       | VObra o =>
           match nacionalidad (artista o) with
           | Some n => inr (String.prefix "Dutch" n)
           | None => inl AttributeError
           end
       | _ => inl AttributeError
       end.

(** The store after [almacenar_obra(obra_anonima)] at the instant 0. *)
Definition almacen_con_anonima : AlmacenDatos :=
  (almacenar_obra (VObra obra_anonima) 0 nuevo_AlmacenDatos).2.

(** The store after [almacenar_ids_departamento(1, [7])] at the instant 0. *)
Definition almacen_con_ids : AlmacenDatos :=
  (almacenar_ids_departamento 1 (VLista [VEntero 7]) 0 nuevo_AlmacenDatos).2.

(** The stores after a lookup of the key 1 at the instant 1, which hits,
    and then a lookup of the key 2, which misses. *)
Definition almacen_tras_acierto_ids : AlmacenDatos :=
  (obtener_ids_departamento 1 1 almacen_con_ids).2.

Definition almacen_tras_fallo_ids : AlmacenDatos :=
  (obtener_ids_departamento 2 1 almacen_tras_acierto_ids).2.

(** A second work under the id of [obra_test]. *)
Definition obra_test_bis : ObraArte :=
  {| id_obra := 123;
     titulo := "Sunflowers";
     artista := artista_test;
     clasificacion := Some "Paintings"%string;
     fecha_creacion := Some "1888"%string;
     url_imagen := None;
     departamento := Some "European Paintings"%string |}.

Definition departamentos_test : valor :=
  VLista [VDepartamento {| id_departamento := 1;
                           nombre_departamento := "American Decorative Arts" |};
          VDepartamento {| id_departamento := 3;
                           nombre_departamento := "Ancient Near Eastern Art" |}].

(** A work per natural number, for bulk scenarios. *)
Definition obra_n (n : nat) : ObraArte :=
  {| id_obra := Z.of_nat n;
     titulo := "Obra";
     artista := artista_test;
     clasificacion := None;
     fecha_creacion := None;
     url_imagen := None;
     departamento := None |}.

(** The store after [almacenar_obra] of the works 1..1000 at the instant 0:
    a thousand entries, none above the cleanup threshold yet. *)
Definition almacen_mil_obras : AlmacenDatos :=
  foldl (λ s n, (almacenar_obra (VObra (obra_n n)) 0 s).2)
        nuevo_AlmacenDatos (seq 1 1000).

(** The scenario of [test_limpiar_cache_manual]: work 123 under an entry
    of 0.1 seconds placed in the dictionary, then work 456 stored through
    [almacenar_obra], both at the instant 0. *)
Definition entrada_corta : EntradaCache :=
  {| datos := VObra obra_test; timestamp := 0; tiempo_vida := 1 # 10 |}.

Definition almacen_test_limpieza : AlmacenDatos :=
  (almacenar_obra (VObra obra_2) 0
     (con_obras <[123 := entrada_corta]> nuevo_AlmacenDatos)).2.

(** The scenario of [test_estadisticas_cache]: one store, one lookup that
    hits, one lookup that misses. *)
Definition traza_test_estadisticas : list (llamada * Q) :=
  [(Almacenar_obra (VObra obra_test), 0%Q);
   (Obtener_obra 123, 1%Q);
   (Obtener_obra 999, 2%Q)].

(** The store with only the departments slot occupied. *)
Definition almacen_solo_departamentos : AlmacenDatos :=
  (almacenar_departamentos departamentos_test 0 nuevo_AlmacenDatos).2.

(** ** The memory heuristic in the words of the specification *)

(** The figure as the specification words it: 2 KB per cached work, 0.1 KB
    for the departments slot when occupied, 0.5 KB per cached search result
    and 1 KB per cached department id list. *)
Definition memoria_segun_spec (s : AlmacenDatos) : Q :=
  (inject_Z (len (_cache_obras s)) * 2
   + (match _cache_departamentos s with Some _ => 1 # 10 | None => 0 end)
   + inject_Z (len (_cache_busquedas s)) * (1 # 2)
   + inject_Z (len (_cache_ids_departamento s)) * 1)%Q.

(** ** Counting calls in a trace *)

Definition es_obtener_obra (c : llamada) : bool :=
  match c with Obtener_obra _ => true | _ => false end.

Definition es_obtener_departamentos (c : llamada) : bool :=
  match c with Obtener_departamentos => true | _ => false end.

Definition es_obtener_resultado_busqueda (c : llamada) : bool :=
  match c with Obtener_resultado_busqueda _ => true | _ => false end.

(** [c] is an insertion that ends with [_limpiar_cache_si_necesario]. *)
Definition inserta_con_comprobacion (c : llamada) : bool :=
  match c with
  | Almacenar_obra (VObra _) => true
  | Almacenar_resultado_busqueda _ (VLista _) => true
  | _ => false
  end.

Definition uno_si (b : bool) : Z := if b then 1 else 0.

(** Number of calls of the trace that satisfy [p]. *)
Definition cuenta (p : llamada → bool) (traza : list (llamada * Q)) : Z :=
  Z.of_nat (length (filter (λ cq, p cq.1) traza)).

(** [c] neither empties the searches nor stores a result under [k]. *)
Definition conserva_busqueda (k : string) (c : llamada) : bool :=
  match c with
  | Invalidar_cache_busquedas | Invalidar_todo_cache => false
  | Almacenar_resultado_busqueda k' (VLista _) => negb (bool_decide (k' = k))
  | _ => true
  end.

(** [c] neither empties the department id lists nor stores a list under
    [k]. *)
Definition conserva_ids_departamento (k : Z) (c : llamada) : bool :=
  match c with
  | Invalidar_todo_cache => false
  | Almacenar_ids_departamento k' (VLista _) => negb (bool_decide (k' = k))
  | _ => true
  end.

(** * Text helpers of the search service (services/servicio_busqueda.py)

    A Python [str] is modelled by Rocq's [string], whose characters are the
    256 code points below 256. [str.isspace], which decides what
    [str.strip] removes, is a parameter of the definitions: every result
    below holds for whatever characters count as whitespace. *)

Section Texto.
Variable isspace : ascii → bool.

(** [s.lstrip()] *)
Fixpoint lstrip (s : string) : string :=
  match s with
  | EmptyString => EmptyString
  | String c r => if isspace c then lstrip r else s
  end.

(** [s.rstrip()] *)
Fixpoint rstrip (s : string) : string :=
  match s with
  | EmptyString => EmptyString
  | String c r =>
      match rstrip r with
      | EmptyString => if isspace c then EmptyString else String c EmptyString
      | r' => String c r'
      end
  end.

(** [s.strip()] *)
Definition strip (s : string) : string := rstrip (lstrip s).

(** The first character of [s] is whitespace. *)
Definition empieza_con_espacio (s : string) : bool :=
  match s with String c _ => isspace c | EmptyString => false end.

(** The last character of [s] is whitespace. *)
Fixpoint termina_con_espacio (s : string) : bool :=
  match s with
  | EmptyString => false
  | String c EmptyString => isspace c
  | String _ r => termina_con_espacio r
  end.
End Texto.

(** [c in s] for a single character [c] *)
Fixpoint en_cadena (c : ascii) (s : string) : bool :=
  match s with
  | EmptyString => false
  | String c' r => if Ascii.eqb c c' then true else en_cadena c r
  end.

(** [''.join(c for c in s if p(c))] *)
Fixpoint filtrar (p : ascii → bool) (s : string) : string :=
  match s with
  | EmptyString => EmptyString
  | String c r => if p c then String c (filtrar p r) else filtrar p r
  end.

(** Every character of [s] satisfies [p]. *)
Fixpoint todos (p : ascii → bool) (s : string) : bool :=
  match s with
  | EmptyString => true
  | String c r => p c && todos p r
  end.

Definition espacio : ascii := " "%char.

(** ['  ' in s] *)
Fixpoint contiene_doble_espacio (s : string) : bool :=
  match s with
  | EmptyString => false
  | String c r =>
      match r with
      | String c' _ =>
          if Ascii.eqb c espacio && Ascii.eqb c' espacio then true
          else contiene_doble_espacio r
      | EmptyString => false
      end
  end.

(** [s.replace('  ', ' ')]: the occurrences are taken left to right
    without overlap. *)
Fixpoint reemplazar_doble_espacio (s : string) : string :=
  match s with
  | EmptyString => EmptyString
  | String c r =>
      match r with
      | String c' r' =>
          if Ascii.eqb c espacio && Ascii.eqb c' espacio
          then String espacio (reemplazar_doble_espacio r')
          else String c (reemplazar_doble_espacio r)
      | EmptyString => s
      end
  end.

(** [while '  ' in s: s = s.replace('  ', ' ')], with the number of
    iterations bounded by [combustible]. *)
Fixpoint colapsar_espacios (combustible : nat) (s : string) : string :=
  match combustible with
  | O => s
  | S n =>
      if contiene_doble_espacio s
      then colapsar_espacios n (reemplazar_doble_espacio s)
      else s
  end.

Definition caracteres_permitidos : string :=
  "abcdefghijklmnopqrstuvwxyzABCDEFGHIJKLMNOPQRSTUVWXYZ0123456789 .-'".

(** [not s] *)
Definition es_vacia (s : string) : bool :=
  match s with EmptyString => true | _ => false end.

Definition _sanitizar_nombre_artista (isspace : ascii → bool) (nombre : string)
    : string :=
  if es_vacia nombre then EmptyString
  else
    let nombre_limpio := strip isspace nombre in
    let nombre_sanitizado :=
      filtrar (λ c, en_cadena c caracteres_permitidos) nombre_limpio in
    let nombre_sanitizado :=
      colapsar_espacios (String.length nombre_sanitizado) nombre_sanitizado in
    strip isspace nombre_sanitizado.

(** [str.isspace] on the code points below 256. *)
Definition isspace_latin1 (c : ascii) : bool :=
  let n := nat_of_ascii c in
  ((9 <=? n) && (n <=? 13) || (28 <=? n) && (n <=? 32)
   || (n =? 133) || (n =? 160))%nat.

(** * The nationality manager (utils/gestor_nacionalidades.py)

    The file system is an input: [archivo] is what it answers for the path
    of the manager when [cargar_nacionalidades] runs. [str.lower] is a
    parameter, like [str.isspace]. Logging is left out. *)

(** [s.startswith(c)] for a single character [c] *)
Definition empieza_con (c : ascii) (s : string) : bool :=
  match s with String c' _ => Ascii.eqb c' c | EmptyString => false end.

Record GestorNacionalidades := {
  _ruta_archivo : string;
  _nacionalidades : list string;
  _archivo_cargado : bool
}.

(** [GestorNacionalidades(ruta_archivo)] *)
Definition nuevo_GestorNacionalidades (ruta_archivo : string)
    : GestorNacionalidades :=
  {| _ruta_archivo := ruta_archivo;
     _nacionalidades := [];
     _archivo_cargado := false |}.

Inductive ErrorArchivoNacionalidades :=
| Error_archivo_nacionalidades (mensaje : string).

(** What the file system answers for the path of the manager. *)
Inductive archivo :=
| No_existe
| No_es_archivo
| Falla_IOError (mensaje : string)
| Falla_otra_excepcion (mensaje : string)
| Lineas (lineas : list string).

(** The first loop of [_procesar_archivo_nacionalidades]. *)
Definition lineas_utiles (isspace : ascii → bool) (lineas : list string)
    : list string :=
  foldl (λ nacionalidades linea,
           let nacionalidad := strip isspace linea in
           if negb (es_vacia nacionalidad)
              && negb (empieza_con "#" nacionalidad)
           then nacionalidades ++ [nacionalidad]
           else nacionalidades)
        [] lineas.

(** The second loop, from any state of [nacionalidades_unicas]. *)
Definition quitar_duplicados (acc l : list string) : list string :=
  foldl (λ nacionalidades_unicas nacionalidad,
           if bool_decide (nacionalidad ∈ nacionalidades_unicas)
           then nacionalidades_unicas
           else nacionalidades_unicas ++ [nacionalidad])
        acc l.

(** The second loop: duplicates removed, first occurrences kept. *)
Definition sin_duplicados (nacionalidades : list string) : list string :=
  quitar_duplicados [] nacionalidades.

Definition _procesar_archivo_nacionalidades (isspace : ascii → bool)
    (lineas : list string) : list string :=
  sin_duplicados (lineas_utiles isspace lineas).

Definition con_nacionalidades (l : list string) (g : GestorNacionalidades)
    : GestorNacionalidades :=
  {| _ruta_archivo := _ruta_archivo g;
     _nacionalidades := l;
     _archivo_cargado := _archivo_cargado g |}.

Definition con_archivo_cargado (b : bool) (g : GestorNacionalidades)
    : GestorNacionalidades :=
  {| _ruta_archivo := _ruta_archivo g;
     _nacionalidades := _nacionalidades g;
     _archivo_cargado := b |}.

(** The handler [except Exception as e], which also receives the
    [ErrorArchivoNacionalidades] raised inside the [try]. *)
Definition error_inesperado (mensaje : string) : ErrorArchivoNacionalidades :=
  Error_archivo_nacionalidades
    ("Error inesperado al cargar nacionalidades: " +:+ mensaje).

Definition cargar_nacionalidades (isspace : ascii → bool) (a : archivo)
    (g : GestorNacionalidades)
    : (ErrorArchivoNacionalidades + unit) * GestorNacionalidades :=
  match a with
  | No_existe =>
      (inl (error_inesperado
              ("El archivo de nacionalidades no existe: "
               +:+ _ruta_archivo g)), g)
  | No_es_archivo =>
      (inl (error_inesperado
              ("La ruta especificada no es un archivo: "
               +:+ _ruta_archivo g)), g)
  | Falla_IOError mensaje =>
      (inl (Error_archivo_nacionalidades
              ("Error al leer el archivo de nacionalidades: " +:+ mensaje)),
       g)
  | Falla_otra_excepcion mensaje => (inl (error_inesperado mensaje), g)
  | Lineas lineas =>
      let g1 :=
        con_nacionalidades (_procesar_archivo_nacionalidades isspace lineas)
          g in
      match _nacionalidades g1 with
      | [] =>
          (inl (error_inesperado
                  ("El archivo de nacionalidades está vacío: "
                   +:+ _ruta_archivo g1)), g1)
      | _ => (inr tt, con_archivo_cargado true g1)
      end
  end.

Definition error_no_cargadas : ErrorArchivoNacionalidades :=
  Error_archivo_nacionalidades
    ("Las nacionalidades no han sido cargadas. "
     +:+ "Llame a cargar_nacionalidades() primero.").

Definition obtener_nacionalidades_disponibles (g : GestorNacionalidades)
    : ErrorArchivoNacionalidades + list string :=
  if negb (_archivo_cargado g) then inl error_no_cargadas
  else inr (_nacionalidades g).

Definition validar_nacionalidad (isspace : ascii → bool)
    (lower : string → string) (nacionalidad : string)
    (g : GestorNacionalidades) : ErrorArchivoNacionalidades + bool :=
  if negb (_archivo_cargado g) then inl error_no_cargadas
  else if es_vacia nacionalidad then inr false
  else
    let nacionalidad_normalizada := lower (strip isspace nacionalidad) in
    inr (existsb (λ nac, String.eqb (lower nac) nacionalidad_normalizada)
           (_nacionalidades g)).

(** [len(gestor)] *)
Definition len_gestor (g : GestorNacionalidades) : Z :=
  if _archivo_cargado g then Z.of_nat (length (_nacionalidades g)) else 0.



(** [str.lower] on the code points below 256. *)
Definition lower_latin1_char (c : ascii) : ascii :=
  let n := nat_of_ascii c in
  if ((65 <=? n) && (n <=? 90)
      || (192 <=? n) && (n <=? 222) && negb (n =? 215))%nat
  then ascii_of_nat (n + 32) else c.

Fixpoint lower_latin1 (s : string) : string :=
  match s with
  | EmptyString => EmptyString
  | String c r => String (lower_latin1_char c) (lower_latin1 r)
  end.

(** The file of [test_cargar_nacionalidades_con_comentarios_y_lineas_vacias],
    with a duplicate added. *)
Definition lineas_test : list string :=
  ["# Lista de nacionalidades"; "American"; ""; "  British  "; "# comentario";
   "French"; "American"; "   "; "German"; "Italian"].

(** * The departments lookup of the search service
      (services/servicio_busqueda.py)

    [obtener_departamentos_disponibles] asks the cache first and the API
    client only on a miss.  The answer of the client is an input of the
    model; the two clock reads of the call (one in the lookup, one in the
    store) are two parameters. *)

(** What [self._cliente_api.obtener_departamentos()] does. *)
Inductive respuesta_api :=
| Devuelve (v : valor)
| Lanza_ErrorAPIMetMuseum (mensaje : string)
| Lanza_otra_excepcion (descripcion : string).

(** What the method can raise: its own error, an exception of the cache, the
    [TypeError] of iterating a value that is not iterable, or an exception of
    the client that is not an [ErrorAPIMetMuseum]. *)
Inductive excepcion_busqueda :=
| ErrorServicioBusqueda (mensaje : string)
| Excepcion_del_almacen (e : excepcion)
| TypeError
| Excepcion_del_cliente (descripcion : string).

(** The elements that iterating a value yields. *)
Definition iterar (v : valor) : excepcion_busqueda + list valor :=
  match v with
  | VLista l => inr l
  | VCadena s =>
      inr ((λ c, VCadena (String c EmptyString))
             <$> String.list_ascii_of_string s)
  | _ => inl TypeError
  end.

(** [d.nombre.lower()] *)
Definition clave_nombre (lower : string → string) (d : valor)
    : excepcion_busqueda + string :=
  match d with
  | VDepartamento d => inr (lower (nombre_departamento d))
  | _ => inl (Excepcion_del_almacen AttributeError)
  end.

(** The keys of [sorted(..., key=...)], computed left to right; the first
    failing element raises. *)
Fixpoint con_claves (lower : string → string) (l : list valor)
    : excepcion_busqueda + list (string * valor) :=
  match l with
  | [] => inr []
  | d :: l' =>
      match clave_nombre lower d with
      | inl e => inl e
      | inr k =>
          match con_claves lower l' with
          | inl e => inl e
          | inr kl => inr ((k, d) :: kl)
          end
      end
  end.

(** Stable insertion by key: the new element goes before the first element
    whose key is not smaller. *)
Fixpoint insertar (kx : string * valor) (l : list (string * valor))
    : list (string * valor) :=
  match l with
  | [] => [kx]
  | ky :: r =>
      if String.ltb ky.1 kx.1 then ky :: insertar kx r else kx :: ky :: r
  end.

(** [sorted] on the keyed elements: stable, as the sort of Python is. *)
Definition ordenar (l : list (string * valor)) : list (string * valor) :=
  foldr insertar [] l.

(** [sorted(departamentos, key=lambda d: d.nombre.lower())] *)
Definition sorted_por_nombre (lower : string → string) (departamentos : valor)
    : excepcion_busqueda + list valor :=
  match iterar departamentos with
  | inl e => inl e
  | inr l =>
      match con_claves lower l with
      | inl e => inl e
      | inr kl => inr (ordenar kl).*2
      end
  end.

(** The outcome of one call: what it returns or raises, the cache it leaves,
    and how many requests it sent to the API. *)
Record resultado_servicio := {
  devuelto : excepcion_busqueda + list valor;
  almacen_final : AlmacenDatos;
  consultas_api : nat
}.

Definition obtener_departamentos_disponibles (lower : string → string)
    (api : respuesta_api) (t_lectura t_escritura : Q) (s : AlmacenDatos)
    : resultado_servicio :=
  match obtener_departamentos t_lectura s with
  | (inl e, s1) =>
      {| devuelto := inl (Excepcion_del_almacen e);
         almacen_final := s1; consultas_api := 0 |}
  | (inr departamentos, s1) =>
      if is_not_None departamentos then
        {| devuelto := sorted_por_nombre lower departamentos;
           almacen_final := s1; consultas_api := 0 |}
      else
        match api with
        | Lanza_ErrorAPIMetMuseum mensaje =>
            {| devuelto :=
                 inl (ErrorServicioBusqueda
                        ("Error al obtener departamentos disponibles: "
                         +:+ mensaje));
               almacen_final := s1; consultas_api := 1 |}
        | Lanza_otra_excepcion d =>
            {| devuelto := inl (Excepcion_del_cliente d);
               almacen_final := s1; consultas_api := 1 |}
        | Devuelve departamentos =>
            match almacenar_departamentos departamentos t_escritura s1 with
            | (inl e, s2) =>
                {| devuelto := inl (Excepcion_del_almacen e);
                   almacen_final := s2; consultas_api := 1 |}
            | (inr _, s2) =>
                {| devuelto := sorted_por_nombre lower departamentos;
                   almacen_final := s2; consultas_api := 1 |}
            end
        end
  end.

(** ** The sort read on a list of departments *)

Definition clave_departamento (lower : string → string) (d : Departamento)
    : string * valor :=
  (lower (nombre_departamento d), VDepartamento d).

(** The same insertion on a list of departments, by lower-cased name. *)
Fixpoint insertar_departamento (lower : string → string) (x : Departamento)
    (l : list Departamento) : list Departamento :=
  match l with
  | [] => [x]
  | y :: r =>
      if String.ltb (lower (nombre_departamento y))
                    (lower (nombre_departamento x))
      then y :: insertar_departamento lower x r
      else x :: y :: r
  end.

Definition ordenar_departamentos (lower : string → string)
    (l : list Departamento) : list Departamento :=
  foldr (insertar_departamento lower) [] l.

(** [a] is not after [b] in the order of the lower-cased names. *)
Definition no_despues (lower : string → string) (a b : Departamento) : Prop :=
  String.ltb (lower (nombre_departamento b)) (lower (nombre_departamento a))
  = false.

(** The departments whose lower-cased name is [k], in the order of [l]. *)
Definition con_clave (lower : string → string) (k : string)
    (l : list Departamento) : list Departamento :=
  filter (λ d, lower (nombre_departamento d) = k) l.

Definition departamentos_desordenados : list Departamento :=
  [ {| id_departamento := 3; nombre_departamento := "medieval Art" |};
    {| id_departamento := 1; nombre_departamento := "American" |};
    {| id_departamento := 9; nombre_departamento := "Asian Art" |};
    {| id_departamento := 4; nombre_departamento := "AMERICAN" |} ].

(** * Proofs *)

(** ** Rational comparison *)

Lemma Qltb_lt (x y : Q) : Qltb x y = true ↔ (x < y)%Q.
Proof.
  unfold Qltb. rewrite negb_true_iff, <- not_true_iff_false, Qle_bool_iff.
  split; [apply Qnot_le_lt | apply Qlt_not_le].
Qed.

Lemma Qltb_ge (x y : Q) : Qltb x y = false ↔ (y <= x)%Q.
Proof.
  unfold Qltb. rewrite negb_false_iff. apply Qle_bool_iff.
Qed.

Lemma es_valida_true (e : EntradaCache) (ahora : Q) :
  es_valida e ahora = true ↔ (ahora - timestamp e < tiempo_vida e)%Q.
Proof. apply Qltb_lt. Qed.

Lemma es_valida_false (e : EntradaCache) (ahora : Q) :
  es_valida e ahora = false ↔ (tiempo_vida e <= ahora - timestamp e)%Q.
Proof. apply Qltb_ge. Qed.

Lemma es_valida_nueva (d : valor) (tv t0 t1 : Q) :
  (t1 - t0 < tv)%Q → es_valida (nueva_EntradaCache d tv t0) t1 = true.
Proof. intros Hlt. by apply es_valida_true. Qed.

(** ** The deletion loop of the sweep, for any of the three dictionaries *)

Section Bucle_de_borrado.
Context {K : Type} `{Countable K}.
Variable proy : AlmacenDatos → gmap K EntradaCache.
Variable con : (gmap K EntradaCache → gmap K EntradaCache)
               → AlmacenDatos → AlmacenDatos.
Variable del : K → M unit.

Hypothesis proy_con : ∀ f s, proy (con f s) = f (proy s).
Hypothesis con_con : ∀ f g s, con f (con g s) = con (λ d, f (g d)) s.
Hypothesis con_ext :
  ∀ f g s, f (proy s) = g (proy s) → con f s = con g s.
Hypothesis con_id : ∀ s, con (λ d, d) s = s.
Hypothesis del_spec :
  ∀ k s, del k s = if contiene (proy s) k
                   then (inr tt, con (delete k) s)
                   else (inl KeyError, s).

Lemma para_cada_del (ks : list K) (s : AlmacenDatos) :
  NoDup ks →
  (∀ k, k ∈ ks → is_Some (proy s !! k)) →
  para_cada ks del s
  = (inr tt, con (λ d, filter (λ p, p.1 ∉ ks) d) s).
Proof.
  revert s. induction ks as [|k ks IH]; intros s Hnd Hin; simpl.
  - unfold ret. f_equal. rewrite <- (con_id s) at 1.
    apply con_ext. symmetry. apply map_filter_id.
    intros i x _. simpl. apply not_elem_of_nil.
  - apply NoDup_cons in Hnd as [Hk Hnd].
    unfold bind. rewrite del_spec. unfold contiene.
    destruct (Hin k) as [e He]; [left|]. rewrite He.
    rewrite IH; [|done|].
    + f_equal. rewrite con_con. apply con_ext.
      apply map_eq. intros i.
      rewrite !map_lookup_filter. 
      destruct (decide (i = k)) as [->|Hne].
      * rewrite lookup_delete_eq, He. simpl.
        rewrite option_guard_False; [done|]. simpl. intros Hn. apply Hn. left.
      * rewrite lookup_delete_ne by done.
        destruct (proy s !! i) as [x|]; simpl; [|done].
        destruct (decide (i ∈ ks)) as [Hi|Hi].
        -- rewrite !option_guard_False; [done| |]; simpl; intros Hn; apply Hn;
             [by right | done].
        -- rewrite !option_guard_True; [done| |]; simpl; [|done].
           intros [?|?]%elem_of_cons; done.
    + intros i Hi. rewrite proy_con, lookup_delete_ne; [apply Hin; by right|].
      intros ->. done.
Qed.

Lemma claves_expiradas_spec (d : gmap K EntradaCache) (ahora : Q) (k : K) :
  k ∈ claves_expiradas d ahora
  ↔ ∃ e, d !! k = Some e ∧ es_valida e ahora = false.
Proof.
  unfold claves_expiradas. rewrite list_elem_of_fmap. split.
  - intros [[k' e] [-> [Hv Hin]%list_elem_of_filter]]. simpl in *.
    exists e. split; [by apply elem_of_map_to_list|].
    by destruct (es_valida e ahora).
  - intros [e [Hk Hv]]. exists (k, e). split; [done|].
    apply list_elem_of_filter. split; [simpl; by rewrite Hv|].
    by apply elem_of_map_to_list.
Qed.

Lemma claves_expiradas_NoDup (d : gmap K EntradaCache) (ahora : Q) :
  NoDup (claves_expiradas d ahora).
Proof.
  unfold claves_expiradas.
  eapply NoDup_fmap_fst.
  - intros k e1 e2 [_ H1%elem_of_map_to_list]%list_elem_of_filter
                   [_ H2%elem_of_map_to_list]%list_elem_of_filter.
    congruence.
  - apply NoDup_filter, NoDup_map_to_list.
Qed.

Lemma filtro_no_expiradas (d : gmap K EntradaCache) (ahora : Q) :
  filter (λ p, p.1 ∉ claves_expiradas d ahora) d = vigentes d ahora.
Proof.
  unfold vigentes. apply map_filter_ext. intros k e Hk. simpl.
  rewrite claves_expiradas_spec. split.
  - intros Hn. destruct (es_valida e ahora) eqn:Hv; [done|].
    exfalso. apply Hn. eauto.
  - intros Hv [e' [He' Hv']]. congruence.
Qed.

(** The comprehension followed by the [del] loop leaves exactly the valid
    entries, and no [del] raises. *)
Lemma bucle_de_borrado (ahora : Q) (s : AlmacenDatos) :
  para_cada (claves_expiradas (proy s) ahora) del s
  = (inr tt, con (λ d, vigentes d ahora) s).
Proof.
  rewrite para_cada_del.
  - f_equal. apply con_ext. apply filtro_no_expiradas.
  - apply claves_expiradas_NoDup.
  - intros k [e [He _]]%claves_expiradas_spec. eauto.
Qed.
End Bucle_de_borrado.

(** ** The sweep and the automatic cleanup *)

Lemma del_obra_spec (k : Z) (s : AlmacenDatos) :
  del_obra k s = if contiene (_cache_obras s) k
                 then (inr tt, con_obras (delete k) s)
                 else (inl KeyError, s).
Proof. unfold del_obra, bind, leer. by destruct (contiene _ _). Qed.

Lemma del_busqueda_spec (k : string) (s : AlmacenDatos) :
  del_busqueda k s = if contiene (_cache_busquedas s) k
                     then (inr tt, con_busquedas (delete k) s)
                     else (inl KeyError, s).
Proof. unfold del_busqueda, bind, leer. by destruct (contiene _ _). Qed.

Lemma del_ids_departamento_spec (k : Z) (s : AlmacenDatos) :
  del_ids_departamento k s = if contiene (_cache_ids_departamento s) k
                             then (inr tt, con_ids_departamento (delete k) s)
                             else (inl KeyError, s).
Proof. unfold del_ids_departamento, bind, leer. by destruct (contiene _ _). Qed.

Lemma bucle_obras (ahora : Q) (s : AlmacenDatos) :
  para_cada (claves_expiradas (_cache_obras s) ahora) del_obra s
  = (inr tt, con_obras (λ d, vigentes d ahora) s).
Proof.
  apply (bucle_de_borrado _cache_obras con_obras del_obra); try done.
  - intros f g [] Hfg. unfold con_obras. simpl in *. by rewrite Hfg.
  - by intros [].
  - apply del_obra_spec.
Qed.

Lemma bucle_busquedas (ahora : Q) (s : AlmacenDatos) :
  para_cada (claves_expiradas (_cache_busquedas s) ahora) del_busqueda s
  = (inr tt, con_busquedas (λ d, vigentes d ahora) s).
Proof.
  apply (bucle_de_borrado _cache_busquedas con_busquedas del_busqueda);
    try done.
  - intros f g [] Hfg. unfold con_busquedas. simpl in *. by rewrite Hfg.
  - by intros [].
  - apply del_busqueda_spec.
Qed.

Lemma bucle_ids_departamento (ahora : Q) (s : AlmacenDatos) :
  para_cada (claves_expiradas (_cache_ids_departamento s) ahora)
            del_ids_departamento s
  = (inr tt, con_ids_departamento (λ d, vigentes d ahora) s).
Proof.
  apply (bucle_de_borrado _cache_ids_departamento con_ids_departamento
           del_ids_departamento); try done.
  - intros f g [] Hfg. unfold con_ids_departamento. simpl in *. by rewrite Hfg.
  - by intros [].
  - apply del_ids_departamento_spec.
Qed.

(** The sweep never raises and leaves exactly [barrido]. *)
Lemma _limpiar_entradas_expiradas_spec (ahora : Q) (s : AlmacenDatos) :
  _limpiar_entradas_expiradas ahora s = (inr tt, barrido ahora s).
Proof.
  unfold _limpiar_entradas_expiradas.
  unfold bind at 1. unfold leer at 1.
  unfold bind at 1. rewrite bucle_obras.
  unfold bind at 1. unfold leer at 1.
  unfold bind at 1. rewrite bucle_busquedas.
  unfold bind at 1. unfold leer at 1.
  unfold bind at 1. rewrite bucle_ids_departamento.
  unfold bind at 1. unfold leer at 1.
  destruct s as [ob [e|] bu ids es]; simpl; [|done].
  unfold barrido; simpl. by destruct (es_valida e ahora).
Qed.

Lemma _limpiar_cache_si_necesario_spec (ahora : Q) (s : AlmacenDatos) :
  _limpiar_cache_si_necesario ahora s
  = (inr tt, tras_comprobar_limpieza ahora s).
Proof.
  unfold _limpiar_cache_si_necesario, tras_comprobar_limpieza, bind, leer.
  destruct (1000 <? total_entradas s); [|done].
  by rewrite _limpiar_entradas_expiradas_spec.
Qed.

(** ** Closed forms of the public methods *)

Lemma almacenar_obra_spec (obra : valor) (ahora : Q) (s : AlmacenDatos) :
  almacenar_obra obra ahora s
  = match obra with
    | VObra o =>
        (inr tt,
         tras_comprobar_limpieza ahora
           (con_obras
              <[id_obra o := nueva_EntradaCache obra TIEMPO_VIDA_OBRAS ahora]>
              s))
    | _ => (inl (ValueError "El parámetro debe ser una instancia de ObraArte"),
            s)
    end.
Proof.
  unfold almacenar_obra. destruct obra; try done. simpl.
  unfold bind, ret, modificar.
  by rewrite _limpiar_cache_si_necesario_spec.
Qed.

Lemma almacenar_resultado_busqueda_spec (k : string) (ids : valor) (ahora : Q)
    (s : AlmacenDatos) :
  almacenar_resultado_busqueda k ids ahora s
  = match ids with
    | VLista _ =>
        (inr tt,
         tras_comprobar_limpieza ahora
           (con_busquedas
              <[k := nueva_EntradaCache ids TIEMPO_VIDA_BUSQUEDAS ahora]> s))
    | _ => (inl (ValueError "ids_obras debe ser una lista"), s)
    end.
Proof.
  unfold almacenar_resultado_busqueda. destruct ids; try done. simpl.
  unfold bind, modificar.
  by rewrite _limpiar_cache_si_necesario_spec.
Qed.

Lemma almacenar_ids_departamento_spec (k : Z) (ids : valor) (ahora : Q)
    (s : AlmacenDatos) :
  almacenar_ids_departamento k ids ahora s
  = match ids with
    | VLista _ =>
        (inr tt,
         con_ids_departamento
           <[k := nueva_EntradaCache ids TIEMPO_VIDA_LISTAS_IDS ahora]> s)
    | _ => (inl (ValueError "ids_obras debe ser una lista"), s)
    end.
Proof. unfold almacenar_ids_departamento. by destruct ids. Qed.

Lemma almacenar_departamentos_spec (d : valor) (ahora : Q) (s : AlmacenDatos) :
  almacenar_departamentos d ahora s
  = match d with
    | VLista _ =>
        (inr tt,
         con_departamentos
           (Some (nueva_EntradaCache d TIEMPO_VIDA_DEPARTAMENTOS ahora)) s)
    | _ => (inl (ValueError "El parámetro debe ser una lista de departamentos"),
            s)
    end.
Proof. unfold almacenar_departamentos. by destruct d. Qed.

(** The three outcomes of a lookup in the works region. *)
Lemma obtener_obra_spec (id : Z) (ahora : Q) (s : AlmacenDatos) :
  obtener_obra id ahora s
  = match _cache_obras s !! id with
    | Some e =>
        if is_not_None (obtener_datos e ahora)
        then (inr (obtener_datos e ahora),
              con_estadisticas (incrementar Hits_obras) s)
        else (inr VNone,
              con_estadisticas (incrementar Misses_obras)
                (con_obras (delete id) s))
    | None => (inr VNone, con_estadisticas (incrementar Misses_obras) s)
    end.
Proof.
  unfold obtener_obra, bind, leer, subscript, contiene.
  destruct (_cache_obras s !! id) as [e|] eqn:He; simpl; [|done].
  destruct (is_not_None (obtener_datos e ahora)); simpl; [done|].
  rewrite del_obra_spec. unfold contiene. by rewrite He.
Qed.

Lemma obtener_resultado_busqueda_spec (k : string) (ahora : Q)
    (s : AlmacenDatos) :
  obtener_resultado_busqueda k ahora s
  = match _cache_busquedas s !! k with
    | Some e =>
        if is_not_None (obtener_datos e ahora)
        then (inr (obtener_datos e ahora),
              con_estadisticas (incrementar Hits_busquedas) s)
        else (inr VNone,
              con_estadisticas (incrementar Misses_busquedas)
                (con_busquedas (delete k) s))
    | None => (inr VNone, con_estadisticas (incrementar Misses_busquedas) s)
    end.
Proof.
  unfold obtener_resultado_busqueda, bind, leer, subscript, contiene.
  destruct (_cache_busquedas s !! k) as [e|] eqn:He; simpl; [|done].
  destruct (is_not_None (obtener_datos e ahora)); simpl; [done|].
  rewrite del_busqueda_spec. unfold contiene. by rewrite He.
Qed.

Lemma obtener_ids_departamento_spec (k : Z) (ahora : Q) (s : AlmacenDatos) :
  obtener_ids_departamento k ahora s
  = match _cache_ids_departamento s !! k with
    | Some e =>
        if is_not_None (obtener_datos e ahora)
        then (inr (obtener_datos e ahora), s)
        else (inr VNone, con_ids_departamento (delete k) s)
    | None => (inr VNone, s)
    end.
Proof.
  unfold obtener_ids_departamento, bind, leer, subscript, contiene.
  destruct (_cache_ids_departamento s !! k) as [e|] eqn:He; simpl; [|done].
  destruct (is_not_None (obtener_datos e ahora)); simpl; [done|].
  rewrite del_ids_departamento_spec. unfold contiene. by rewrite He.
Qed.

Lemma obtener_departamentos_spec (ahora : Q) (s : AlmacenDatos) :
  obtener_departamentos ahora s
  = match _cache_departamentos s with
    | Some e =>
        if is_not_None (obtener_datos e ahora)
        then (inr (obtener_datos e ahora),
              con_estadisticas (incrementar Hits_departamentos) s)
        else (inr VNone,
              con_estadisticas (incrementar Misses_departamentos)
                (con_departamentos None s))
    | None =>
        (inr VNone, con_estadisticas (incrementar Misses_departamentos) s)
    end.
Proof.
  unfold obtener_departamentos, bind, leer.
  destruct (_cache_departamentos s) as [e|]; simpl; [|done].
  by destruct (is_not_None (obtener_datos e ahora)).
Qed.

Lemma limpiar_cache_manual_spec (ahora : Q) (s : AlmacenDatos) :
  limpiar_cache_manual ahora s
  = (inr {| obras_eliminadas :=
              len (_cache_obras s) - len (vigentes (_cache_obras s) ahora);
            busquedas_eliminadas :=
              len (_cache_busquedas s)
              - len (vigentes (_cache_busquedas s) ahora);
            ids_departamentos_eliminados :=
              len (_cache_ids_departamento s)
              - len (vigentes (_cache_ids_departamento s) ahora);
            departamentos_eliminados :=
              uno_si_presente (_cache_departamentos s)
              - uno_si_presente
                  (departamentos_vigentes (_cache_departamentos s) ahora) |},
     barrido ahora s).
Proof.
  unfold limpiar_cache_manual, bind, leer.
  by rewrite _limpiar_entradas_expiradas_spec.
Qed.

(** ** Well-formedness is an invariant of the public interface *)

Lemma vigentes_lookup {K} `{Countable K} (d : gmap K EntradaCache)
    (ahora : Q) (k : K) :
  vigentes d ahora !! k
  = match d !! k with
    | Some e => if es_valida e ahora then Some e else None
    | None => None
    end.
Proof.
  unfold vigentes. rewrite map_lookup_filter.
  destruct (d !! k) as [e|]; simpl; [|done].
  case_guard as Hv; simpl in *; [by rewrite Hv|].
  by destruct (es_valida e ahora).
Qed.

Lemma vigentes_Forall {K} `{Countable K} (P : K → EntradaCache → Prop)
    (d : gmap K EntradaCache) (ahora : Q) :
  map_Forall P d → map_Forall P (vigentes d ahora).
Proof.
  intros HP k e. rewrite vigentes_lookup.
  destruct (d !! k) as [e'|] eqn:Hk; [|done].
  destruct (es_valida e' ahora); [|done]. intros [= <-]. by apply HP.
Qed.

Lemma bien_formado_nuevo : bien_formado nuevo_AlmacenDatos.
Proof. split; simpl; try apply map_Forall_empty. done. Qed.

Lemma bien_formado_con_estadisticas f s :
  bien_formado s → bien_formado (con_estadisticas f s).
Proof. intros []. by split. Qed.

Lemma bien_formado_barrido ahora s :
  bien_formado s → bien_formado (barrido ahora s).
Proof.
  intros [Ho Hd Hb Hi]. split; simpl; try by apply vigentes_Forall.
  intros e He. apply Hd. destruct (_cache_departamentos s) as [e'|]; [|done].
  simpl in He. by destruct (es_valida e' ahora).
Qed.

Lemma bien_formado_tras_comprobar_limpieza ahora s :
  bien_formado s → bien_formado (tras_comprobar_limpieza ahora s).
Proof.
  intros Hs. unfold tras_comprobar_limpieza.
  destruct (1000 <? total_entradas s); [|done].
  by apply bien_formado_con_estadisticas, bien_formado_barrido.
Qed.

(** ** The search by predicate *)

(** The loop of [buscar_obras_por_criterio] reads the store and never
    writes it, whether the predicate answers or raises. *)
Lemma recorrer_obras_estado (criterio : valor → resultado bool) (ahora : Q)
    (entradas : list EntradaCache) (obras : list valor) (s : AlmacenDatos) :
  (recorrer_obras criterio ahora entradas obras s).2 = s.
Proof.
  revert obras. induction entradas as [|entrada resto IH]; intros obras;
    [done|].
  cbn [recorrer_obras].
  destruct (is_not_None (obtener_datos entrada ahora)); [|apply IH].
  destruct (criterio (obtener_datos entrada ahora)) as [e|[]];
    [done | apply IH | apply IH].
Qed.

Lemma buscar_obras_por_criterio_estado (criterio : valor → resultado bool)
    (ahora : Q) (s : AlmacenDatos) :
  (buscar_obras_por_criterio criterio ahora s).2 = s.
Proof.
  unfold buscar_obras_por_criterio, bind, leer. apply recorrer_obras_estado.
Qed.

Lemma ejecutar_buscar (criterio : valor → resultado bool) (ahora : Q)
    (s : AlmacenDatos) :
  ejecutar (Buscar_obras_por_criterio criterio) ahora s
  = (match (buscar_obras_por_criterio criterio ahora s).1 with
     | inl e => inl e
     | inr obras => inr (RObras obras)
     end, s).
Proof.
  unfold ejecutar, responder, bind.
  pose proof (buscar_obras_por_criterio_estado criterio ahora s) as Hs.
  destruct (buscar_obras_por_criterio criterio ahora s) as [[e|obras] s'];
    simpl in *; by subst s'.
Qed.

(** The loop with a predicate that always answers is the fold that keeps
    the valid works the predicate accepts. *)
Lemma recorrer_obras_responde (criterio : valor → bool) (ahora : Q)
    (entradas : list EntradaCache) (obras : list valor) (s : AlmacenDatos) :
  recorrer_obras (responde criterio) ahora entradas obras s
  = (inr (foldl
            (λ obras_encontradas entrada,
               let obra := obtener_datos entrada ahora in
               if is_not_None obra && criterio obra
               then obras_encontradas ++ [obra]
               else obras_encontradas)
            obras entradas), s).
Proof.
  revert obras. induction entradas as [|entrada resto IH]; intros obras;
    [done|].
  cbn [recorrer_obras foldl]. unfold responde at 1.
  destruct (is_not_None (obtener_datos entrada ahora)); simpl; [|apply IH].
  destruct (criterio (obtener_datos entrada ahora)); apply IH.
Qed.

(** The loop raises exactly when the predicate raises on a valid work it
    meets, and what it raises is what the predicate raised there. *)
Lemma recorrer_obras_lanza (criterio : valor → resultado bool) (ahora : Q)
    (entradas : list EntradaCache) (obras : list valor) (s : AlmacenDatos) :
  (∀ e, (recorrer_obras criterio ahora entradas obras s).1 = inl e →
        ∃ entrada, entrada ∈ entradas
          ∧ is_not_None (obtener_datos entrada ahora) = true
          ∧ criterio (obtener_datos entrada ahora) = inl e)
  ∧ ((∃ entrada e, entrada ∈ entradas
        ∧ is_not_None (obtener_datos entrada ahora) = true
        ∧ criterio (obtener_datos entrada ahora) = inl e) →
     ∃ e, (recorrer_obras criterio ahora entradas obras s).1 = inl e).
Proof.
  revert obras. induction entradas as [|entrada resto IH]; intros obras.
  - split; [done|]. intros (x & e & Hx & _). by apply elem_of_nil in Hx.
  - cbn [recorrer_obras].
    destruct (is_not_None (obtener_datos entrada ahora)) eqn:Hn.
    + destruct (criterio (obtener_datos entrada ahora)) as [e0|b] eqn:Hc.
      * split.
        -- intros e [= <-]. exists entrada. split_and!; try done.
           apply elem_of_cons. by left.
        -- intros _. by exists e0.
      * assert (Hrec : ∀ obras',
                  (∀ e, (recorrer_obras criterio ahora resto obras' s).1
                        = inl e →
                        ∃ x, x ∈ entrada :: resto
                          ∧ is_not_None (obtener_datos x ahora) = true
                          ∧ criterio (obtener_datos x ahora) = inl e)
                  ∧ ((∃ x e, x ∈ entrada :: resto
                        ∧ is_not_None (obtener_datos x ahora) = true
                        ∧ criterio (obtener_datos x ahora) = inl e) →
                     ∃ e, (recorrer_obras criterio ahora resto obras' s).1
                          = inl e)).
        { intros obras'. destruct (IH obras') as [IH1 IH2]. split.
          - intros e He. destruct (IH1 e He) as (x & Hx & Hv & Hf).
            exists x. split_and!; try done. apply elem_of_cons. by right.
          - intros (x & e & Hx & Hv & Hf). apply IH2.
            apply elem_of_cons in Hx as [->|Hx]; [congruence|].
            by exists x, e. }
        destruct b; apply Hrec.
    + destruct (IH obras) as [IH1 IH2]. split.
      * intros e He. destruct (IH1 e He) as (x & Hx & Hv & Hf).
        exists x. split_and!; try done. apply elem_of_cons. by right.
      * intros (x & e & Hx & Hv & Hf). apply IH2.
        apply elem_of_cons in Hx as [->|Hx]; [congruence|].
        by exists x, e.
Qed.

Lemma buscar_obras_por_criterio_lanza (criterio : valor → resultado bool)
    (ahora : Q) (s : AlmacenDatos) :
  (∀ e, (buscar_obras_por_criterio criterio ahora s).1 = inl e →
        criterio_lanza criterio ahora s e)
  ∧ ((∃ e, criterio_lanza criterio ahora s e) →
     ∃ e, (buscar_obras_por_criterio criterio ahora s).1 = inl e).
Proof.
  unfold buscar_obras_por_criterio, bind, leer, criterio_lanza.
  destruct (recorrer_obras_lanza criterio ahora
              (map_to_list (_cache_obras s)).*2 [] s) as [H1 H2].
  split.
  - intros e He. destruct (H1 e He) as (x & Hx & Hv & Hf).
    apply list_elem_of_fmap in Hx as ([k x'] & -> & Hkx).
    apply elem_of_map_to_list in Hkx. by exists k, x'.
  - intros (e & k & x & Hk & Hv & Hf). apply H2. exists x, e.
    split_and!; try done. apply list_elem_of_fmap. exists (k, x).
    split; [done|]. by apply elem_of_map_to_list.
Qed.

(** The case of the search in an analysis by call: the store is the one
    before, whatever the outcome. *)
Ltac caso_buscar criterio ahora s :=
  let Hs := fresh "Hs" in
  let s' := fresh "s'" in
  pose proof (buscar_obras_por_criterio_estado criterio ahora s) as Hs;
  destruct (buscar_obras_por_criterio criterio ahora s) as [[?|?] s'];
  simpl in Hs; subst s'; simpl.

Lemma ejecutar_bien_formado (c : llamada) (ahora : Q) (s : AlmacenDatos) :
  bien_formado s → bien_formado (ejecutar c ahora s).2.
Proof.
  intros Hs. pose proof Hs as [Ho Hd Hb Hi].
  destruct c; unfold ejecutar, responder, bind; simpl.
  - rewrite obtener_obra_spec.
    destruct (_cache_obras s !! id) as [e|]; simpl;
      [destruct (is_not_None _); simpl|];
      apply bien_formado_con_estadisticas; try done.
    split; simpl; try done. by apply map_Forall_delete.
  - rewrite almacenar_obra_spec. destruct obra; simpl; try done.
    apply bien_formado_tras_comprobar_limpieza.
    split; simpl; try done. apply map_Forall_insert_2; [|done].
    by exists o.
  - rewrite obtener_departamentos_spec.
    destruct (_cache_departamentos s) as [e|]; simpl;
      [destruct (is_not_None _); simpl|];
      apply bien_formado_con_estadisticas; done.
  - rewrite almacenar_departamentos_spec.
    destruct departamentos; simpl; try done.
    split; simpl; try done. intros e [= <-]. simpl. eauto.
  - rewrite obtener_resultado_busqueda_spec.
    destruct (_cache_busquedas s !! clave_busqueda) as [e|]; simpl;
      [destruct (is_not_None _); simpl|];
      apply bien_formado_con_estadisticas; try done.
    split; simpl; try done. by apply map_Forall_delete.
  - rewrite almacenar_resultado_busqueda_spec.
    destruct ids_obras; simpl; try done.
    apply bien_formado_tras_comprobar_limpieza.
    split; simpl; try done. apply map_Forall_insert_2; [|done].
    simpl. eauto.
  - rewrite obtener_ids_departamento_spec.
    destruct (_cache_ids_departamento s !! id_dep) as [e|]; simpl;
      [destruct (is_not_None _); simpl|]; try done.
    split; simpl; try done. by apply map_Forall_delete.
  - rewrite almacenar_ids_departamento_spec.
    destruct ids_obras; simpl; try done.
    split; simpl; try done. apply map_Forall_insert_2; [|done].
    simpl. eauto.
  - caso_buscar criterio ahora s; done.
  - split; simpl; done || apply map_Forall_empty.
  - by split.
  - split; simpl; done || apply map_Forall_empty.
  - split; simpl; done || apply map_Forall_empty.
  - done.
  - rewrite limpiar_cache_manual_spec. simpl. by apply bien_formado_barrido.
Qed.

Lemma estado_tras_bien_formado traza s :
  bien_formado s → bien_formado (estado_tras traza s).
Proof.
  revert s. induction traza as [|[c t] traza IH]; intros s Hs; [done|].
  simpl. by apply IH, ejecutar_bien_formado.
Qed.

Lemma alcanzable_bien_formado s : alcanzable s → bien_formado s.
Proof.
  intros [traza ->]. apply estado_tras_bien_formado, bien_formado_nuevo.
Qed.

(** ** Lookups after a store *)

Lemma Qminus_diag_lt (t tv : Q) : (0 < tv)%Q → (t - t < tv)%Q.
Proof. intros Htv. unfold Qminus. by rewrite Qplus_opp_r. Qed.

Lemma tras_comprobar_limpieza_obras (ahora : Q) (s : AlmacenDatos) (k : Z)
    (e : EntradaCache) :
  _cache_obras s !! k = Some e → es_valida e ahora = true →
  _cache_obras (tras_comprobar_limpieza ahora s) !! k = Some e.
Proof.
  intros Hk Hv. unfold tras_comprobar_limpieza.
  destruct (1000 <? total_entradas s); [|done].
  simpl. by rewrite vigentes_lookup, Hk, Hv.
Qed.

Lemma tras_comprobar_limpieza_busquedas (ahora : Q) (s : AlmacenDatos)
    (k : string) (e : EntradaCache) :
  _cache_busquedas s !! k = Some e → es_valida e ahora = true →
  _cache_busquedas (tras_comprobar_limpieza ahora s) !! k = Some e.
Proof.
  intros Hk Hv. unfold tras_comprobar_limpieza.
  destruct (1000 <? total_entradas s); [|done].
  simpl. by rewrite vigentes_lookup, Hk, Hv.
Qed.

Lemma tras_comprobar_limpieza_obras_None (ahora : Q) (s : AlmacenDatos)
    (k : Z) :
  _cache_obras s !! k = None →
  _cache_obras (tras_comprobar_limpieza ahora s) !! k = None.
Proof.
  intros Hk. unfold tras_comprobar_limpieza.
  destruct (1000 <? total_entradas s); [|done].
  simpl. by rewrite vigentes_lookup, Hk.
Qed.

(** The entry just stored survives the cleanup of its own call. *)
Lemma almacenar_obra_lookup (o : ObraArte) (ahora : Q) (s : AlmacenDatos) :
  almacenar_obra (VObra o) ahora s
  = (inr tt, (almacenar_obra (VObra o) ahora s).2)
  ∧ _cache_obras (almacenar_obra (VObra o) ahora s).2 !! id_obra o
    = Some (nueva_EntradaCache (VObra o) TIEMPO_VIDA_OBRAS ahora).
Proof.
  rewrite almacenar_obra_spec. split; [done|]. simpl.
  apply tras_comprobar_limpieza_obras.
  - simpl. apply lookup_insert_eq.
  - apply es_valida_nueva. by apply Qminus_diag_lt.
Qed.

Lemma almacenar_resultado_busqueda_lookup (k : string) (l : list valor)
    (ahora : Q) (s : AlmacenDatos) :
  almacenar_resultado_busqueda k (VLista l) ahora s
  = (inr tt, (almacenar_resultado_busqueda k (VLista l) ahora s).2)
  ∧ _cache_busquedas (almacenar_resultado_busqueda k (VLista l) ahora s).2 !! k
    = Some (nueva_EntradaCache (VLista l) TIEMPO_VIDA_BUSQUEDAS ahora).
Proof.
  rewrite almacenar_resultado_busqueda_spec. split; [done|]. simpl.
  apply tras_comprobar_limpieza_busquedas.
  - simpl. apply lookup_insert_eq.
  - apply es_valida_nueva. by apply Qminus_diag_lt.
Qed.

(** A dictionary holds at most one entry per key. *)
Lemma una_entrada_por_clave {K} `{Countable K} (d : gmap K EntradaCache)
    (k : K) (e : EntradaCache) :
  d !! k = Some e →
  filter (λ p, p.1 = k) (map_to_list d) = [(k, e)].
Proof.
  intros Hk.
  assert (Hnd : NoDup (filter (λ p : K * EntradaCache, p.1 = k) (map_to_list d)))
    by apply NoDup_filter, NoDup_map_to_list.
  assert (Hall : ∀ p, p ∈ filter (λ p : K * EntradaCache, p.1 = k) (map_to_list d)
                      ↔ p = (k, e)).
  { intros [k' e']. rewrite list_elem_of_filter, elem_of_map_to_list. simpl.
    split; [intros [-> He']; congruence | intros [= -> ->]; done]. }
  destruct (filter _ _) as [|p l].
  - exfalso. eapply not_elem_of_nil. by apply Hall.
  - assert (p = (k, e)) as -> by (apply Hall; left).
    destruct l as [|q l]; [done|].
    assert (q = (k, e)) as -> by (apply Hall; right; left).
    apply NoDup_cons in Hnd as [Hn _]. exfalso. apply Hn. left.
Qed.

(** ** Ids that were never stored *)

Lemma ejecutar_obra_ausente (c : llamada) (ahora : Q) (s : AlmacenDatos)
    (id : Z) :
  almacena_id id c = false →
  _cache_obras s !! id = None →
  _cache_obras (ejecutar c ahora s).2 !! id = None.
Proof.
  intros Hc Hid.
  destruct c; unfold ejecutar, responder, bind; simpl; try done.
  - rewrite obtener_obra_spec.
    destruct (_cache_obras s !! id0) as [e|]; simpl;
      [destruct (is_not_None _); simpl|]; try done.
    rewrite lookup_delete_None. by right.
  - rewrite almacenar_obra_spec. destruct obra; simpl; try done.
    apply tras_comprobar_limpieza_obras_None. simpl.
    simpl in Hc. apply bool_decide_eq_false in Hc.
    by rewrite lookup_insert_ne.
  - rewrite obtener_departamentos_spec.
    destruct (_cache_departamentos s) as [e|]; simpl;
      [destruct (is_not_None _); simpl|]; done.
  - rewrite almacenar_departamentos_spec.
    by destruct departamentos.
  - rewrite obtener_resultado_busqueda_spec.
    destruct (_cache_busquedas s !! clave_busqueda) as [e|]; simpl;
      [destruct (is_not_None _); simpl|]; done.
  - rewrite almacenar_resultado_busqueda_spec.
    destruct ids_obras; simpl; try done.
    by apply tras_comprobar_limpieza_obras_None.
  - rewrite obtener_ids_departamento_spec.
    destruct (_cache_ids_departamento s !! id_dep) as [e|]; simpl;
      [destruct (is_not_None _); simpl|]; done.
  - rewrite almacenar_ids_departamento_spec.
    by destruct ids_obras.
  - caso_buscar criterio ahora s; done.
  - rewrite limpiar_cache_manual_spec. simpl.
    by rewrite vigentes_lookup, Hid.
Qed.

Lemma estado_tras_obra_ausente (traza : list (llamada * Q))
    (s : AlmacenDatos) (id : Z) :
  forallb (λ cq, negb (almacena_id id cq.1)) traza = true →
  _cache_obras s !! id = None →
  _cache_obras (estado_tras traza s) !! id = None.
Proof.
  revert s. induction traza as [|[c t] traza IH]; intros s Hn Hid; [done|].
  simpl in Hn. apply andb_true_iff in Hn as [Hc Hn].
  simpl. apply IH; [done|].
  apply ejecutar_obra_ausente; [|done]. by apply negb_true_iff.
Qed.

(** ** Entries that stay *)

Lemma ejecutar_obra_presente (c : llamada) (ahora : Q) (s : AlmacenDatos)
    (id : Z) (e : EntradaCache) :
  conserva_obra id c = true →
  is_not_None (datos e) = true →
  es_valida e ahora = true →
  _cache_obras s !! id = Some e →
  _cache_obras (ejecutar c ahora s).2 !! id = Some e.
Proof.
  intros Hc Hd Hv He.
  destruct c; unfold ejecutar, responder, bind; simpl; try done.
  - rewrite obtener_obra_spec.
    destruct (decide (id0 = id)) as [->|Hne].
    + rewrite He. unfold obtener_datos. by rewrite Hv, Hd.
    + destruct (_cache_obras s !! id0) as [e0|]; simpl;
        [destruct (is_not_None (obtener_datos e0 ahora)); simpl|]; try done.
      by rewrite lookup_delete_ne.
  - rewrite almacenar_obra_spec. destruct obra; simpl; try done.
    apply tras_comprobar_limpieza_obras; [|done]. simpl.
    simpl in Hc. apply negb_true_iff, bool_decide_eq_false in Hc.
    by rewrite lookup_insert_ne.
  - rewrite obtener_departamentos_spec.
    destruct (_cache_departamentos s) as [e0|]; simpl;
      [destruct (is_not_None (obtener_datos e0 ahora)); simpl|]; done.
  - rewrite almacenar_departamentos_spec.
    by destruct departamentos.
  - rewrite obtener_resultado_busqueda_spec.
    destruct (_cache_busquedas s !! clave_busqueda) as [e0|]; simpl;
      [destruct (is_not_None (obtener_datos e0 ahora)); simpl|]; done.
  - rewrite almacenar_resultado_busqueda_spec.
    destruct ids_obras; simpl; try done.
    by apply tras_comprobar_limpieza_obras.
  - rewrite obtener_ids_departamento_spec.
    destruct (_cache_ids_departamento s !! id_dep) as [e0|]; simpl;
      [destruct (is_not_None (obtener_datos e0 ahora)); simpl|]; done.
  - rewrite almacenar_ids_departamento_spec.
    by destruct ids_obras.
  - caso_buscar criterio ahora s; done.
  - rewrite limpiar_cache_manual_spec. simpl.
    by rewrite vigentes_lookup, He, Hv.
Qed.

Lemma estado_tras_obra_presente (traza : list (llamada * Q))
    (s : AlmacenDatos) (id : Z) (e : EntradaCache) :
  forallb (λ cq, conserva_obra id cq.1 && es_valida e cq.2) traza = true →
  is_not_None (datos e) = true →
  _cache_obras s !! id = Some e →
  _cache_obras (estado_tras traza s) !! id = Some e.
Proof.
  revert s. induction traza as [|[c t] traza IH]; intros s Hn Hd He; [done|].
  simpl in Hn. apply andb_true_iff in Hn as [[Hc Hv]%andb_true_iff Hn].
  simpl. apply IH; [done..|].
  by apply ejecutar_obra_presente.
Qed.

(** ** The unit tests of the repository, replayed on the model *)

Example test_entrada_cache_expirada :
  let entrada := nueva_EntradaCache (VCadena "test_data") (1 # 10) 0 in
  es_valida entrada 0 = true
  ∧ obtener_datos entrada 0 = VCadena "test_data"
  ∧ es_valida entrada (1 # 5) = false
  ∧ obtener_datos entrada (1 # 5) = VNone.
Proof. by vm_compute. Qed.

Example test_almacenar_y_obtener_obra :
  (obtener_obra 123 0 nuevo_AlmacenDatos).1 = inr VNone
  ∧ (obtener_obra 123 1
       (almacenar_obra (VObra obra_test) 0 nuevo_AlmacenDatos).2).1
    = inr (VObra obra_test).
Proof. by vm_compute. Qed.

Example test_almacenar_obra_invalida :
  almacenar_obra (VCadena "not_an_obra") 0 nuevo_AlmacenDatos
  = (inl (ValueError "El parámetro debe ser una instancia de ObraArte"),
     nuevo_AlmacenDatos).
Proof. reflexivity. Qed.

Example test_invalidar_todo_cache :
  let lleno :=
    estado_tras [(Almacenar_obra (VObra obra_test), 0%Q);
                 (Almacenar_departamentos departamentos_test, 0%Q);
                 (Almacenar_resultado_busqueda "test" (VLista [VEntero 123]),
                  0%Q);
                 (Almacenar_ids_departamento 1 (VLista [VEntero 123]), 0%Q)]
      nuevo_AlmacenDatos in
  let vacio := (invalidar_todo_cache lleno).2 in
  (obtener_obra 123 1 lleno).1 = inr (VObra obra_test)
  ∧ (obtener_departamentos 1 lleno).1 = inr departamentos_test
  ∧ (obtener_resultado_busqueda "test" 1 lleno).1 = inr (VLista [VEntero 123])
  ∧ (obtener_ids_departamento 1 1 lleno).1 = inr (VLista [VEntero 123])
  ∧ (obtener_obra 123 1 vacio).1 = inr VNone
  ∧ (obtener_departamentos 1 vacio).1 = inr VNone
  ∧ (obtener_resultado_busqueda "test" 1 vacio).1 = inr VNone
  ∧ (obtener_ids_departamento 1 1 vacio).1 = inr VNone.
Proof. by vm_compute. Qed.

(** * The claims *)

(** C2. An entry created with value [v] and time-to-live [T] at the instant
    [t0] is valid at [ahora] exactly when [ahora - t0 < T]; [obtener_datos]
    returns [v] when the entry is valid and [None] otherwise. Neither
    method assigns to the entry, and a read does not remove the entry from
    the region that owns it: [buscar_obras_por_criterio], which calls
    [obtener_datos] on every entry of the works region, leaves the store as
    it found it, expired entries included, whether its predicate answers or
    raises. *)
Theorem EntradaCache_validez (v : valor) (T t0 ahora : Q) :
  let e := nueva_EntradaCache v T t0 in
  (es_valida e ahora = true ↔ (ahora - t0 < T)%Q)
  ∧ (es_valida e ahora = false ↔ (T <= ahora - t0)%Q)
  ∧ (es_valida e ahora = true ∧ obtener_datos e ahora = v
     ∨ es_valida e ahora = false ∧ obtener_datos e ahora = VNone)
  ∧ ∀ (s : AlmacenDatos) (criterio : valor → resultado bool),
      (buscar_obras_por_criterio criterio ahora s).2 = s.
Proof.
  intros e. split_and!.
  - apply es_valida_true.
  - apply es_valida_false.
  - unfold obtener_datos. destruct (es_valida e ahora); [left | right]; done.
  - intros s criterio. apply buscar_obras_por_criterio_estado.
Qed.

(** C1. Round trip of the works region. (a) After [almacenar_obra(w)] at
    [t0], [obtener_obra(w.id_obra)] at any [t1] with [t1 - t0 < 600] returns
    [w] and counts a hit; the same holds when other calls come in between,
    provided none of them empties the works region or stores another work
    under that id, and each runs while the entry is within its TTL. (b) In
    a store reached from [AlmacenDatos()] by
    calls none of which stored a work under [id], [obtener_obra(id)] returns
    [None] and counts a miss. (c) After two stores under the same id, the
    works dictionary holds exactly one entry under that id, the one of the
    second store, and the second work is the one retrieved within its
    TTL. *)
Theorem ida_y_vuelta_obras :
  (∀ (s : AlmacenDatos) (w : ObraArte) (t0 t1 : Q),
     (t1 - t0 < TIEMPO_VIDA_OBRAS)%Q →
     let s1 := (almacenar_obra (VObra w) t0 s).2 in
     almacenar_obra (VObra w) t0 s = (inr tt, s1)
     ∧ obtener_obra (id_obra w) t1 s1
       = (inr (VObra w), con_estadisticas (incrementar Hits_obras) s1))
  ∧ (∀ (s : AlmacenDatos) (w : ObraArte) (t0 t1 : Q)
       (traza : list (llamada * Q)),
       forallb (λ cq, conserva_obra (id_obra w) cq.1
                      && Qltb (cq.2 - t0) TIEMPO_VIDA_OBRAS) traza = true →
       (t1 - t0 < TIEMPO_VIDA_OBRAS)%Q →
       let s1 := estado_tras traza (almacenar_obra (VObra w) t0 s).2 in
       obtener_obra (id_obra w) t1 s1
       = (inr (VObra w), con_estadisticas (incrementar Hits_obras) s1))
  ∧ (∀ (traza : list (llamada * Q)) (id : Z) (t : Q),
       forallb (λ cq, negb (almacena_id id cq.1)) traza = true →
       let s := estado_tras traza nuevo_AlmacenDatos in
       obtener_obra id t s
       = (inr VNone, con_estadisticas (incrementar Misses_obras) s))
  ∧ (∀ (s : AlmacenDatos) (w1 w2 : ObraArte) (t0 t1 t2 : Q),
       id_obra w1 = id_obra w2 →
       (t2 - t1 < TIEMPO_VIDA_OBRAS)%Q →
       let s2 := (almacenar_obra (VObra w2) t1
                    (almacenar_obra (VObra w1) t0 s).2).2 in
       filter (λ p, p.1 = id_obra w2) (map_to_list (_cache_obras s2))
       = [(id_obra w2, nueva_EntradaCache (VObra w2) TIEMPO_VIDA_OBRAS t1)]
       ∧ obtener_obra (id_obra w2) t2 s2
         = (inr (VObra w2), con_estadisticas (incrementar Hits_obras) s2)).
Proof.
  assert (Hida : ∀ (s : AlmacenDatos) (w : ObraArte) (t0 t1 : Q),
     (t1 - t0 < TIEMPO_VIDA_OBRAS)%Q →
     obtener_obra (id_obra w) t1 (almacenar_obra (VObra w) t0 s).2
     = (inr (VObra w),
        con_estadisticas (incrementar Hits_obras)
          (almacenar_obra (VObra w) t0 s).2)).
  { intros s w t0 t1 Ht.
    destruct (almacenar_obra_lookup w t0 s) as [_ Hk].
    rewrite obtener_obra_spec, Hk. unfold obtener_datos.
    by rewrite es_valida_nueva. }
  split_and!.
  - intros s w t0 t1 Ht s1. split; [|by apply Hida].
    apply almacenar_obra_lookup.
  - intros s w t0 t1 traza Htr Ht s1. subst s1.
    destruct (almacenar_obra_lookup w t0 s) as [_ Hk].
    rewrite obtener_obra_spec.
    rewrite (estado_tras_obra_presente traza _ (id_obra w)
               (nueva_EntradaCache (VObra w) TIEMPO_VIDA_OBRAS t0));
      [|done..].
    unfold obtener_datos. by rewrite es_valida_nueva.
  - intros traza id t Hn s. subst s.
    rewrite obtener_obra_spec.
    by rewrite (estado_tras_obra_ausente traza nuevo_AlmacenDatos id).
  - intros s w1 w2 t0 t1 t2 Hid Ht s2. split; [|by apply Hida].
    apply una_entrada_por_clave, almacenar_obra_lookup.
Qed.

Lemma ida_y_vuelta_obras_witness :
  obtener_obra 123 599 (almacenar_obra (VObra obra_test) 0 nuevo_AlmacenDatos).2
  = (inr (VObra obra_test),
     con_estadisticas (incrementar Hits_obras)
       (almacenar_obra (VObra obra_test) 0 nuevo_AlmacenDatos).2)
  ∧ (obtener_obra 123 500
       (estado_tras [(Obtener_obra 999, 5%Q);
                     (Almacenar_obra (VObra obra_2), 10%Q);
                     (Limpiar_cache_manual, 100%Q)]
          (almacenar_obra (VObra obra_test) 0 nuevo_AlmacenDatos).2)).1
    = inr (VObra obra_test)
  ∧ (obtener_obra 999 5
       (estado_tras [(Almacenar_obra (VObra obra_test), 0%Q);
                     (Obtener_obra 123, 1%Q)] nuevo_AlmacenDatos)).1
    = inr VNone
  ∧ (obtener_obra 123 20
       (almacenar_obra (VObra obra_test_bis) 10
          (almacenar_obra (VObra obra_test) 0 nuevo_AlmacenDatos).2).2).1
    = inr (VObra obra_test_bis).
Proof.
  destruct ida_y_vuelta_obras as (Ha & Hentre & Hb & Hc). split_and!.
  - apply (Ha nuevo_AlmacenDatos obra_test 0%Q 599%Q). reflexivity.
  - assert (Hget := Hentre nuevo_AlmacenDatos obra_test 0%Q 500%Q
                      [(Obtener_obra 999, 5%Q);
                       (Almacenar_obra (VObra obra_2), 10%Q);
                       (Limpiar_cache_manual, 100%Q)] eq_refl eq_refl).
    change (id_obra obra_test) with 123 in Hget. by rewrite Hget.
  - rewrite (Hb [(Almacenar_obra (VObra obra_test), 0%Q);
                 (Obtener_obra 123, 1%Q)] 999 5%Q); reflexivity.
  - destruct (Hc nuevo_AlmacenDatos obra_test obra_test_bis 0%Q 10%Q 20%Q)
      as [_ Hget]; [reflexivity | reflexivity |].
    change (id_obra obra_test_bis) with 123 in Hget. by rewrite Hget.
Defined.

(** C3. Hit and miss accounting of [obtener_obra], in every store reached
    from [AlmacenDatos()] through the public methods. A valid entry: the
    cached work is returned, the hit counter grows by one, the miss counter
    and the dictionary are unchanged. An expired entry: [None] is returned,
    the miss counter grows by one, the hit counter is unchanged and the
    stale entry is deleted in the same call. No entry: [None] is returned,
    the miss counter grows by one, nothing else changes. *)
Theorem obtener_obra_contabilidad (traza : list (llamada * Q)) (id : Z)
    (ahora : Q) :
  let s := estado_tras traza nuevo_AlmacenDatos in
  let s' := (obtener_obra id ahora s).2 in
  match _cache_obras s !! id with
  | Some e =>
      if es_valida e ahora then
        (∃ w, datos e = VObra w ∧ id_obra w = id
              ∧ obtener_obra id ahora s
                = (inr (VObra w), con_estadisticas (incrementar Hits_obras) s))
        ∧ hits_obras (_estadisticas s') = hits_obras (_estadisticas s) + 1
        ∧ misses_obras (_estadisticas s') = misses_obras (_estadisticas s)
        ∧ _cache_obras s' = _cache_obras s
      else
        obtener_obra id ahora s
        = (inr VNone,
           con_estadisticas (incrementar Misses_obras)
             (con_obras (delete id) s))
        ∧ misses_obras (_estadisticas s') = misses_obras (_estadisticas s) + 1
        ∧ hits_obras (_estadisticas s') = hits_obras (_estadisticas s)
        ∧ _cache_obras s' = delete id (_cache_obras s)
        ∧ _cache_obras s' !! id = None
  | None =>
      obtener_obra id ahora s
      = (inr VNone, con_estadisticas (incrementar Misses_obras) s)
      ∧ misses_obras (_estadisticas s') = misses_obras (_estadisticas s) + 1
      ∧ hits_obras (_estadisticas s') = hits_obras (_estadisticas s)
      ∧ _cache_obras s' = _cache_obras s
  end.
Proof.
  intros s s'. subst s'. rewrite obtener_obra_spec.
  assert (Hbf : bien_formado s)
    by apply estado_tras_bien_formado, bien_formado_nuevo.
  destruct (_cache_obras s !! id) as [e|] eqn:He; [|done].
  unfold obtener_datos.
  destruct (es_valida e ahora) eqn:Hv.
  - destruct (bf_obras s Hbf id e He) as (w & Hw & Hid & _).
    rewrite Hw. simpl. split_and!; try done. by exists w.
  - simpl. split_and!; try done. apply lookup_delete_eq.
Qed.

(** C10. A cached empty list is a hit. After
    [almacenar_resultado_busqueda(k, [])] at [t0], a lookup of [k] at [t1]
    with [t1 - t0 < 300] returns the empty list and counts one search hit
    and no miss; likewise [almacenar_departamentos([])] followed by
    [obtener_departamentos] within 1800 seconds. The empty list is not the
    [None] of a miss. *)
Theorem lista_vacia_es_acierto :
  (∀ (s : AlmacenDatos) (k : string) (t0 t1 : Q),
     (t1 - t0 < TIEMPO_VIDA_BUSQUEDAS)%Q →
     let s1 := (almacenar_resultado_busqueda k (VLista []) t0 s).2 in
     let s2 := (obtener_resultado_busqueda k t1 s1).2 in
     almacenar_resultado_busqueda k (VLista []) t0 s = (inr tt, s1)
     ∧ obtener_resultado_busqueda k t1 s1
       = (inr (VLista []), con_estadisticas (incrementar Hits_busquedas) s1)
     ∧ hits_busquedas (_estadisticas s2) = hits_busquedas (_estadisticas s1) + 1
     ∧ misses_busquedas (_estadisticas s2) = misses_busquedas (_estadisticas s1))
  ∧ (∀ (s : AlmacenDatos) (t0 t1 : Q),
       (t1 - t0 < TIEMPO_VIDA_DEPARTAMENTOS)%Q →
       let s1 := (almacenar_departamentos (VLista []) t0 s).2 in
       let s2 := (obtener_departamentos t1 s1).2 in
       almacenar_departamentos (VLista []) t0 s = (inr tt, s1)
       ∧ obtener_departamentos t1 s1
         = (inr (VLista []),
            con_estadisticas (incrementar Hits_departamentos) s1)
       ∧ hits_departamentos (_estadisticas s2)
         = hits_departamentos (_estadisticas s1) + 1
       ∧ misses_departamentos (_estadisticas s2)
         = misses_departamentos (_estadisticas s1))
  ∧ VLista [] ≠ VNone.
Proof.
  split_and!; [| |done].
  - intros s k t0 t1 Ht s1 s2.
    destruct (almacenar_resultado_busqueda_lookup k [] t0 s) as [Hput Hk].
    assert (Hget : obtener_resultado_busqueda k t1 s1
              = (inr (VLista []),
                 con_estadisticas (incrementar Hits_busquedas) s1)).
    { subst s1. rewrite obtener_resultado_busqueda_spec, Hk.
      unfold obtener_datos. by rewrite es_valida_nueva. }
    subst s2. rewrite Hget. done.
  - intros s t0 t1 Ht s1 s2.
    assert (Hget : obtener_departamentos t1 s1
              = (inr (VLista []),
                 con_estadisticas (incrementar Hits_departamentos) s1)).
    { subst s1. rewrite obtener_departamentos_spec. simpl.
      unfold obtener_datos. by rewrite es_valida_nueva. }
    subst s2. rewrite Hget. done.
Qed.

Lemma lista_vacia_es_acierto_witness :
  obtener_resultado_busqueda "nationality:french" 299
    (almacenar_resultado_busqueda "nationality:french" (VLista []) 0
       nuevo_AlmacenDatos).2
  = (inr (VLista []),
     con_estadisticas (incrementar Hits_busquedas)
       (almacenar_resultado_busqueda "nationality:french" (VLista []) 0
          nuevo_AlmacenDatos).2)
  ∧ obtener_departamentos 1799
      (almacenar_departamentos (VLista []) 0 nuevo_AlmacenDatos).2
    = (inr (VLista []),
       con_estadisticas (incrementar Hits_departamentos)
         (almacenar_departamentos (VLista []) 0 nuevo_AlmacenDatos).2).
Proof.
  destruct lista_vacia_es_acierto as (Hb & Hd & _). split.
  - apply (Hb nuevo_AlmacenDatos "nationality:french"%string 0%Q 299%Q).
    reflexivity.
  - apply (Hd nuevo_AlmacenDatos 0%Q 1799%Q). reflexivity.
Defined.

(** C7. Region independence of invalidation. [invalidar_cache_obras]
    empties the works dictionary and leaves the departments slot, the
    searches, the department id lists and the counters as they were;
    [invalidar_cache_departamentos] and [invalidar_cache_busquedas] likewise
    touch only their own region; [invalidar_todo_cache] empties the four
    regions in one call and keeps the counters. None of them raises. *)
Theorem invalidacion_independiente (s : AlmacenDatos) :
  invalidar_cache_obras s
  = (inr tt,
     {| _cache_obras := ∅;
        _cache_departamentos := _cache_departamentos s;
        _cache_busquedas := _cache_busquedas s;
        _cache_ids_departamento := _cache_ids_departamento s;
        _estadisticas := _estadisticas s |})
  ∧ invalidar_cache_departamentos s
    = (inr tt,
       {| _cache_obras := _cache_obras s;
          _cache_departamentos := None;
          _cache_busquedas := _cache_busquedas s;
          _cache_ids_departamento := _cache_ids_departamento s;
          _estadisticas := _estadisticas s |})
  ∧ invalidar_cache_busquedas s
    = (inr tt,
       {| _cache_obras := _cache_obras s;
          _cache_departamentos := _cache_departamentos s;
          _cache_busquedas := ∅;
          _cache_ids_departamento := _cache_ids_departamento s;
          _estadisticas := _estadisticas s |})
  ∧ invalidar_todo_cache s
    = (inr tt,
       {| _cache_obras := ∅;
          _cache_departamentos := None;
          _cache_busquedas := ∅;
          _cache_ids_departamento := ∅;
          _estadisticas := _estadisticas s |}).
Proof. split_and!; reflexivity. Qed.

(** C6, as the code has it. An [almacenar_*] call raises exactly when its
    value has the wrong shape (not an [ObraArte] for [almacenar_obra], not a
    list for the other three); what it raises is a [ValueError], and the
    store, regions and counters alike, is then exactly the store before the
    call. The lookups, the invalidations, the statistics and the manual
    cleanup always return a value. [buscar_obras_por_criterio] calls the
    predicate of its caller unguarded: it raises exactly when the predicate
    raises on a cached work that is valid at the instant of the call, what
    it raises is what the predicate raised on such a work, and it returns
    whenever the predicate answers; raising or returning, it leaves the
    store exactly as it was. *)
Theorem fallo_por_argumento_invalido (c : llamada) (ahora : Q)
    (s : AlmacenDatos) :
  match c with
  | Buscar_obras_por_criterio criterio =>
      (ejecutar c ahora s).2 = s
      ∧ (∀ e, (ejecutar c ahora s).1 = inl e →
              criterio_lanza criterio ahora s e)
      ∧ ((∃ e, criterio_lanza criterio ahora s e) →
         ∃ e, (ejecutar c ahora s).1 = inl e)
      ∧ ((∀ v, ∃ b, criterio v = inr b) →
         ∃ r, (ejecutar c ahora s).1 = inr r)
  | _ =>
      if argumento_invalido c
      then ∃ mensaje, ejecutar c ahora s = (inl (ValueError mensaje), s)
      else ∃ r, (ejecutar c ahora s).1 = inr r
  end.
Proof.
  destruct c.
  9: { rewrite ejecutar_buscar. cbn [fst snd].
       destruct (buscar_obras_por_criterio_lanza criterio ahora s)
         as [Hsolo Hsi].
       split_and!.
       - done.
       - intros e He. apply Hsolo.
         destruct (buscar_obras_por_criterio criterio ahora s).1;
           congruence.
       - intros Hl. destruct (Hsi Hl) as [e He]. exists e. by rewrite He.
       - intros Hresp.
         destruct (buscar_obras_por_criterio criterio ahora s).1
           as [e|obras] eqn:Hb; [|eauto].
         destruct (Hsolo e eq_refl) as (k & x & _ & _ & Hf).
         destruct (Hresp (obtener_datos x ahora)) as [b Hb']. congruence. }
  all: unfold ejecutar, responder, bind; simpl.
  - rewrite obtener_obra_spec.
    destruct (_cache_obras s !! id) as [e|];
      [destruct (is_not_None _)|]; simpl; eauto.
  - rewrite almacenar_obra_spec. destruct obra; simpl; eauto.
  - rewrite obtener_departamentos_spec.
    destruct (_cache_departamentos s) as [e|];
      [destruct (is_not_None _)|]; simpl; eauto.
  - rewrite almacenar_departamentos_spec.
    destruct departamentos; simpl; eauto.
  - rewrite obtener_resultado_busqueda_spec.
    destruct (_cache_busquedas s !! clave_busqueda) as [e|];
      [destruct (is_not_None _)|]; simpl; eauto.
  - rewrite almacenar_resultado_busqueda_spec.
    destruct ids_obras; simpl; eauto.
  - rewrite obtener_ids_departamento_spec.
    destruct (_cache_ids_departamento s !! id_dep) as [e|];
      [destruct (is_not_None _)|]; simpl; eauto.
  - rewrite almacenar_ids_departamento_spec.
    destruct ids_obras; simpl; eauto.
  - eauto.
  - eauto.
  - eauto.
  - eauto.
  - eauto.
  - rewrite limpiar_cache_manual_spec. simpl. eauto.
Qed.

(** C6, as the specification words it, fails for the search: with a work
    whose artist has no nationality in the cache, the predicate
    [lambda obra: obra.artista.nacionalidad.startswith("Dutch")] raises
    [AttributeError], and so does [buscar_obras_por_criterio], which the
    claim lists among the operations that never raise. *)
Lemma busqueda_con_criterio_que_lanza :
  alcanzable almacen_con_anonima
  ∧ argumento_invalido (Buscar_obras_por_criterio criterio_holandes) = false
  ∧ buscar_obras_por_criterio criterio_holandes 1 almacen_con_anonima
    = (inl AttributeError, almacen_con_anonima)
  ∧ ejecutar (Buscar_obras_por_criterio criterio_holandes) 1
      almacen_con_anonima
    = (inl AttributeError, almacen_con_anonima)
  ∧ ¬ ∃ r, (ejecutar (Buscar_obras_por_criterio criterio_holandes) 1
              almacen_con_anonima).1 = inr r.
Proof.
  split_and!.
  - by exists [(Almacenar_obra (VObra obra_anonima), 0%Q)].
  - done.
  - by vm_compute.
  - by vm_compute.
  - intros [r Hr]. vm_compute in Hr. congruence.
Qed.

(** ** Counting valid and expired entries *)

Lemma expiradas_complemento {K} `{Countable K} (d : gmap K EntradaCache)
    (ahora : Q) :
  expiradas d ahora = filter (λ p, ¬ es_valida p.2 ahora = true) d.
Proof.
  unfold expiradas. apply map_filter_ext. intros k e _. simpl.
  by destruct (es_valida e ahora).
Qed.

Lemma len_vigentes_expiradas {K} `{Countable K} (d : gmap K EntradaCache)
    (ahora : Q) :
  len d = len (vigentes d ahora) + len (expiradas d ahora).
Proof.
  unfold len. rewrite expiradas_complemento. unfold vigentes.
  rewrite <- Nat2Z.inj_add, <- map_size_disj_union
    by apply map_disjoint_filter_complement.
  by rewrite map_filter_union_complement.
Qed.

Lemma expiradas_lookup {K} `{Countable K} (d : gmap K EntradaCache)
    (ahora : Q) (k : K) :
  expiradas d ahora !! k
  = match d !! k with
    | Some e => if es_valida e ahora then None else Some e
    | None => None
    end.
Proof.
  unfold expiradas. rewrite map_lookup_filter.
  destruct (d !! k) as [e|]; simpl; [|done].
  case_guard as Hv; simpl in *; [by rewrite Hv|].
  by destruct (es_valida e ahora).
Qed.

(** C4. The automatic cleanup after an insertion. [almacenar_obra] and
    [almacenar_resultado_busqueda] check the combined size of the three
    dictionaries after inserting: above 1000 the full sweep runs in the same
    call and [limpiezas_automaticas] grows by one, otherwise nothing more
    happens. [almacenar_ids_departamento] inserts and returns without the
    check. On the store holding the works 1..1000, all expired at the
    instant 700, [almacenar_ids_departamento(1, [7])] brings the combined
    size to 1001 and leaves the counter at 0 and the thousand expired works
    in place, where [almacenar_resultado_busqueda] on the same store sweeps
    them and counts one cleanup. *)
Theorem almacenar_ids_departamento_sin_limpieza :
  (∀ (s : AlmacenDatos) (w : ObraArte) (t : Q),
     let s0 := con_obras
                 <[id_obra w := nueva_EntradaCache (VObra w) TIEMPO_VIDA_OBRAS t]>
                 s in
     almacenar_obra (VObra w) t s
     = (inr tt,
        if 1000 <? total_entradas s0
        then con_estadisticas (incrementar Limpiezas_automaticas) (barrido t s0)
        else s0))
  ∧ (∀ (s : AlmacenDatos) (k : string) (l : list valor) (t : Q),
       let s0 := con_busquedas
                   <[k := nueva_EntradaCache (VLista l) TIEMPO_VIDA_BUSQUEDAS t]>
                   s in
       almacenar_resultado_busqueda k (VLista l) t s
       = (inr tt,
          if 1000 <? total_entradas s0
          then con_estadisticas (incrementar Limpiezas_automaticas)
                 (barrido t s0)
          else s0))
  ∧ (∀ (s : AlmacenDatos) (k : Z) (l : list valor) (t : Q),
       almacenar_ids_departamento k (VLista l) t s
       = (inr tt,
          con_ids_departamento
            <[k := nueva_EntradaCache (VLista l) TIEMPO_VIDA_LISTAS_IDS t]> s))
  ∧ (let s' := (almacenar_ids_departamento 1 (VLista [VEntero 7]) 700
                  almacen_mil_obras).2 in
     total_entradas s' = 1001
     ∧ limpiezas_automaticas (_estadisticas almacen_mil_obras) = 0
     ∧ limpiezas_automaticas (_estadisticas s') = 0
     ∧ len (expiradas (_cache_obras s') 700) = 1000)
  ∧ (let s' := (almacenar_resultado_busqueda "q" (VLista [VEntero 7]) 700
                  almacen_mil_obras).2 in
     limpiezas_automaticas (_estadisticas s') = 1
     ∧ len (_cache_obras s') = 0
     ∧ total_entradas s' = 1).
Proof.
  split_and!.
  - intros s w t s0. by rewrite almacenar_obra_spec.
  - intros s k l t s0. by rewrite almacenar_resultado_busqueda_spec.
  - intros s k l t. by rewrite almacenar_ids_departamento_spec.
  - vm_compute. done.
  - vm_compute. done.
Qed.

(** ** The memory estimate *)

Lemma py_int_suma (o d b i : Z) :
  0 <= o → 0 <= d → 0 <= b → 0 <= i →
  py_int (inject_Z (o * 2) + inject_Z d + inject_Z b * (1 # 2)
          + inject_Z (i * 1))%Q
  = 2 * o + d + b / 2 + i.
Proof.
  intros Ho Hd Hb Hi. unfold py_int. simpl.
  rewrite !Pos.mul_1_l, ?Pos.mul_1_r.
  rewrite Z.quot_div_nonneg by lia.
  replace (((o * 2 * 1 + d * 1) * 2 + b * 1 * 1) * 1 + i * 1 * 2)
    with (b + (2 * o + d + i) * 2) by lia.
  rewrite Z.div_add by lia. lia.
Qed.

Lemma py_int_suma_Q (o d b i : Z) :
  0 <= o → 0 <= d → 0 <= b → 0 <= i →
  py_int (inject_Z o * 2 + inject_Z d + inject_Z b * (1 # 2)
          + inject_Z i * 1)%Q
  = 2 * o + d + b / 2 + i.
Proof.
  intros Ho Hd Hb Hi. unfold py_int. simpl.
  rewrite !Pos.mul_1_l, ?Pos.mul_1_r.
  rewrite Z.quot_div_nonneg by lia.
  replace (((o * 2 * 1 + d * 1) * 2 + b * 1 * 1) * 1 + i * 1 * 2)
    with (b + (2 * o + d + i) * 2) by lia.
  rewrite Z.div_add by lia. lia.
Qed.

(** C5, as the code has it. The figure [memoria_estimada_kb] reported by
    [obtener_estadisticas_cache] is the integer part of: 2 per entry of the
    works region, plus 5 when the departments slot is occupied (about fifty
    departments at 0.1 KB each), plus 0.5 per entry of the search results,
    plus 1 per entry of the department id lists. In integers: twice the
    works, plus 5 for the slot, plus half the searches rounded down, plus
    the id lists. *)
Theorem estimacion_memoria_kb (s : AlmacenDatos) :
  ∃ e, obtener_estadisticas_cache s = (inr e, s)
       ∧ memoria_estimada_kb e
         = py_int (inject_Z (len (_cache_obras s)) * 2
                   + inject_Z (5 * uno_si_presente (_cache_departamentos s))
                   + inject_Z (len (_cache_busquedas s)) * (1 # 2)
                   + inject_Z (len (_cache_ids_departamento s)) * 1)%Q
       ∧ memoria_estimada_kb e
         = 2 * len (_cache_obras s)
           + 5 * uno_si_presente (_cache_departamentos s)
           + len (_cache_busquedas s) / 2
           + len (_cache_ids_departamento s).
Proof.
  eexists. split; [reflexivity|]. simpl.
  assert (Hcod : _estimar_uso_memoria s
            = 2 * len (_cache_obras s)
              + 5 * uno_si_presente (_cache_departamentos s)
              + len (_cache_busquedas s) / 2
              + len (_cache_ids_departamento s)).
  { unfold _estimar_uso_memoria.
    replace (match _cache_departamentos s with Some _ => 5 | None => 0 end)
      with (5 * uno_si_presente (_cache_departamentos s))
      by (by destruct (_cache_departamentos s)).
    apply py_int_suma; unfold len; try lia.
    destruct (_cache_departamentos s); simpl; lia. }
  split; [|done]. rewrite Hcod. symmetry.
  apply py_int_suma_Q; unfold len; try lia.
  destruct (_cache_departamentos s); simpl; lia.
Qed.

(** C5, as the specification words it, fails on the store whose only
    content is the departments slot: the reported figure is 5, the worded
    heuristic gives 0.1, whose integer part is 0, and the two are more than
    4 KB apart. *)
Lemma estimacion_memoria_contraejemplo :
  ∃ e, obtener_estadisticas_cache almacen_solo_departamentos
       = (inr e, almacen_solo_departamentos)
       ∧ memoria_estimada_kb e = 5
       ∧ (memoria_segun_spec almacen_solo_departamentos == 1 # 10)%Q
       ∧ memoria_estimada_kb e
         ≠ py_int (memoria_segun_spec almacen_solo_departamentos)
       ∧ (4 < inject_Z (memoria_estimada_kb e)
              - memoria_segun_spec almacen_solo_departamentos)%Q.
Proof.
  eexists. split; [reflexivity|]. split_and!; vm_compute; congruence.
Qed.

(** C8, as the code has it. [obtener_estadisticas_cache] returns without
    changing the store; it reports the counters as they are, and for each
    of the four regions the number of entries it holds, which at any instant
    is the number of valid entries plus the number of expired entries not
    yet evicted (1 or 0 for the departments slot, occupied or not). Hit and
    miss counters and a hit ratio exist for the works, the departments and
    the searches: each ratio is hits / (hits + misses) when
    hits + misses > 0 and 0 when hits + misses = 0; with one works hit and
    one works miss, [hit_ratio_obras] is 1/2. The department id lists have
    a size in the snapshot and nothing else: a lookup in that region, hit or
    miss, changes no counter and no ratio of the snapshot. *)
Theorem estadisticas_instantanea (s : AlmacenDatos) :
  ∃ e, obtener_estadisticas_cache s = (inr e, s)
    ∧ contadores e = _estadisticas s
    ∧ obras_en_cache e = Z.of_nat (size (_cache_obras s))
    ∧ busquedas_en_cache e = Z.of_nat (size (_cache_busquedas s))
    ∧ ids_departamentos_en_cache e
      = Z.of_nat (size (_cache_ids_departamento s))
    ∧ departamentos_en_cache e
      = match _cache_departamentos s with Some _ => 1 | None => 0 end
    ∧ (∀ ahora : Q,
         obras_en_cache e
         = len (vigentes (_cache_obras s) ahora)
           + len (expiradas (_cache_obras s) ahora)
         ∧ busquedas_en_cache e
           = len (vigentes (_cache_busquedas s) ahora)
             + len (expiradas (_cache_busquedas s) ahora)
         ∧ ids_departamentos_en_cache e
           = len (vigentes (_cache_ids_departamento s) ahora)
             + len (expiradas (_cache_ids_departamento s) ahora))
    ∧ (let h := hits_obras (_estadisticas s) in
       let m := misses_obras (_estadisticas s) in
       (0 < h + m → hit_ratio_obras e = (inject_Z h / inject_Z (h + m))%Q)
       ∧ (h + m = 0 → hit_ratio_obras e = 0%Q)
       ∧ (h = 1 → m = 1 → hit_ratio_obras e = (1 # 2)%Q))
    ∧ (let h := hits_departamentos (_estadisticas s) in
       let m := misses_departamentos (_estadisticas s) in
       (0 < h + m
        → hit_ratio_departamentos e = (inject_Z h / inject_Z (h + m))%Q)
       ∧ (h + m = 0 → hit_ratio_departamentos e = 0%Q))
    ∧ (let h := hits_busquedas (_estadisticas s) in
       let m := misses_busquedas (_estadisticas s) in
       (0 < h + m → hit_ratio_busquedas e = (inject_Z h / inject_Z (h + m))%Q)
       ∧ (h + m = 0 → hit_ratio_busquedas e = 0%Q))
    ∧ (∀ (k : Z) (ahora : Q),
         let s' := (obtener_ids_departamento k ahora s).2 in
         ∃ e', obtener_estadisticas_cache s' = (inr e', s')
           ∧ contadores e' = contadores e
           ∧ hit_ratio_obras e' = hit_ratio_obras e
           ∧ hit_ratio_departamentos e' = hit_ratio_departamentos e
           ∧ hit_ratio_busquedas e' = hit_ratio_busquedas e
           ∧ obras_en_cache e' = obras_en_cache e
           ∧ busquedas_en_cache e' = busquedas_en_cache e
           ∧ departamentos_en_cache e' = departamentos_en_cache e).
Proof.
  assert (Hr : ∀ h m, (0 < h + m → ratio h (h + m)
                                     = (inject_Z h / inject_Z (h + m))%Q)
                      ∧ (h + m = 0 → ratio h (h + m) = 0%Q)).
  { intros h m. unfold ratio. split.
    - intros Hpos. apply Z.ltb_lt in Hpos. by rewrite Hpos.
    - intros ->. done. }
  eexists. split; [reflexivity|]. simpl. split_and!; try done.
  - intros ahora. split_and!; apply len_vigentes_expiradas.
  - apply Hr.
  - apply Hr.
  - intros -> ->. done.
  - apply Hr.
  - apply Hr.
  - apply Hr.
  - apply Hr.
  - intros k ahora. eexists. split; [reflexivity|].
    rewrite obtener_ids_departamento_spec.
    destruct (_cache_ids_departamento s !! k) as [x|];
      [destruct (is_not_None (obtener_datos x ahora))|]; done.
Qed.

Lemma estadisticas_instantanea_witness :
  ∃ e, obtener_estadisticas_cache
         (estado_tras traza_test_estadisticas nuevo_AlmacenDatos)
       = (inr e, estado_tras traza_test_estadisticas nuevo_AlmacenDatos)
       ∧ obras_en_cache e = 1
       ∧ hits_obras (contadores e) = 1
       ∧ misses_obras (contadores e) = 1
       ∧ hit_ratio_obras e = (1 # 2)%Q.
Proof.
  destruct (estadisticas_instantanea
              (estado_tras traza_test_estadisticas nuevo_AlmacenDatos))
    as (e & He & Hc & Ho & _ & _ & _ & _ & (_ & _ & Hmedio) & _).
  exists e. split; [exact He|]. rewrite Hc, Ho.
  split_and!; [reflexivity | reflexivity | reflexivity |].
  apply Hmedio; reflexivity.
Defined.

(** C8, as the specification words it, fails for the department id lists.
    After one hit and one miss in that region the snapshot is the one taken
    before the two lookups: its counters are all 0 and its three ratios are
    0, so that it reports neither a hit counter, nor a miss counter, nor a
    ratio of 1/2 for the region; no figure computed from the snapshot grows
    with the hit. *)
Lemma estadisticas_sin_contadores_de_ids :
  alcanzable almacen_con_ids
  ∧ obtener_ids_departamento 1 1 almacen_con_ids
    = (inr (VLista [VEntero 7]), almacen_tras_acierto_ids)
  ∧ obtener_ids_departamento 2 1 almacen_tras_acierto_ids
    = (inr VNone, almacen_tras_fallo_ids)
  ∧ obtener_estadisticas_cache almacen_tras_fallo_ids
    = obtener_estadisticas_cache almacen_con_ids
  ∧ (∃ e, (obtener_estadisticas_cache almacen_tras_fallo_ids).1 = inr e
          ∧ ids_departamentos_en_cache e = 1
          ∧ contadores e = _estadisticas nuevo_AlmacenDatos
          ∧ hit_ratio_obras e = 0%Q
          ∧ hit_ratio_departamentos e = 0%Q
          ∧ hit_ratio_busquedas e = 0%Q)
  ∧ ¬ ∃ hits_ids : EstadisticasCache → Z,
        ∀ e0 e1,
          (obtener_estadisticas_cache almacen_con_ids).1 = inr e0 →
          (obtener_estadisticas_cache almacen_tras_acierto_ids).1 = inr e1 →
          hits_ids e1 = hits_ids e0 + 1.
Proof.
  assert (Hantes : ∃ e0, obtener_estadisticas_cache almacen_con_ids
                         = (inr e0, almacen_con_ids))
    by (eexists; reflexivity).
  assert (Higual : obtener_estadisticas_cache almacen_tras_acierto_ids
                   = obtener_estadisticas_cache almacen_con_ids)
    by (by vm_compute).
  split_and!.
  - by exists [(Almacenar_ids_departamento 1 (VLista [VEntero 7]), 0%Q)].
  - by vm_compute.
  - by vm_compute.
  - by vm_compute.
  - eexists. split; [reflexivity|]. by vm_compute.
  - intros [hits_ids Hcuenta]. destruct Hantes as [e0 He0].
    assert (H0 : (obtener_estadisticas_cache almacen_con_ids).1 = inr e0)
      by (by rewrite He0).
    assert (H1 : (obtener_estadisticas_cache almacen_tras_acierto_ids).1
                 = inr e0)
      by (by rewrite Higual, He0).
    specialize (Hcuenta e0 e0 H0 H1). lia.
Qed.

(** C9. Manual cleanup. [limpiar_cache_manual] leaves in each dictionary
    exactly the entries that are valid at the instant of the call, each
    under its key and unchanged; the departments slot is emptied exactly
    when it holds an expired entry; the counters are untouched. The record
    it returns gives, per region, the number of expired entries the region
    held, which is the number removed. A work whose entry was valid at the
    cleanup is returned by a later [obtener_obra] for as long as its entry
    stays valid. *)
Theorem limpieza_manual (s : AlmacenDatos) (ahora : Q) :
  ∃ r, limpiar_cache_manual ahora s = (inr r, barrido ahora s)
    ∧ (∀ k, _cache_obras (barrido ahora s) !! k
            = match _cache_obras s !! k with
              | Some e => if es_valida e ahora then Some e else None
              | None => None
              end)
    ∧ (∀ k, _cache_busquedas (barrido ahora s) !! k
            = match _cache_busquedas s !! k with
              | Some e => if es_valida e ahora then Some e else None
              | None => None
              end)
    ∧ (∀ k, _cache_ids_departamento (barrido ahora s) !! k
            = match _cache_ids_departamento s !! k with
              | Some e => if es_valida e ahora then Some e else None
              | None => None
              end)
    ∧ _cache_departamentos (barrido ahora s)
      = match _cache_departamentos s with
        | Some e => if es_valida e ahora then Some e else None
        | None => None
        end
    ∧ _estadisticas (barrido ahora s) = _estadisticas s
    ∧ obras_eliminadas r = len (expiradas (_cache_obras s) ahora)
    ∧ busquedas_eliminadas r = len (expiradas (_cache_busquedas s) ahora)
    ∧ ids_departamentos_eliminados r
      = len (expiradas (_cache_ids_departamento s) ahora)
    ∧ departamentos_eliminados r
      = match _cache_departamentos s with
        | Some e => if es_valida e ahora then 0 else 1
        | None => 0
        end
    ∧ (∀ (id : Z) (e : EntradaCache) (t : Q),
         _cache_obras s !! id = Some e →
         es_valida e ahora = true →
         es_valida e t = true →
         (obtener_obra id t (barrido ahora s)).1 = inr (datos e))
    ∧ (∀ (k : string) (e : EntradaCache) (t : Q),
         _cache_busquedas s !! k = Some e →
         es_valida e ahora = true →
         es_valida e t = true →
         (obtener_resultado_busqueda k t (barrido ahora s)).1
         = inr (datos e))
    ∧ (∀ (k : Z) (e : EntradaCache) (t : Q),
         _cache_ids_departamento s !! k = Some e →
         es_valida e ahora = true →
         es_valida e t = true →
         (obtener_ids_departamento k t (barrido ahora s)).1 = inr (datos e))
    ∧ (∀ (e : EntradaCache) (t : Q),
         _cache_departamentos s = Some e →
         es_valida e ahora = true →
         es_valida e t = true →
         (obtener_departamentos t (barrido ahora s)).1 = inr (datos e)).
Proof.
  rewrite limpiar_cache_manual_spec. eexists. split; [reflexivity|].
  simpl. split_and!; try done.
  - intros k. apply vigentes_lookup.
  - intros k. apply vigentes_lookup.
  - intros k. apply vigentes_lookup.
  - rewrite (len_vigentes_expiradas (_cache_obras s) ahora). lia.
  - rewrite (len_vigentes_expiradas (_cache_busquedas s) ahora). lia.
  - rewrite (len_vigentes_expiradas (_cache_ids_departamento s) ahora). lia.
  - destruct (_cache_departamentos s) as [e|]; simpl; [|done].
    by destruct (es_valida e ahora).
  - intros id e t He Hv Ht. rewrite obtener_obra_spec. simpl.
    rewrite vigentes_lookup, He, Hv. unfold obtener_datos. rewrite Ht.
    by destruct (is_not_None (datos e)) eqn:Hd; [|destruct (datos e)].
  - intros k e t He Hv Ht. rewrite obtener_resultado_busqueda_spec. simpl.
    rewrite vigentes_lookup, He, Hv. unfold obtener_datos. rewrite Ht.
    by destruct (is_not_None (datos e)) eqn:Hd; [|destruct (datos e)].
  - intros k e t He Hv Ht. rewrite obtener_ids_departamento_spec. simpl.
    rewrite vigentes_lookup, He, Hv. unfold obtener_datos. rewrite Ht.
    by destruct (is_not_None (datos e)) eqn:Hd; [|destruct (datos e)].
  - intros e t He Hv Ht. rewrite obtener_departamentos_spec. simpl.
    rewrite He. simpl. rewrite Hv. unfold obtener_datos. rewrite Ht.
    by destruct (is_not_None (datos e)) eqn:Hd; [|destruct (datos e)].
Qed.

(** The scenario of [test_limpiar_cache_manual]: with one expired and one
    live work, the cleanup at 0.2 seconds reports one work removed, the
    expired work is gone and the live one is still retrieved. *)
Lemma limpieza_manual_witness :
  ∃ r, limpiar_cache_manual (1 # 5) almacen_test_limpieza
       = (inr r, barrido (1 # 5) almacen_test_limpieza)
       ∧ obras_eliminadas r = 1
       ∧ (obtener_obra 456 (1 # 5) (barrido (1 # 5) almacen_test_limpieza)).1
         = inr (VObra obra_2)
       ∧ _cache_obras (barrido (1 # 5) almacen_test_limpieza) !! 123 = None.
Proof.
  destruct (limpieza_manual almacen_test_limpieza (1 # 5))
    as (r & Hr & Hobras & _ & _ & _ & _ & Hn & _ & _ & _ & Hvivo & _).
  exists r. split; [exact Hr|]. split_and!.
  - rewrite Hn. reflexivity.
  - apply (Hvivo 456 (nueva_EntradaCache (VObra obra_2) TIEMPO_VIDA_OBRAS 0)
                 (1 # 5)%Q); reflexivity.
  - rewrite Hobras. reflexivity.
Defined.

(** * Further properties of the cache *)

Lemma es_valida_nueva_expirada (d : valor) (tv t0 t1 : Q) :
  (tv <= t1 - t0)%Q → es_valida (nueva_EntradaCache d tv t0) t1 = false.
Proof. intros Hle. by apply es_valida_false. Qed.

(** X1. Hit and miss accounting of [obtener_departamentos], in every store
    reached from [AlmacenDatos()] through the public methods. A valid slot:
    the cached list is returned, the departments hit counter grows by one,
    the slot stays. An expired slot: [None] is returned, the departments
    miss counter grows by one and the slot is emptied. An empty slot:
    [None] and one more miss. *)
Theorem obtener_departamentos_contabilidad (traza : list (llamada * Q))
    (ahora : Q) :
  let s := estado_tras traza nuevo_AlmacenDatos in
  let s' := (obtener_departamentos ahora s).2 in
  match _cache_departamentos s with
  | Some e =>
      if es_valida e ahora then
        (∃ l, datos e = VLista l
              ∧ obtener_departamentos ahora s
                = (inr (VLista l),
                   con_estadisticas (incrementar Hits_departamentos) s))
        ∧ hits_departamentos (_estadisticas s')
          = hits_departamentos (_estadisticas s) + 1
        ∧ misses_departamentos (_estadisticas s')
          = misses_departamentos (_estadisticas s)
        ∧ _cache_departamentos s' = Some e
      else
        obtener_departamentos ahora s
        = (inr VNone,
           con_estadisticas (incrementar Misses_departamentos)
             (con_departamentos None s))
        ∧ misses_departamentos (_estadisticas s')
          = misses_departamentos (_estadisticas s) + 1
        ∧ hits_departamentos (_estadisticas s')
          = hits_departamentos (_estadisticas s)
        ∧ _cache_departamentos s' = None
  | None =>
      obtener_departamentos ahora s
      = (inr VNone, con_estadisticas (incrementar Misses_departamentos) s)
      ∧ misses_departamentos (_estadisticas s')
        = misses_departamentos (_estadisticas s) + 1
      ∧ hits_departamentos (_estadisticas s')
        = hits_departamentos (_estadisticas s)
      ∧ _cache_departamentos s' = None
  end.
Proof.
  intros s s'. subst s'. rewrite obtener_departamentos_spec.
  assert (Hbf : bien_formado s)
    by apply estado_tras_bien_formado, bien_formado_nuevo.
  destruct (_cache_departamentos s) as [e|] eqn:He; [|done].
  unfold obtener_datos.
  destruct (es_valida e ahora) eqn:Hv.
  - destruct (bf_departamentos s Hbf e He) as [[l Hl] _].
    rewrite Hl. simpl. split_and!; try done. by exists l.
  - simpl. done.
Qed.

(** X2. Hit and miss accounting of [obtener_resultado_busqueda], in every
    store reached from [AlmacenDatos()] through the public methods. A valid
    entry: the cached id list is returned, the search hit counter grows by
    one, the dictionary is unchanged. An expired entry: [None], one more
    search miss, and the entry is deleted in the same call. No entry:
    [None] and one more search miss. *)
Theorem obtener_resultado_busqueda_contabilidad (traza : list (llamada * Q))
    (k : string) (ahora : Q) :
  let s := estado_tras traza nuevo_AlmacenDatos in
  let s' := (obtener_resultado_busqueda k ahora s).2 in
  match _cache_busquedas s !! k with
  | Some e =>
      if es_valida e ahora then
        (∃ l, datos e = VLista l
              ∧ obtener_resultado_busqueda k ahora s
                = (inr (VLista l),
                   con_estadisticas (incrementar Hits_busquedas) s))
        ∧ hits_busquedas (_estadisticas s')
          = hits_busquedas (_estadisticas s) + 1
        ∧ misses_busquedas (_estadisticas s')
          = misses_busquedas (_estadisticas s)
        ∧ _cache_busquedas s' = _cache_busquedas s
      else
        obtener_resultado_busqueda k ahora s
        = (inr VNone,
           con_estadisticas (incrementar Misses_busquedas)
             (con_busquedas (delete k) s))
        ∧ misses_busquedas (_estadisticas s')
          = misses_busquedas (_estadisticas s) + 1
        ∧ hits_busquedas (_estadisticas s')
          = hits_busquedas (_estadisticas s)
        ∧ _cache_busquedas s' = delete k (_cache_busquedas s)
  | None =>
      obtener_resultado_busqueda k ahora s
      = (inr VNone, con_estadisticas (incrementar Misses_busquedas) s)
      ∧ misses_busquedas (_estadisticas s')
        = misses_busquedas (_estadisticas s) + 1
      ∧ hits_busquedas (_estadisticas s')
        = hits_busquedas (_estadisticas s)
      ∧ _cache_busquedas s' = _cache_busquedas s
  end.
Proof.
  intros s s'. subst s'. rewrite obtener_resultado_busqueda_spec.
  assert (Hbf : bien_formado s)
    by apply estado_tras_bien_formado, bien_formado_nuevo.
  destruct (_cache_busquedas s !! k) as [e|] eqn:He; [|done].
  unfold obtener_datos.
  destruct (es_valida e ahora) eqn:Hv.
  - destruct (bf_busquedas s Hbf k e He) as [[l Hl] _].
    rewrite Hl. simpl. split_and!; try done. by exists l.
  - simpl. done.
Qed.

(** X3. [obtener_ids_departamento] keeps no statistics. In every store
    reached through the public methods it returns the cached id list when
    the entry is valid, and [None] when the entry is expired or absent,
    deleting an expired entry in the same call; in all three cases the
    seven counters, the works, the searches and the departments slot are
    exactly as before. *)
Theorem obtener_ids_departamento_sin_contadores (traza : list (llamada * Q))
    (k : Z) (ahora : Q) :
  let s := estado_tras traza nuevo_AlmacenDatos in
  let s' := (obtener_ids_departamento k ahora s).2 in
  _estadisticas s' = _estadisticas s
  ∧ _cache_obras s' = _cache_obras s
  ∧ _cache_busquedas s' = _cache_busquedas s
  ∧ _cache_departamentos s' = _cache_departamentos s
  ∧ match _cache_ids_departamento s !! k with
    | Some e =>
        if es_valida e ahora then
          (∃ l, datos e = VLista l
                ∧ obtener_ids_departamento k ahora s = (inr (VLista l), s))
        else
          obtener_ids_departamento k ahora s
          = (inr VNone, con_ids_departamento (delete k) s)
    | None => obtener_ids_departamento k ahora s = (inr VNone, s)
    end.
Proof.
  intros s s'. subst s'. rewrite obtener_ids_departamento_spec.
  assert (Hbf : bien_formado s)
    by apply estado_tras_bien_formado, bien_formado_nuevo.
  destruct (_cache_ids_departamento s !! k) as [e|] eqn:He; [|done].
  unfold obtener_datos.
  destruct (es_valida e ahora) eqn:Hv.
  - destruct (bf_ids_departamento s Hbf k e He) as [[l Hl] _].
    rewrite Hl. simpl. split_and!; try done. by exists l.
  - simpl. done.
Qed.

(** X4. Round trip of the department id lists. After
    [almacenar_ids_departamento(k, l)] at [t0], [obtener_ids_departamento(k)]
    at [t1] returns [l] and leaves the store as it is when
    [t1 - t0 < 180]; when [180 <= t1 - t0] it returns [None] and deletes
    the entry. A second store under [k] replaces the first. *)
Theorem ida_y_vuelta_ids_departamento (s : AlmacenDatos) (k : Z)
    (l l' : list valor) (t0 t1 : Q) :
  let s1 := (almacenar_ids_departamento k (VLista l) t0 s).2 in
  almacenar_ids_departamento k (VLista l) t0 s = (inr tt, s1)
  ∧ ((t1 - t0 < TIEMPO_VIDA_LISTAS_IDS)%Q →
     obtener_ids_departamento k t1 s1 = (inr (VLista l), s1))
  ∧ ((TIEMPO_VIDA_LISTAS_IDS <= t1 - t0)%Q →
     obtener_ids_departamento k t1 s1
     = (inr VNone, con_ids_departamento (delete k) s1))
  ∧ _cache_ids_departamento
      (almacenar_ids_departamento k (VLista l') t1 s1).2 !! k
    = Some (nueva_EntradaCache (VLista l') TIEMPO_VIDA_LISTAS_IDS t1).
Proof.
  intros s1. subst s1. rewrite !almacenar_ids_departamento_spec. simpl.
  split_and!; try done.
  - intros Ht. rewrite obtener_ids_departamento_spec. simpl.
    rewrite lookup_insert_eq. unfold obtener_datos.
    by rewrite es_valida_nueva.
  - intros Ht. rewrite obtener_ids_departamento_spec. simpl.
    rewrite lookup_insert_eq. unfold obtener_datos.
    by rewrite es_valida_nueva_expirada.
  - apply lookup_insert_eq.
Qed.

Lemma ida_y_vuelta_ids_departamento_witness :
  (obtener_ids_departamento 11 179
     (almacenar_ids_departamento 11 (VLista [VEntero 1; VEntero 2]) 0
        nuevo_AlmacenDatos).2).1
  = inr (VLista [VEntero 1; VEntero 2])
  ∧ (obtener_ids_departamento 11 180
       (almacenar_ids_departamento 11 (VLista [VEntero 1; VEntero 2]) 0
          nuevo_AlmacenDatos).2).1
    = inr VNone.
Proof.
  destruct (ida_y_vuelta_ids_departamento nuevo_AlmacenDatos 11
              [VEntero 1; VEntero 2] [] 0%Q 179%Q) as (_ & Hv & _ & _).
  destruct (ida_y_vuelta_ids_departamento nuevo_AlmacenDatos 11
              [VEntero 1; VEntero 2] [] 0%Q 180%Q) as (_ & _ & He & _).
  split.
  - rewrite Hv; reflexivity.
  - rewrite He; [reflexivity|]. unfold Qle. simpl. lia.
Defined.

(** X5. Round trip of the search results. After
    [almacenar_resultado_busqueda(k, l)] at [t0], a lookup of [k] at [t1]
    returns [l] and counts a search hit when [t1 - t0 < 300]; when
    [300 <= t1 - t0] it returns [None], counts a search miss and deletes
    the entry. *)
Theorem ida_y_vuelta_busquedas (s : AlmacenDatos) (k : string)
    (l : list valor) (t0 t1 : Q) :
  let s1 := (almacenar_resultado_busqueda k (VLista l) t0 s).2 in
  almacenar_resultado_busqueda k (VLista l) t0 s = (inr tt, s1)
  ∧ ((t1 - t0 < TIEMPO_VIDA_BUSQUEDAS)%Q →
     obtener_resultado_busqueda k t1 s1
     = (inr (VLista l), con_estadisticas (incrementar Hits_busquedas) s1))
  ∧ ((TIEMPO_VIDA_BUSQUEDAS <= t1 - t0)%Q →
     obtener_resultado_busqueda k t1 s1
     = (inr VNone,
        con_estadisticas (incrementar Misses_busquedas)
          (con_busquedas (delete k) s1))).
Proof.
  intros s1. subst s1.
  destruct (almacenar_resultado_busqueda_lookup k l t0 s) as [Hput Hk].
  split_and!; [done| |]; intros Ht;
    rewrite obtener_resultado_busqueda_spec, Hk; unfold obtener_datos.
  - by rewrite es_valida_nueva.
  - by rewrite es_valida_nueva_expirada.
Qed.

Lemma ida_y_vuelta_busquedas_witness :
  (obtener_resultado_busqueda "artista:monet" 299
     (almacenar_resultado_busqueda "artista:monet" (VLista [VEntero 437])
        0 nuevo_AlmacenDatos).2).1
  = inr (VLista [VEntero 437])
  ∧ (obtener_resultado_busqueda "artista:monet" 300
       (almacenar_resultado_busqueda "artista:monet" (VLista [VEntero 437])
          0 nuevo_AlmacenDatos).2).1
    = inr VNone.
Proof.
  destruct (ida_y_vuelta_busquedas nuevo_AlmacenDatos "artista:monet"
              [VEntero 437] 0%Q 299%Q) as (_ & Hv & _).
  destruct (ida_y_vuelta_busquedas nuevo_AlmacenDatos "artista:monet"
              [VEntero 437] 0%Q 300%Q) as (_ & _ & He).
  split.
  - rewrite Hv; reflexivity.
  - rewrite He; [reflexivity|]. unfold Qle. simpl. lia.
Defined.

(** X6. Round trip of the departments slot. After
    [almacenar_departamentos(l)] at [t0], which replaces whatever the slot
    held and touches nothing else, [obtener_departamentos] at [t1] returns
    [l] and counts a departments hit when [t1 - t0 < 1800]; when
    [1800 <= t1 - t0] it returns [None], counts a departments miss and
    empties the slot. *)
Theorem ida_y_vuelta_departamentos (s : AlmacenDatos) (l : list valor)
    (t0 t1 : Q) :
  let s1 := con_departamentos
              (Some (nueva_EntradaCache (VLista l) TIEMPO_VIDA_DEPARTAMENTOS
                       t0)) s in
  almacenar_departamentos (VLista l) t0 s = (inr tt, s1)
  ∧ ((t1 - t0 < TIEMPO_VIDA_DEPARTAMENTOS)%Q →
     obtener_departamentos t1 s1
     = (inr (VLista l),
        con_estadisticas (incrementar Hits_departamentos) s1))
  ∧ ((TIEMPO_VIDA_DEPARTAMENTOS <= t1 - t0)%Q →
     obtener_departamentos t1 s1
     = (inr VNone,
        con_estadisticas (incrementar Misses_departamentos)
          (con_departamentos None s))).
Proof.
  intros s1. subst s1.
  split_and!; [done| |]; intros Ht;
    rewrite obtener_departamentos_spec; simpl; unfold obtener_datos.
  - by rewrite es_valida_nueva.
  - by rewrite es_valida_nueva_expirada.
Qed.

Lemma ida_y_vuelta_departamentos_witness :
  almacenar_departamentos (VLista [VEntero 1]) 0 nuevo_AlmacenDatos
  = (inr tt,
     con_departamentos
       (Some (nueva_EntradaCache (VLista [VEntero 1])
                TIEMPO_VIDA_DEPARTAMENTOS 0)) nuevo_AlmacenDatos)
  ∧ (obtener_departamentos 1799
       (con_departamentos
          (Some (nueva_EntradaCache (VLista [VEntero 1])
                   TIEMPO_VIDA_DEPARTAMENTOS 0)) nuevo_AlmacenDatos)).1
    = inr (VLista [VEntero 1])
  ∧ (obtener_departamentos 1800
       (con_departamentos
          (Some (nueva_EntradaCache (VLista [VEntero 1])
                   TIEMPO_VIDA_DEPARTAMENTOS 0)) nuevo_AlmacenDatos)).1
    = inr VNone.
Proof.
  destruct (ida_y_vuelta_departamentos nuevo_AlmacenDatos [VEntero 1]
              0%Q 1799%Q) as (Hput & Hv & _).
  destruct (ida_y_vuelta_departamentos nuevo_AlmacenDatos [VEntero 1]
              0%Q 1800%Q) as (_ & _ & He).
  split_and!.
  - exact Hput.
  - rewrite Hv; reflexivity.
  - rewrite He; [reflexivity|]. unfold Qle. simpl. lia.
Defined.

(** X7. Expiry of a work. After [almacenar_obra(w)] at [t0], an
    [obtener_obra(w.id_obra)] at [t1] with [600 <= t1 - t0] returns [None],
    counts a works miss and deletes the entry, so that the id is absent
    from the works region afterwards. *)
Theorem obra_expirada (s : AlmacenDatos) (w : ObraArte) (t0 t1 : Q) :
  (TIEMPO_VIDA_OBRAS <= t1 - t0)%Q →
  let s1 := (almacenar_obra (VObra w) t0 s).2 in
  obtener_obra (id_obra w) t1 s1
  = (inr VNone,
     con_estadisticas (incrementar Misses_obras)
       (con_obras (delete (id_obra w)) s1))
  ∧ _cache_obras (obtener_obra (id_obra w) t1 s1).2 !! id_obra w = None.
Proof.
  intros Ht s1. subst s1.
  destruct (almacenar_obra_lookup w t0 s) as [_ Hk].
  rewrite obtener_obra_spec, Hk. unfold obtener_datos.
  rewrite es_valida_nueva_expirada by done. simpl.
  split; [done|]. apply lookup_delete_eq.
Qed.

Lemma obra_expirada_witness :
  (obtener_obra 123 600
     (almacenar_obra (VObra obra_test) 0 nuevo_AlmacenDatos).2).1
  = inr VNone.
Proof.
  destruct (obra_expirada nuevo_AlmacenDatos obra_test 0%Q 600%Q) as [He _].
  - unfold Qle. simpl. lia.
  - change (id_obra obra_test) with 123 in He. by rewrite He.
Defined.

(** ** The sweep, applied twice and against reads *)

Lemma vigentes_vigentes {K} `{Countable K} (d : gmap K EntradaCache) (t : Q) :
  vigentes (vigentes d t) t = vigentes d t.
Proof.
  apply map_eq. intros k. rewrite !vigentes_lookup.
  destruct (d !! k) as [e|]; [|done].
  destruct (es_valida e t) eqn:Hv; [|done]. by rewrite Hv.
Qed.

Lemma expiradas_vigentes {K} `{Countable K} (d : gmap K EntradaCache) (t : Q) :
  expiradas (vigentes d t) t = ∅.
Proof.
  apply map_eq. intros k.
  rewrite expiradas_lookup, vigentes_lookup, lookup_empty.
  destruct (d !! k) as [e|]; [|done].
  destruct (es_valida e t) eqn:Hv; [|done]. by rewrite Hv.
Qed.

Lemma vigentes_delete {K} `{Countable K} (d : gmap K EntradaCache) (t : Q)
    (k : K) :
  vigentes (delete k d) t = delete k (vigentes d t).
Proof. apply map_filter_delete. Qed.

Lemma departamentos_vigentes_idem (d : option EntradaCache) (t : Q) :
  departamentos_vigentes (departamentos_vigentes d t) t
  = departamentos_vigentes d t.
Proof.
  destruct d as [e|]; [|done]. simpl.
  destruct (es_valida e t) eqn:Hv; [|done]. simpl. by rewrite Hv.
Qed.

Lemma barrido_barrido (t : Q) (s : AlmacenDatos) :
  barrido t (barrido t s) = barrido t s.
Proof.
  unfold barrido. simpl.
  by rewrite !vigentes_vigentes, departamentos_vigentes_idem.
Qed.

Lemma buscar_foldl (criterio : valor → bool) (ahora : Q)
    (l : list EntradaCache) (acc : list valor) :
  foldl (λ obras_encontradas entrada,
           let obra := obtener_datos entrada ahora in
           if is_not_None obra && criterio obra
           then obras_encontradas ++ [obra]
           else obras_encontradas) acc l
  = acc ++ ((λ e, obtener_datos e ahora)
            <$> filter (λ e, is_not_None (obtener_datos e ahora)
                             && criterio (obtener_datos e ahora)) l).
Proof.
  revert acc. induction l as [|e l IH]; intros acc; simpl.
  - by rewrite app_nil_r.
  - rewrite IH, filter_cons. case_decide as Hd; simpl in Hd.
    + apply Is_true_true in Hd. rewrite Hd. simpl. by rewrite <- app_assoc.
    + apply Is_true_false in Hd. by rewrite Hd.
Qed.

(** X8. With a predicate that answers, [buscar_obras_por_criterio] returns
    exactly the cached works that are valid at the instant of the call and
    satisfy the predicate: a value is in the result if and only if some
    entry of the works region is valid, holds that value, and the predicate
    accepts it. Expired entries are skipped and stay in the store, which the
    call leaves unchanged; the result never has more elements than the works
    region has entries. *)
Theorem buscar_obras_por_criterio_caracterizacion (s : AlmacenDatos)
    (criterio : valor → bool) (ahora : Q) :
  ∃ obras,
    buscar_obras_por_criterio (responde criterio) ahora s = (inr obras, s)
    ∧ (∀ v, v ∈ obras
            ↔ ∃ k e, _cache_obras s !! k = Some e
                     ∧ es_valida e ahora = true
                     ∧ datos e = v
                     ∧ is_not_None v = true
                     ∧ criterio v = true)
    ∧ (length obras <= size (_cache_obras s))%nat.
Proof.
  unfold buscar_obras_por_criterio, bind, leer.
  rewrite recorrer_obras_responde.
  eexists. split; [reflexivity|]. rewrite buscar_foldl. simpl. split.
  - intros v. rewrite list_elem_of_fmap. split.
    + intros (e & -> & [Hc He]%list_elem_of_filter).
      apply list_elem_of_fmap in He as ([k e'] & -> & Hk%elem_of_map_to_list).
      simpl in *. apply andb_prop_elim in Hc as [Hn Hc].
      apply Is_true_true in Hn, Hc.
      exists k, e'. unfold obtener_datos in *.
      destruct (es_valida e' ahora); [done|]. done.
    + intros (k & e & Hk & Hv & <- & Hn & Hc).
      exists e. unfold obtener_datos. rewrite Hv. split; [done|].
      apply list_elem_of_filter. split.
      * unfold obtener_datos. rewrite Hv, Hn, Hc. done.
      * apply list_elem_of_fmap. exists (k, e). split; [done|].
        by apply elem_of_map_to_list.
  - rewrite length_fmap.
    etrans; [apply length_filter|]. by rewrite length_fmap, length_map_to_list.
Qed.

(** X9. Manual cleanup is idempotent. After [limpiar_cache_manual] at the
    instant [t], no region holds an entry that is expired at [t], and a
    second [limpiar_cache_manual] at [t] changes nothing and reports zero
    removals in the four regions. *)
Theorem limpieza_manual_idempotente (s : AlmacenDatos) (t : Q) :
  let s1 := (limpiar_cache_manual t s).2 in
  expiradas (_cache_obras s1) t = ∅
  ∧ expiradas (_cache_busquedas s1) t = ∅
  ∧ expiradas (_cache_ids_departamento s1) t = ∅
  ∧ departamentos_vigentes (_cache_departamentos s1) t
    = _cache_departamentos s1
  ∧ limpiar_cache_manual t s1
    = (inr {| obras_eliminadas := 0;
              busquedas_eliminadas := 0;
              ids_departamentos_eliminados := 0;
              departamentos_eliminados := 0 |},
       s1).
Proof.
  intros s1. subst s1. rewrite !limpiar_cache_manual_spec. simpl.
  rewrite !expiradas_vigentes, !vigentes_vigentes,
    !departamentos_vigentes_idem, barrido_barrido.
  rewrite !Z.sub_diag. done.
Qed.

(** X10. A read and a cleanup at the same instant commute. For each of the
    four lookups, looking up after [limpiar_cache_manual] returns what the
    lookup returns without the cleanup, and the two orders leave the same
    store: the sweep never changes the answer of a read made at the instant
    of the sweep. *)
Theorem lectura_y_limpieza_conmutan (s : AlmacenDatos) (t : Q) :
  (∀ id : Z,
     (obtener_obra id t (limpiar_cache_manual t s).2).1
     = (obtener_obra id t s).1
     ∧ (obtener_obra id t (limpiar_cache_manual t s).2).2
       = (limpiar_cache_manual t (obtener_obra id t s).2).2)
  ∧ (∀ k : string,
       (obtener_resultado_busqueda k t (limpiar_cache_manual t s).2).1
       = (obtener_resultado_busqueda k t s).1
       ∧ (obtener_resultado_busqueda k t (limpiar_cache_manual t s).2).2
         = (limpiar_cache_manual t (obtener_resultado_busqueda k t s).2).2)
  ∧ (∀ k : Z,
       (obtener_ids_departamento k t (limpiar_cache_manual t s).2).1
       = (obtener_ids_departamento k t s).1
       ∧ (obtener_ids_departamento k t (limpiar_cache_manual t s).2).2
         = (limpiar_cache_manual t (obtener_ids_departamento k t s).2).2)
  ∧ (obtener_departamentos t (limpiar_cache_manual t s).2).1
    = (obtener_departamentos t s).1
  ∧ (obtener_departamentos t (limpiar_cache_manual t s).2).2
    = (limpiar_cache_manual t (obtener_departamentos t s).2).2.
Proof.
  split_and!.
  - intros id. rewrite !limpiar_cache_manual_spec, !obtener_obra_spec. simpl.
    rewrite vigentes_lookup.
    destruct (_cache_obras s !! id) as [e|] eqn:He; [|done].
    unfold obtener_datos.
    destruct (es_valida e t) eqn:Hv; simpl.
    + rewrite Hv. destruct (is_not_None (datos e)); simpl; [done|].
      split; [done|]. unfold barrido, con_estadisticas, con_obras; simpl.
      by rewrite vigentes_delete.
    + split; [done|]. unfold barrido, con_estadisticas, con_obras; simpl.
      rewrite vigentes_delete. f_equal. symmetry. apply delete_id.
      by rewrite vigentes_lookup, He, Hv.
  - intros k. rewrite !limpiar_cache_manual_spec,
      !obtener_resultado_busqueda_spec. simpl.
    rewrite vigentes_lookup.
    destruct (_cache_busquedas s !! k) as [e|] eqn:He; [|done].
    unfold obtener_datos.
    destruct (es_valida e t) eqn:Hv; simpl.
    + rewrite Hv. destruct (is_not_None (datos e)); simpl; [done|].
      split; [done|]. unfold barrido, con_estadisticas, con_busquedas; simpl.
      by rewrite vigentes_delete.
    + split; [done|]. unfold barrido, con_estadisticas, con_busquedas; simpl.
      rewrite vigentes_delete. f_equal. symmetry. apply delete_id.
      by rewrite vigentes_lookup, He, Hv.
  - intros k. rewrite !limpiar_cache_manual_spec,
      !obtener_ids_departamento_spec. simpl.
    rewrite vigentes_lookup.
    destruct (_cache_ids_departamento s !! k) as [e|] eqn:He; [|done].
    unfold obtener_datos.
    destruct (es_valida e t) eqn:Hv; simpl.
    + rewrite Hv. destruct (is_not_None (datos e)); simpl; [done|].
      split; [done|]. unfold barrido, con_ids_departamento; simpl.
      by rewrite vigentes_delete.
    + split; [done|]. unfold barrido, con_ids_departamento; simpl.
      rewrite vigentes_delete. f_equal. symmetry. apply delete_id.
      by rewrite vigentes_lookup, He, Hv.
  - rewrite limpiar_cache_manual_spec, !obtener_departamentos_spec. simpl.
    destruct (_cache_departamentos s) as [e|] eqn:He; simpl; [|done].
    unfold obtener_datos.
    destruct (es_valida e t) eqn:Hv; simpl; [|done].
    rewrite Hv. by destruct (is_not_None (datos e)).
  - rewrite !limpiar_cache_manual_spec, !obtener_departamentos_spec. simpl.
    destruct (_cache_departamentos s) as [e|] eqn:He; simpl; [|done].
    unfold obtener_datos.
    destruct (es_valida e t) eqn:Hv; simpl.
    + rewrite Hv. destruct (is_not_None (datos e)); simpl; [|done].
      unfold barrido, con_estadisticas; simpl. by rewrite He.
    + unfold barrido, con_estadisticas; simpl. rewrite He. simpl.
      by rewrite Hv.
Qed.

(** ** The counters along a trace *)

Ltac por_llamada c :=
  destruct c;
  repeat match goal with v : valor |- _ => destruct v end;
  rewrite ?ejecutar_buscar;
  unfold ejecutar, responder, bind; simpl;
  rewrite ?obtener_obra_spec, ?almacenar_obra_spec,
    ?obtener_departamentos_spec, ?almacenar_departamentos_spec,
    ?obtener_resultado_busqueda_spec, ?almacenar_resultado_busqueda_spec,
    ?obtener_ids_departamento_spec, ?almacenar_ids_departamento_spec,
    ?limpiar_cache_manual_spec;
  unfold tras_comprobar_limpieza; simpl;
  repeat match goal with
         | |- context [_cache_obras ?s !! ?k] =>
             destruct (_cache_obras s !! k) eqn:?
         | |- context [_cache_busquedas ?s !! ?k] =>
             destruct (_cache_busquedas s !! k) eqn:?
         | |- context [_cache_ids_departamento ?s !! ?k] =>
             destruct (_cache_ids_departamento s !! k) eqn:?
         | |- context [match _cache_departamentos ?s with _ => _ end] =>
             destruct (_cache_departamentos s) eqn:?
         | |- context [is_not_None ?v] => destruct (is_not_None v) eqn:?
         | |- context [1000 <? ?n] => destruct (1000 <? n) eqn:?
         end;
  simpl.

Lemma ejecutar_contadores (c : llamada) (t : Q) (s : AlmacenDatos) :
  let e := _estadisticas s in
  let e' := _estadisticas (ejecutar c t s).2 in
  hits_obras e' + misses_obras e'
  = hits_obras e + misses_obras e + uno_si (es_obtener_obra c)
  ∧ hits_departamentos e' + misses_departamentos e'
    = hits_departamentos e + misses_departamentos e
      + uno_si (es_obtener_departamentos c)
  ∧ hits_busquedas e' + misses_busquedas e'
    = hits_busquedas e + misses_busquedas e
      + uno_si (es_obtener_resultado_busqueda c)
  ∧ hits_obras e <= hits_obras e'
  ∧ misses_obras e <= misses_obras e'
  ∧ hits_departamentos e <= hits_departamentos e'
  ∧ misses_departamentos e <= misses_departamentos e'
  ∧ hits_busquedas e <= hits_busquedas e'
  ∧ misses_busquedas e <= misses_busquedas e'
  ∧ limpiezas_automaticas e <= limpiezas_automaticas e'
  ∧ limpiezas_automaticas e'
    <= limpiezas_automaticas e + uno_si (inserta_con_comprobacion c).
Proof.
  intros e e'. subst e e'. por_llamada c; lia.
Qed.

Lemma cuenta_cons p c t traza :
  cuenta p ((c, t) :: traza) = uno_si (p c) + cuenta p traza.
Proof.
  unfold cuenta. rewrite filter_cons.
  case_decide as Hd; simpl in Hd; destruct (p c); simpl; try done; lia.
Qed.

Lemma estado_tras_contadores (traza : list (llamada * Q)) (s : AlmacenDatos) :
  let e := _estadisticas s in
  let e' := _estadisticas (estado_tras traza s) in
  hits_obras e' + misses_obras e'
  = hits_obras e + misses_obras e + cuenta es_obtener_obra traza
  ∧ hits_departamentos e' + misses_departamentos e'
    = hits_departamentos e + misses_departamentos e
      + cuenta es_obtener_departamentos traza
  ∧ hits_busquedas e' + misses_busquedas e'
    = hits_busquedas e + misses_busquedas e
      + cuenta es_obtener_resultado_busqueda traza
  ∧ hits_obras e <= hits_obras e'
  ∧ misses_obras e <= misses_obras e'
  ∧ hits_departamentos e <= hits_departamentos e'
  ∧ misses_departamentos e <= misses_departamentos e'
  ∧ hits_busquedas e <= hits_busquedas e'
  ∧ misses_busquedas e <= misses_busquedas e'
  ∧ limpiezas_automaticas e <= limpiezas_automaticas e'
  ∧ limpiezas_automaticas e'
    <= limpiezas_automaticas e + cuenta inserta_con_comprobacion traza.
Proof.
  revert s. induction traza as [|[c t] traza IH]; intros s; simpl.
  - unfold cuenta. simpl. lia.
  - specialize (IH (ejecutar c t s).2). simpl in IH.
    pose proof (ejecutar_contadores c t s) as Hc. simpl in Hc.
    rewrite !cuenta_cons. lia.
Qed.

Lemma ratio_acotado (h m : Z) :
  0 <= h → 0 <= m → (0 <= ratio h (h + m))%Q ∧ (ratio h (h + m) <= 1)%Q.
Proof.
  intros Hh Hm. unfold ratio.
  destruct (0 <? h + m) eqn:Hpos; [|done].
  apply Z.ltb_lt in Hpos.
  assert (Hq : (inject_Z 0 < inject_Z (h + m))%Q) by (by rewrite <- Zlt_Qlt).
  split.
  - apply Qle_shift_div_l; [done|]. rewrite Qmult_0_l.
    change 0%Q with (inject_Z 0). by rewrite <- Zle_Qle.
  - apply Qle_shift_div_r; [done|]. rewrite Qmult_1_l.
    rewrite <- Zle_Qle. lia.
Qed.

(** X11. The counters count the lookups. In the store reached from
    [AlmacenDatos()] by a trace of calls, works hits plus works misses is
    the number of [obtener_obra] calls of the trace, and likewise for the
    departments slot and [obtener_departamentos], and for the searches and
    [obtener_resultado_busqueda]; [limpiezas_automaticas] is at most the
    number of successful [almacenar_obra] and
    [almacenar_resultado_busqueda] calls. No other call moves a counter. *)
Theorem contadores_cuentan_lecturas (traza : list (llamada * Q)) :
  let e := _estadisticas (estado_tras traza nuevo_AlmacenDatos) in
  hits_obras e + misses_obras e = cuenta es_obtener_obra traza
  ∧ hits_departamentos e + misses_departamentos e
    = cuenta es_obtener_departamentos traza
  ∧ hits_busquedas e + misses_busquedas e
    = cuenta es_obtener_resultado_busqueda traza
  ∧ 0 <= limpiezas_automaticas e
  ∧ limpiezas_automaticas e <= cuenta inserta_con_comprobacion traza.
Proof.
  pose proof (estado_tras_contadores traza nuevo_AlmacenDatos) as H.
  simpl in *. lia.
Qed.

(** X12. In every store reached from [AlmacenDatos()] through the public
    methods the seven counters are non-negative, and the three hit ratios
    reported by [obtener_estadisticas_cache] lie between 0 and 1. *)
Theorem ratios_entre_cero_y_uno (traza : list (llamada * Q)) :
  let s := estado_tras traza nuevo_AlmacenDatos in
  (0 <= hits_obras (_estadisticas s)
   ∧ 0 <= misses_obras (_estadisticas s)
   ∧ 0 <= hits_departamentos (_estadisticas s)
   ∧ 0 <= misses_departamentos (_estadisticas s)
   ∧ 0 <= hits_busquedas (_estadisticas s)
   ∧ 0 <= misses_busquedas (_estadisticas s)
   ∧ 0 <= limpiezas_automaticas (_estadisticas s))
  ∧ ∃ e, obtener_estadisticas_cache s = (inr e, s)
         ∧ (0 <= hit_ratio_obras e)%Q ∧ (hit_ratio_obras e <= 1)%Q
         ∧ (0 <= hit_ratio_departamentos e)%Q
         ∧ (hit_ratio_departamentos e <= 1)%Q
         ∧ (0 <= hit_ratio_busquedas e)%Q
         ∧ (hit_ratio_busquedas e <= 1)%Q.
Proof.
  intros s. subst s.
  pose proof (estado_tras_contadores traza nuevo_AlmacenDatos) as H.
  simpl in H.
  split; [lia|].
  eexists. split; [reflexivity|]. simpl.
  split_and!; apply ratio_acotado; lia.
Qed.

(** X13. No call lowers or resets a counter. Whatever the store and the
    call, each of the seven counters after the call is at least its value
    before and at most one more; the invalidations in particular keep all
    seven. *)
Theorem contadores_monotonos (c : llamada) (t : Q) (s : AlmacenDatos) :
  let e := _estadisticas s in
  let e' := _estadisticas (ejecutar c t s).2 in
  (hits_obras e <= hits_obras e' <= hits_obras e + 1
   ∧ misses_obras e <= misses_obras e' <= misses_obras e + 1
   ∧ hits_departamentos e <= hits_departamentos e'
     <= hits_departamentos e + 1
   ∧ misses_departamentos e <= misses_departamentos e'
     <= misses_departamentos e + 1
   ∧ hits_busquedas e <= hits_busquedas e' <= hits_busquedas e + 1
   ∧ misses_busquedas e <= misses_busquedas e' <= misses_busquedas e + 1
   ∧ limpiezas_automaticas e <= limpiezas_automaticas e'
     <= limpiezas_automaticas e + 1)
  ∧ _estadisticas (invalidar_cache_obras s).2 = e
  ∧ _estadisticas (invalidar_cache_departamentos s).2 = e
  ∧ _estadisticas (invalidar_cache_busquedas s).2 = e
  ∧ _estadisticas (invalidar_todo_cache s).2 = e.
Proof.
  intros e e'. subst e e'.
  pose proof (ejecutar_contadores c t s) as H. simpl in H.
  split; [|done].
  destruct (es_obtener_obra c), (es_obtener_departamentos c),
    (es_obtener_resultado_busqueda c), (inserta_con_comprobacion c);
    simpl in H; lia.
Qed.

(** ** Time, eviction and growth *)

(** X14. Expiry is permanent as the clock advances. An entry that is
    expired at [t] is expired at every later instant, and an entry that is
    valid at [t'] was valid at every earlier instant; an entry with a
    positive time-to-live is valid at the instant it was created. *)
Theorem expiracion_monotona (e : EntradaCache) (t t' : Q) :
  (t <= t')%Q →
  (es_valida e t = false → es_valida e t' = false)
  ∧ (es_valida e t' = true → es_valida e t = true)
  ∧ ((0 < tiempo_vida e)%Q → es_valida e (timestamp e) = true).
Proof.
  intros Hle. split_and!.
  - rewrite !es_valida_false. intros H. lra.
  - rewrite !es_valida_true. intros H. lra.
  - rewrite es_valida_true. intros H. lra.
Qed.

Lemma expiracion_monotona_witness :
  es_valida (nueva_EntradaCache (VObra obra_test) TIEMPO_VIDA_OBRAS 0) 700
  = false.
Proof.
  destruct (expiracion_monotona
              (nueva_EntradaCache (VObra obra_test) TIEMPO_VIDA_OBRAS 0)
              600%Q 700%Q) as (Hexp & _ & _).
  - unfold Qle. simpl. lia.
  - apply Hexp. reflexivity.
Defined.

Lemma tras_comprobar_limpieza_ids (ahora : Q) (s : AlmacenDatos) (k : Z)
    (e : EntradaCache) :
  _cache_ids_departamento s !! k = Some e → es_valida e ahora = true →
  _cache_ids_departamento (tras_comprobar_limpieza ahora s) !! k = Some e.
Proof.
  intros Hk Hv. unfold tras_comprobar_limpieza.
  destruct (1000 <? total_entradas s); [|done].
  simpl. by rewrite vigentes_lookup, Hk, Hv.
Qed.

Lemma ejecutar_busqueda_presente (c : llamada) (ahora : Q) (s : AlmacenDatos)
    (k : string) (e : EntradaCache) :
  conserva_busqueda k c = true →
  is_not_None (datos e) = true →
  es_valida e ahora = true →
  _cache_busquedas s !! k = Some e →
  _cache_busquedas (ejecutar c ahora s).2 !! k = Some e.
Proof.
  intros Hc Hd Hv He.
  destruct c; unfold ejecutar, responder, bind; simpl; try done.
  - rewrite obtener_obra_spec.
    destruct (_cache_obras s !! id) as [e0|]; simpl;
      [destruct (is_not_None (obtener_datos e0 ahora)); simpl|]; done.
  - rewrite almacenar_obra_spec. destruct obra; simpl; try done.
    by apply tras_comprobar_limpieza_busquedas.
  - rewrite obtener_departamentos_spec.
    destruct (_cache_departamentos s) as [e0|]; simpl;
      [destruct (is_not_None (obtener_datos e0 ahora)); simpl|]; done.
  - rewrite almacenar_departamentos_spec.
    by destruct departamentos.
  - rewrite obtener_resultado_busqueda_spec.
    destruct (decide (clave_busqueda = k)) as [->|Hne].
    + rewrite He. unfold obtener_datos. by rewrite Hv, Hd.
    + destruct (_cache_busquedas s !! clave_busqueda) as [e0|]; simpl;
        [destruct (is_not_None (obtener_datos e0 ahora)); simpl|]; try done.
      by rewrite lookup_delete_ne.
  - rewrite almacenar_resultado_busqueda_spec.
    destruct ids_obras; simpl; try done.
    apply tras_comprobar_limpieza_busquedas; [|done]. simpl.
    simpl in Hc. apply negb_true_iff, bool_decide_eq_false in Hc.
    by rewrite lookup_insert_ne.
  - rewrite obtener_ids_departamento_spec.
    destruct (_cache_ids_departamento s !! id_dep) as [e0|]; simpl;
      [destruct (is_not_None (obtener_datos e0 ahora)); simpl|]; done.
  - rewrite almacenar_ids_departamento_spec.
    by destruct ids_obras.
  - caso_buscar criterio ahora s; done.
  - rewrite limpiar_cache_manual_spec. simpl.
    by rewrite vigentes_lookup, He, Hv.
Qed.

Lemma ejecutar_ids_presente (c : llamada) (ahora : Q) (s : AlmacenDatos)
    (k : Z) (e : EntradaCache) :
  conserva_ids_departamento k c = true →
  is_not_None (datos e) = true →
  es_valida e ahora = true →
  _cache_ids_departamento s !! k = Some e →
  _cache_ids_departamento (ejecutar c ahora s).2 !! k = Some e.
Proof.
  intros Hc Hd Hv He.
  destruct c; unfold ejecutar, responder, bind; simpl; try done.
  - rewrite obtener_obra_spec.
    destruct (_cache_obras s !! id) as [e0|]; simpl;
      [destruct (is_not_None (obtener_datos e0 ahora)); simpl|]; done.
  - rewrite almacenar_obra_spec. destruct obra; simpl; try done.
    by apply tras_comprobar_limpieza_ids.
  - rewrite obtener_departamentos_spec.
    destruct (_cache_departamentos s) as [e0|]; simpl;
      [destruct (is_not_None (obtener_datos e0 ahora)); simpl|]; done.
  - rewrite almacenar_departamentos_spec.
    by destruct departamentos.
  - rewrite obtener_resultado_busqueda_spec.
    destruct (_cache_busquedas s !! clave_busqueda) as [e0|]; simpl;
      [destruct (is_not_None (obtener_datos e0 ahora)); simpl|]; done.
  - rewrite almacenar_resultado_busqueda_spec.
    destruct ids_obras; simpl; try done.
    by apply tras_comprobar_limpieza_ids.
  - rewrite obtener_ids_departamento_spec.
    destruct (decide (id_dep = k)) as [->|Hne].
    + rewrite He. unfold obtener_datos. by rewrite Hv, Hd.
    + destruct (_cache_ids_departamento s !! id_dep) as [e0|]; simpl;
        [destruct (is_not_None (obtener_datos e0 ahora)); simpl|]; try done.
      by rewrite lookup_delete_ne.
  - rewrite almacenar_ids_departamento_spec.
    destruct ids_obras; simpl; try done.
    simpl in Hc. apply negb_true_iff, bool_decide_eq_false in Hc.
    by rewrite lookup_insert_ne.
  - caso_buscar criterio ahora s; done.
  - rewrite limpiar_cache_manual_spec. simpl.
    by rewrite vigentes_lookup, He, Hv.
Qed.

(** X15. Eviction is by expiry or invalidation only. Whatever the store,
    an entry of the works region that holds a value and is valid at the
    instant of a call is still there, unchanged, after the call, unless the
    call is [invalidar_cache_obras], [invalidar_todo_cache] or an
    [almacenar_obra] under the same id; the same holds for the searches and
    for the department id lists with their own invalidations and stores.
    In particular the automatic cleanup and [limpiar_cache_manual] never
    remove a valid entry, however large the store. *)
Theorem desalojo_solo_por_expiracion (c : llamada) (t : Q)
    (s : AlmacenDatos) (e : EntradaCache) :
  is_not_None (datos e) = true →
  es_valida e t = true →
  (∀ id : Z,
     conserva_obra id c = true →
     _cache_obras s !! id = Some e →
     _cache_obras (ejecutar c t s).2 !! id = Some e)
  ∧ (∀ k : string,
       conserva_busqueda k c = true →
       _cache_busquedas s !! k = Some e →
       _cache_busquedas (ejecutar c t s).2 !! k = Some e)
  ∧ (∀ k : Z,
       conserva_ids_departamento k c = true →
       _cache_ids_departamento s !! k = Some e →
       _cache_ids_departamento (ejecutar c t s).2 !! k = Some e).
Proof.
  intros Hd Hv. split_and!.
  - intros id Hc He. by apply ejecutar_obra_presente.
  - intros k Hc He. by apply ejecutar_busqueda_presente.
  - intros k Hc He. by apply ejecutar_ids_presente.
Qed.

Lemma desalojo_solo_por_expiracion_witness :
  _cache_obras
    (ejecutar Limpiar_cache_manual 100
       (almacenar_obra (VObra obra_test) 0 nuevo_AlmacenDatos).2).2 !! 123
  = Some (nueva_EntradaCache (VObra obra_test) TIEMPO_VIDA_OBRAS 0)
  ∧ _cache_busquedas
      (ejecutar (Almacenar_obra (VObra obra_2)) 100
         (almacenar_resultado_busqueda "q" (VLista [VEntero 123]) 0
            nuevo_AlmacenDatos).2).2 !! "q"
    = Some (nueva_EntradaCache (VLista [VEntero 123]) TIEMPO_VIDA_BUSQUEDAS 0).
Proof.
  split.
  - destruct (desalojo_solo_por_expiracion Limpiar_cache_manual 100%Q
                (almacenar_obra (VObra obra_test) 0 nuevo_AlmacenDatos).2
                (nueva_EntradaCache (VObra obra_test) TIEMPO_VIDA_OBRAS 0))
      as (Ho & _ & _); [reflexivity | reflexivity |].
    apply Ho; reflexivity.
  - destruct (desalojo_solo_por_expiracion (Almacenar_obra (VObra obra_2))
                100%Q
                (almacenar_resultado_busqueda "q" (VLista [VEntero 123]) 0
                   nuevo_AlmacenDatos).2
                (nueva_EntradaCache (VLista [VEntero 123])
                   TIEMPO_VIDA_BUSQUEDAS 0))
      as (_ & Hb & _); [reflexivity | reflexivity |].
    apply Hb; reflexivity.
Defined.

(** X16. Growth above the threshold is growth in valid entries only. If,
    after [almacenar_obra] or [almacenar_resultado_busqueda] at the instant
    [t], the works, searches and department id lists together hold more
    than 1000 entries, then none of those entries is expired at [t] and the
    departments slot holds no expired entry either: the call has swept the
    store. *)
Theorem mas_de_mil_solo_vigentes (s : AlmacenDatos) (t : Q) :
  (∀ w : ObraArte,
     let s' := (almacenar_obra (VObra w) t s).2 in
     1000 < total_entradas s' →
     expiradas (_cache_obras s') t = ∅
     ∧ expiradas (_cache_busquedas s') t = ∅
     ∧ expiradas (_cache_ids_departamento s') t = ∅
     ∧ departamentos_vigentes (_cache_departamentos s') t
       = _cache_departamentos s')
  ∧ (∀ (k : string) (l : list valor),
       let s' := (almacenar_resultado_busqueda k (VLista l) t s).2 in
       1000 < total_entradas s' →
       expiradas (_cache_obras s') t = ∅
       ∧ expiradas (_cache_busquedas s') t = ∅
       ∧ expiradas (_cache_ids_departamento s') t = ∅
       ∧ departamentos_vigentes (_cache_departamentos s') t
         = _cache_departamentos s').
Proof.
  assert (Haux : ∀ s0,
            1000 < total_entradas (tras_comprobar_limpieza t s0) →
            let s' := tras_comprobar_limpieza t s0 in
            expiradas (_cache_obras s') t = ∅
            ∧ expiradas (_cache_busquedas s') t = ∅
            ∧ expiradas (_cache_ids_departamento s') t = ∅
            ∧ departamentos_vigentes (_cache_departamentos s') t
              = _cache_departamentos s').
  { intros s0. unfold tras_comprobar_limpieza.
    destruct (1000 <? total_entradas s0) eqn:Hn.
    - intros _. simpl.
      by rewrite !expiradas_vigentes, departamentos_vigentes_idem.
    - apply Z.ltb_ge in Hn. lia. }
  split.
  - intros w s'. subst s'. rewrite almacenar_obra_spec. simpl. apply Haux.
  - intros k l s'. subst s'. rewrite almacenar_resultado_busqueda_spec.
    simpl. apply Haux.
Qed.

Lemma mas_de_mil_solo_vigentes_witness :
  total_entradas (almacenar_obra (VObra (obra_n 1001)) 0 almacen_mil_obras).2
  = 1001
  ∧ expiradas
      (_cache_obras
         (almacenar_obra (VObra (obra_n 1001)) 0 almacen_mil_obras).2) 0
    = ∅.
Proof.
  split; [vm_compute; reflexivity|].
  destruct (mas_de_mil_solo_vigentes almacen_mil_obras 0%Q) as [Ho _].
  pose proof (Ho (obra_n 1001)) as H. cbv zeta in H.
  assert (Hgt : 1000 < total_entradas
                  (almacenar_obra (VObra (obra_n 1001)) 0
                     almacen_mil_obras).2)
    by (vm_compute; reflexivity).
  destruct (H Hgt) as [H1 _]. exact H1.
Defined.

(** X17. After [invalidar_todo_cache] every lookup misses, whatever the
    instant: the four [obtener_*] methods return [None],
    [buscar_obras_por_criterio] returns the empty list, and
    [obtener_estadisticas_cache] reports zero entries in the four regions
    and zero estimated memory, with the counters as they were before the
    invalidation. *)
Theorem tras_invalidar_todo (s : AlmacenDatos) (t : Q) :
  let s0 := (invalidar_todo_cache s).2 in
  (∀ id, (obtener_obra id t s0).1 = inr VNone)
  ∧ (∀ k, (obtener_resultado_busqueda k t s0).1 = inr VNone)
  ∧ (∀ k, (obtener_ids_departamento k t s0).1 = inr VNone)
  ∧ (obtener_departamentos t s0).1 = inr VNone
  ∧ (∀ criterio, (buscar_obras_por_criterio criterio t s0).1 = inr [])
  ∧ ∃ e, obtener_estadisticas_cache s0 = (inr e, s0)
         ∧ contadores e = _estadisticas s
         ∧ obras_en_cache e = 0
         ∧ busquedas_en_cache e = 0
         ∧ departamentos_en_cache e = 0
         ∧ ids_departamentos_en_cache e = 0
         ∧ memoria_estimada_kb e = 0.
Proof.
  intros s0. subst s0. split_and!.
  - intros id. by rewrite obtener_obra_spec.
  - intros k. by rewrite obtener_resultado_busqueda_spec.
  - intros k. by rewrite obtener_ids_departamento_spec.
  - by rewrite obtener_departamentos_spec.
  - intros criterio. unfold buscar_obras_por_criterio, bind, leer, ret. simpl.
    by rewrite map_to_list_empty.
  - eexists. split; [reflexivity|]. done.
Qed.

(** * The text helpers of the search service *)

Section Texto_lemas.
Context (isspace : ascii → bool).

Lemma lstrip_sin_espacio s :
  empieza_con_espacio isspace (lstrip isspace s) = false.
Proof.
  induction s as [|c r IH]; simpl; [done|].
  destruct (isspace c) eqn:Hc; [done|]. simpl. by rewrite Hc.
Qed.

Lemma lstrip_fijo s :
  empieza_con_espacio isspace s = false → lstrip isspace s = s.
Proof. destruct s as [|c r]; simpl; [done|]. by intros ->. Qed.

Lemma rstrip_empieza s :
  empieza_con_espacio isspace s = false →
  empieza_con_espacio isspace (rstrip isspace s) = false.
Proof.
  destruct s as [|c r]; simpl; [done|]. intros Hc.
  destruct (rstrip isspace r); simpl; by rewrite ?Hc.
Qed.

Lemma rstrip_sin_espacio s :
  termina_con_espacio isspace (rstrip isspace s) = false.
Proof.
  induction s as [|c r IH]; simpl; [done|].
  destruct (rstrip isspace r) as [|c' r'] eqn:Hr.
  - destruct (isspace c) eqn:Hc; simpl; [done|]. by rewrite Hc.
  - simpl in *. done.
Qed.

Lemma rstrip_fijo s :
  termina_con_espacio isspace s = false → rstrip isspace s = s.
Proof.
  induction s as [|c r IH]; simpl; [done|].
  destruct r as [|c' r'].
  - simpl. by intros ->.
  - intros Hr. rewrite (IH Hr). done.
Qed.

Lemma strip_fijo s :
  empieza_con_espacio isspace s = false →
  termina_con_espacio isspace s = false →
  strip isspace s = s.
Proof.
  intros He Ht. unfold strip. rewrite (lstrip_fijo s He). by apply rstrip_fijo.
Qed.

Lemma strip_sin_espacios s :
  empieza_con_espacio isspace (strip isspace s) = false
  ∧ termina_con_espacio isspace (strip isspace s) = false.
Proof.
  unfold strip. split.
  - apply rstrip_empieza, lstrip_sin_espacio.
  - apply rstrip_sin_espacio.
Qed.

Lemma todos_lstrip p s : todos p s = true → todos p (lstrip isspace s) = true.
Proof.
  induction s as [|c r IH]; simpl; [done|].
  intros [Hc Hr]%andb_true_iff. destruct (isspace c); [by apply IH|].
  simpl. by rewrite Hc, Hr.
Qed.

Lemma todos_rstrip p s : todos p s = true → todos p (rstrip isspace s) = true.
Proof.
  induction s as [|c r IH]; simpl; [done|].
  intros [Hc Hr]%andb_true_iff. specialize (IH Hr).
  destruct (rstrip isspace r) as [|c' r'].
  - destruct (isspace c); simpl; [done|]. by rewrite Hc.
  - simpl in *. by rewrite Hc, IH.
Qed.

Lemma doble_lstrip s :
  contiene_doble_espacio s = false →
  contiene_doble_espacio (lstrip isspace s) = false.
Proof.
  induction s as [|c r IH]; [done|]. intros Hs.
  simpl lstrip. destruct (isspace c); [|done].
  apply IH. simpl in Hs. destruct r as [|c' r']; [done|].
  by destruct (Ascii.eqb c espacio && Ascii.eqb c' espacio).
Qed.

Lemma doble_rstrip s :
  contiene_doble_espacio s = false →
  contiene_doble_espacio (rstrip isspace s) = false.
Proof.
  induction s as [|c r IH]; [done|]. intros Hs.
  simpl in Hs. destruct r as [|c' r'].
  - simpl. by destruct (isspace c).
  - destruct (Ascii.eqb c espacio && Ascii.eqb c' espacio) eqn:Hcc; [done|].
    specialize (IH Hs). simpl rstrip in *.
    destruct (rstrip isspace r') as [|c'' r''].
    + destruct (isspace c'); simpl.
      * by destruct (isspace c).
      * by rewrite Hcc.
    + simpl. rewrite Hcc. done.
Qed.
End Texto_lemas.

Lemma todos_filtrar p s : todos p (filtrar p s) = true.
Proof.
  induction s as [|c r IH]; simpl; [done|].
  destruct (p c) eqn:Hc; [|done]. simpl. by rewrite Hc.
Qed.

Lemma filtrar_fijo p s : todos p s = true → filtrar p s = s.
Proof.
  induction s as [|c r IH]; simpl; [done|].
  intros [-> Hr]%andb_true_iff. by rewrite IH.
Qed.


Lemma reemplazar_doble_espacio_props (p : ascii → bool) (s : string) :
  (todos p s = true → todos p (reemplazar_doble_espacio s) = true)
  ∧ (String.length (reemplazar_doble_espacio s) <= String.length s)%nat
  ∧ (contiene_doble_espacio s = true →
     String.length (reemplazar_doble_espacio s) < String.length s)%nat.
Proof.
  assert (H : ∀ n s, (String.length s <= n)%nat →
    (todos p s = true → todos p (reemplazar_doble_espacio s) = true)
    ∧ (String.length (reemplazar_doble_espacio s) <= String.length s)%nat
    ∧ (contiene_doble_espacio s = true →
       String.length (reemplazar_doble_espacio s) < String.length s)%nat).
  { clear s. induction n as [|n IH]; intros s Hn.
    - destruct s; simpl in *; [done|lia].
    - destruct s as [|c [|c' r']]; [done|done|].
      simpl in Hn.
      destruct (IH r' ltac:(lia)) as (Ht' & Hl' & _).
      destruct (IH (String c' r') ltac:(simpl; lia)) as (Ht & Hl & Hd).
      change (reemplazar_doble_espacio (String c (String c' r')))
        with (if Ascii.eqb c espacio && Ascii.eqb c' espacio
              then String espacio (reemplazar_doble_espacio r')
              else String c (reemplazar_doble_espacio (String c' r'))).
      change (contiene_doble_espacio (String c (String c' r')))
        with (if Ascii.eqb c espacio && Ascii.eqb c' espacio then true
              else contiene_doble_espacio (String c' r')).
      destruct (Ascii.eqb c espacio && Ascii.eqb c' espacio) eqn:Hcc.
      + apply andb_true_iff in Hcc as [Hc%Ascii.eqb_eq Hc'%Ascii.eqb_eq].
        subst c c'. split_and!.
        * simpl. intros [He [_ Hr]%andb_true_iff]%andb_true_iff.
          by rewrite He, Ht'.
        * simpl. lia.
        * intros _. simpl. lia.
      + split_and!.
        * intros [Hc Hr]%andb_true_iff.
          change (todos p (String c ?x)) with (p c && todos p x).
          by rewrite Hc, Ht.
        * change (String.length (String c ?x)) with (S (String.length x)).
          lia.
        * intros Hdd. specialize (Hd Hdd).
          change (String.length (String c ?x)) with (S (String.length x)).
          lia. }
  by apply (H (String.length s)).
Qed.

Lemma colapsar_espacios_sin_dobles (n : nat) (s : string) :
  (String.length s <= n)%nat →
  contiene_doble_espacio (colapsar_espacios n s) = false.
Proof.
  revert s. induction n as [|n IH]; intros s Hn; simpl.
  - by destruct s; [|simpl in Hn; lia].
  - destruct (contiene_doble_espacio s) eqn:Hd; [|done].
    apply IH.
    destruct (reemplazar_doble_espacio_props (λ _, true) s) as (_ & _ & Hlt).
    specialize (Hlt Hd). lia.
Qed.

Lemma todos_colapsar p n s :
  todos p s = true → todos p (colapsar_espacios n s) = true.
Proof.
  revert s. induction n as [|n IH]; intros s Hs; simpl; [done|].
  destruct (contiene_doble_espacio s); [|done].
  apply IH. by apply reemplazar_doble_espacio_props.
Qed.

Lemma colapsar_fijo n s :
  contiene_doble_espacio s = false → colapsar_espacios n s = s.
Proof. intros Hd. destruct n; simpl; [done|]. by rewrite Hd. Qed.


(** The loop has stopped by itself once the fuel reaches the length of the
    string: more fuel gives the same result. *)
Lemma colapsar_espacios_combustible (n m : nat) (s : string) :
  (String.length s <= n)%nat → (String.length s <= m)%nat →
  colapsar_espacios n s = colapsar_espacios m s.
Proof.
  revert m s. induction n as [|n IH]; intros m s Hn Hm.
  - destruct s; [|simpl in Hn; lia]. by destruct m.
  - destruct m as [|m].
    + destruct s; [done|simpl in Hm; lia].
    + simpl. destruct (contiene_doble_espacio s) eqn:Hd; [|done].
      destruct (reemplazar_doble_espacio_props (λ _, true) s) as (_ & _ & Hlt).
      specialize (Hlt Hd). apply IH; lia.
Qed.

Lemma sanitizar_nombre_artista_forma_aux (isspace : ascii → bool)
    (nombre : string) :
  let r := _sanitizar_nombre_artista isspace nombre in
  todos (λ c, en_cadena c caracteres_permitidos) r = true
  ∧ contiene_doble_espacio r = false
  ∧ empieza_con_espacio isspace r = false
  ∧ termina_con_espacio isspace r = false.
Proof.
  intros r. subst r. unfold _sanitizar_nombre_artista.
  destruct (es_vacia nombre); [done|]. cbv zeta. split_and!.
  - unfold strip. apply todos_rstrip, todos_lstrip, todos_colapsar.
    apply todos_filtrar.
  - unfold strip. by apply doble_rstrip, doble_lstrip,
      colapsar_espacios_sin_dobles.
  - apply strip_sin_espacios.
  - apply strip_sin_espacios.
Qed.

(** X18. The shape of a sanitised artist name. Whatever the input and
    whatever counts as whitespace, the result of
    [_sanitizar_nombre_artista] contains only letters, digits, space, dot,
    hyphen and apostrophe, contains no two consecutive spaces, and neither
    starts nor ends with whitespace. The [while] loop that collapses the
    spaces has reached its exit condition within as many iterations as the
    string has characters, and further iterations would change nothing. *)
Theorem sanitizar_nombre_artista_forma (isspace : ascii → bool)
    (nombre : string) :
  let r := _sanitizar_nombre_artista isspace nombre in
  let filtrado :=
    filtrar (λ c, en_cadena c caracteres_permitidos) (strip isspace nombre) in
  todos (λ c, en_cadena c caracteres_permitidos) r = true
  ∧ contiene_doble_espacio r = false
  ∧ empieza_con_espacio isspace r = false
  ∧ termina_con_espacio isspace r = false
  ∧ contiene_doble_espacio
      (colapsar_espacios (String.length filtrado) filtrado) = false
  ∧ ∀ n, (String.length filtrado <= n)%nat →
         colapsar_espacios n filtrado
         = colapsar_espacios (String.length filtrado) filtrado.
Proof.
  intros r filtrado. subst r.
  destruct (sanitizar_nombre_artista_forma_aux isspace nombre)
    as (Ht & Hd & He & Hf).
  split_and!; try done.
  - by apply colapsar_espacios_sin_dobles.
  - intros n Hn. by apply colapsar_espacios_combustible.
Qed.

Lemma sanitizar_nombre_artista_forma_witness :
  contiene_doble_espacio
    (_sanitizar_nombre_artista isspace_latin1 "  Vincent   van    Gogh!! ")
  = false
  ∧ colapsar_espacios 100
      (filtrar (λ c, en_cadena c caracteres_permitidos)
         (strip isspace_latin1 "  Vincent   van    Gogh!! "))
    = colapsar_espacios
        (String.length
           (filtrar (λ c, en_cadena c caracteres_permitidos)
              (strip isspace_latin1 "  Vincent   van    Gogh!! ")))
        (filtrar (λ c, en_cadena c caracteres_permitidos)
           (strip isspace_latin1 "  Vincent   van    Gogh!! ")).
Proof.
  destruct (sanitizar_nombre_artista_forma isspace_latin1
              "  Vincent   van    Gogh!! ") as (_ & Hd & _ & _ & _ & Hn).
  split; [exact Hd|]. apply Hn. vm_compute. lia.
Defined.

(** X19. Sanitising is idempotent, and a clean name is a fixed point: a
    name that contains only permitted characters, no two consecutive
    spaces and no whitespace at either end is returned unchanged, and
    therefore sanitising an already sanitised name changes nothing. *)
Theorem sanitizar_nombre_artista_idempotente (isspace : ascii → bool)
    (nombre : string) :
  (todos (λ c, en_cadena c caracteres_permitidos) nombre = true →
   contiene_doble_espacio nombre = false →
   empieza_con_espacio isspace nombre = false →
   termina_con_espacio isspace nombre = false →
   _sanitizar_nombre_artista isspace nombre = nombre)
  ∧ _sanitizar_nombre_artista isspace
      (_sanitizar_nombre_artista isspace nombre)
    = _sanitizar_nombre_artista isspace nombre.
Proof.
  assert (Hfijo : ∀ x,
    todos (λ c, en_cadena c caracteres_permitidos) x = true →
    contiene_doble_espacio x = false →
    empieza_con_espacio isspace x = false →
    termina_con_espacio isspace x = false →
    _sanitizar_nombre_artista isspace x = x).
  { intros x Ht Hd He Hf. unfold _sanitizar_nombre_artista.
    destruct (es_vacia x) eqn:Hv; [by destruct x|]. cbv zeta.
    rewrite (strip_fijo isspace x He Hf), (filtrar_fijo _ x Ht),
      (colapsar_fijo _ x Hd).
    by apply strip_fijo. }
  split; [apply Hfijo|].
  destruct (sanitizar_nombre_artista_forma_aux isspace nombre)
    as (Ht & Hd & He & Hf).
  by apply Hfijo.
Qed.

Lemma sanitizar_nombre_artista_idempotente_witness :
  _sanitizar_nombre_artista isspace_latin1 "Claude Monet" = "Claude Monet"%string.
Proof.
  destruct (sanitizar_nombre_artista_idempotente isspace_latin1
              "Claude Monet") as [Hfijo _].
  apply Hfijo; reflexivity.
Defined.

Example test_sanitizar_nombre_artista :
  _sanitizar_nombre_artista isspace_latin1 "Vincent van Gogh"
  = "Vincent van Gogh"%string
  ∧ _sanitizar_nombre_artista isspace_latin1 "  Vincent   van   Gogh  "
    = "Vincent van Gogh"%string
  ∧ _sanitizar_nombre_artista isspace_latin1 "Vincent@#$%van&*()Gogh"
    = "VincentvanGogh"%string
  ∧ _sanitizar_nombre_artista isspace_latin1 "Jean-Baptiste O'Connor"
    = "Jean-Baptiste O'Connor"%string
  ∧ _sanitizar_nombre_artista isspace_latin1 "Artist 123"
    = "Artist 123"%string
  ∧ _sanitizar_nombre_artista isspace_latin1 "" = ""%string
  ∧ _sanitizar_nombre_artista isspace_latin1 "@#$%^&*()" = ""%string.
Proof. by vm_compute. Qed.

(** * The nationality manager *)

Lemma foldl_agregar_si {A B} (f : A → B) (p : A → bool) (l : list A)
    (acc : list B) :
  foldl (λ acc x, if p x then acc ++ [f x] else acc) acc l
  = acc ++ (f <$> filter (λ x, p x) l).
Proof.
  revert acc. induction l as [|x l IH]; intros acc; simpl.
  - by rewrite app_nil_r.
  - rewrite IH, filter_cons. case_decide as Hd.
    + apply Is_true_true in Hd. rewrite Hd. simpl. by rewrite <- app_assoc.
    + apply Is_true_false in Hd. by rewrite Hd.
Qed.

Lemma fmap_filter_bool {A B} (f : A → B) (p : B → bool) (l : list A) :
  f <$> filter (λ x, p (f x)) l = filter (λ y, p y) (f <$> l).
Proof.
  induction l as [|x l IH]; [done|].
  rewrite fmap_cons, !filter_cons. destruct (p (f x)) eqn:Hp.
  - rewrite !decide_True by done. by rewrite fmap_cons, IH.
  - rewrite !decide_False by (simpl; tauto). done.
Qed.

Lemma lineas_utiles_spec (isspace : ascii → bool) (lineas : list string) :
  lineas_utiles isspace lineas
  = filter (λ n, negb (es_vacia n) && negb (empieza_con "#" n))
           (strip isspace <$> lineas).
Proof.
  unfold lineas_utiles.
  rewrite (foldl_agregar_si (strip isspace)
             (λ linea, negb (es_vacia (strip isspace linea))
                       && negb (empieza_con "#" (strip isspace linea)))).
  simpl.
  apply (fmap_filter_bool (strip isspace)
           (λ n, negb (es_vacia n) && negb (empieza_con "#" n))).
Qed.

Lemma quitar_duplicados_props (l acc : list string) :
  NoDup acc →
  NoDup (quitar_duplicados acc l)
  ∧ (∀ x, x ∈ quitar_duplicados acc l ↔ x ∈ acc ∨ x ∈ l)
  ∧ ∃ resto, quitar_duplicados acc l = acc ++ resto ∧ resto `sublist_of` l.
Proof.
  revert acc. induction l as [|x l IH]; intros acc Hnd; simpl.
  - split_and!; [done| |].
    + intros y. rewrite elem_of_nil. tauto.
    + exists []. by rewrite app_nil_r.
  - case_bool_decide as Hx.
    + destruct (IH acc Hnd) as (Hn & Hm & resto & Heq & Hsub).
      split_and!; [done| |].
      * intros y. rewrite Hm, elem_of_cons.
        split; [tauto | intros [?|[->|?]]; tauto].
      * exists resto. split; [done|]. by apply sublist_cons.
    + assert (Hnd' : NoDup (acc ++ [x])).
      { apply NoDup_app. split_and!; [done| |apply NoDup_singleton].
        intros y Hy ->%list_elem_of_singleton. done. }
      destruct (IH (acc ++ [x]) Hnd') as (Hn & Hm & resto & Heq & Hsub).
      split_and!; [done| |].
      * intros y.
        rewrite Hm, elem_of_app, list_elem_of_singleton, elem_of_cons.
        tauto.
      * exists (x :: resto). split; [by rewrite Heq, <- app_assoc|].
        by apply sublist_skip.
Qed.

Lemma quitar_duplicados_NoDup (l acc : list string) :
  NoDup (acc ++ l) → quitar_duplicados acc l = acc ++ l.
Proof.
  revert acc. induction l as [|x l IH]; intros acc Hnd; simpl.
  - by rewrite app_nil_r.
  - apply NoDup_app in Hnd as Hnd'. destruct Hnd' as (Ha & Hdis & Hl).
    rewrite bool_decide_eq_false_2.
    + rewrite IH; rewrite <- app_assoc; done.
    + intros Hx. apply (Hdis x Hx). left.
Qed.

Lemma strip_strip (isspace : ascii → bool) (s : string) :
  strip isspace (strip isspace s) = strip isspace s.
Proof. apply strip_fijo; apply strip_sin_espacios. Qed.

Lemma procesar_archivo_props (isspace : ascii → bool)
    (lineas : list string) :
  let salida := _procesar_archivo_nacionalidades isspace lineas in
  NoDup salida
  ∧ (∀ x, x ∈ salida
          ↔ ∃ linea, linea ∈ lineas
                     ∧ x = strip isspace linea
                     ∧ x ≠ EmptyString
                     ∧ empieza_con "#" x = false)
  ∧ salida `sublist_of` (strip isspace <$> lineas)
  ∧ (NoDup (lineas_utiles isspace lineas) →
     salida = lineas_utiles isspace lineas).
Proof.
  intros salida. subst salida.
  unfold _procesar_archivo_nacionalidades, sin_duplicados.
  destruct (quitar_duplicados_props (lineas_utiles isspace lineas) []
              (NoDup_nil_2)) as (Hn & Hm & resto & Heq & Hsub).
  split_and!; [done| | |].
  - intros x. rewrite Hm, elem_of_nil, lineas_utiles_spec.
    rewrite list_elem_of_filter, list_elem_of_fmap. split.
    + intros [[]|[Hp (linea & -> & Hl)]].
      apply andb_prop_elim in Hp as [Hv Hc].
      exists linea. split_and!; try done.
      * intros Hx. rewrite Hx in Hv. done.
      * by destruct (empieza_con "#" (strip isspace linea)).
    + intros (linea & Hl & -> & Hne & Hc). right. split; [|by exists linea].
      rewrite Hc. by destruct (strip isspace linea).
  - rewrite Heq. simpl. etrans; [exact Hsub|].
    rewrite lineas_utiles_spec. apply sublist_filter.
  - intros Hnd. by apply (quitar_duplicados_NoDup _ []).
Qed.

Lemma procesar_no_vacio (isspace : ascii → bool) (lineas : list string) :
  _procesar_archivo_nacionalidades isspace lineas ≠ []
  ↔ ∃ linea, linea ∈ lineas
             ∧ strip isspace linea ≠ EmptyString
             ∧ empieza_con "#" (strip isspace linea) = false.
Proof.
  destruct (procesar_archivo_props isspace lineas) as (_ & Hm & _). split.
  - destruct (_procesar_archivo_nacionalidades isspace lineas) as [|x l] eqn:Hs;
      [done|]. intros _.
    destruct (proj1 (Hm x)) as (linea & Hl & -> & Hne & Hc); [left|].
    by exists linea.
  - intros (linea & Hl & Hne & Hc) Hs.
    assert (Hx : strip isspace linea
                 ∈ _procesar_archivo_nacionalidades isspace lineas)
      by (apply Hm; by exists linea).
    rewrite Hs in Hx. by apply elem_of_nil in Hx.
Qed.

Lemma cargar_nacionalidades_exito (isspace : ascii → bool)
    (lineas : list string) (g0 g : GestorNacionalidades) :
  cargar_nacionalidades isspace (Lineas lineas) g0 = (inr tt, g) →
  _archivo_cargado g = true
  ∧ _nacionalidades g = _procesar_archivo_nacionalidades isspace lineas.
Proof.
  simpl.
  destruct (_procesar_archivo_nacionalidades isspace lineas) as [|x l];
    simpl; [done|]. by intros [= <-].
Qed.

Lemma validar_nacionalidad_true (isspace : ascii → bool)
    (lower : string → string) (x : string) (g : GestorNacionalidades) :
  _archivo_cargado g = true →
  (validar_nacionalidad isspace lower x g = inr true
   ↔ x ≠ EmptyString
     ∧ ∃ nac, nac ∈ _nacionalidades g
              ∧ lower nac = lower (strip isspace x)).
Proof.
  intros Hc. unfold validar_nacionalidad. rewrite Hc. simpl.
  destruct x as [|c r] eqn:Hx; simpl.
  - split; [done | by intros [? _]].
  - rewrite <- Hx. split.
    + intros [= Hex]. split; [by rewrite Hx|].
      apply existsb_exists in Hex as (nac & Hin & Heq).
      exists nac. split; [by apply list_elem_of_In|]. by apply String.eqb_eq.
    + intros (_ & nac & Hin & Heq). f_equal.
      apply existsb_exists. exists nac.
      split; [by apply list_elem_of_In|]. by apply String.eqb_eq.
Qed.

(** X20. What [_procesar_archivo_nacionalidades] extracts from the lines of
    the file. The result has no duplicates; a string is in it exactly when
    it is the stripped form of some line, is not empty and does not start
    with [#]; the result keeps the order of the lines (it is a subsequence
    of the stripped lines); and when the useful lines are already distinct
    the result is exactly those lines, in order. *)
Theorem procesar_archivo_nacionalidades_salida (isspace : ascii → bool)
    (lineas : list string) :
  let salida := _procesar_archivo_nacionalidades isspace lineas in
  NoDup salida
  ∧ (∀ x, x ∈ salida
          ↔ ∃ linea, linea ∈ lineas
                     ∧ x = strip isspace linea
                     ∧ x ≠ EmptyString
                     ∧ empieza_con "#" x = false)
  ∧ salida `sublist_of` (strip isspace <$> lineas)
  ∧ (NoDup (lineas_utiles isspace lineas) →
     salida = lineas_utiles isspace lineas).
Proof. apply procesar_archivo_props. Qed.

Lemma procesar_archivo_nacionalidades_salida_witness :
  _procesar_archivo_nacionalidades isspace_latin1
    ["American"; " British "; "# x"; "French"]
  = ["American"; "British"; "French"]%string.
Proof.
  destruct (procesar_archivo_nacionalidades_salida isspace_latin1
              ["American"; " British "; "# x"; "French"]%string)
    as (_ & _ & _ & Hfijo).
  rewrite Hfijo; [reflexivity|].
  apply (bool_decide_unpack (NoDup _)). vm_compute. exact I.
Defined.

(** X21. The outcomes of [cargar_nacionalidades]. The load succeeds exactly
    when the path is a readable file with at least one line that, stripped,
    is neither empty nor a comment; the manager is then marked as loaded,
    holds a non-empty list, the one extracted from the lines, and reports a
    positive length. Every other outcome raises
    [ErrorArchivoNacionalidades] and leaves the loaded flag as it was; a
    missing path, a directory and a read failure leave the whole manager
    unchanged, while a file without useful lines has already replaced the
    list by the empty list when the error is raised. The path is never
    changed. *)
Theorem cargar_nacionalidades_resultado (isspace : ascii → bool) (a : archivo)
    (g : GestorNacionalidades) :
  let r := (cargar_nacionalidades isspace a g).1 in
  let g' := (cargar_nacionalidades isspace a g).2 in
  _ruta_archivo g' = _ruta_archivo g
  ∧ (r = inr tt
     ↔ ∃ lineas, a = Lineas lineas
                 ∧ ∃ linea, linea ∈ lineas
                            ∧ strip isspace linea ≠ EmptyString
                            ∧ empieza_con "#" (strip isspace linea) = false)
  ∧ (r = inr tt →
     _archivo_cargado g' = true
     ∧ _nacionalidades g' ≠ []
     ∧ 0 < len_gestor g'
     ∧ obtener_nacionalidades_disponibles g' = inr (_nacionalidades g')
     ∧ ∀ lineas, a = Lineas lineas →
         _nacionalidades g' = _procesar_archivo_nacionalidades isspace lineas)
  ∧ (r ≠ inr tt →
     (∃ mensaje, r = inl (Error_archivo_nacionalidades mensaje))
     ∧ _archivo_cargado g' = _archivo_cargado g
     ∧ ((∀ lineas, a ≠ Lineas lineas) → g' = g)
     ∧ ((∃ lineas, a = Lineas lineas) → _nacionalidades g' = [])).
Proof.
  intros r g'. subst r g'.
  destruct a as [| | m | m | lineas]; simpl.
  1-4: (split_and!;
        [ done
        | split; [done | by intros (? & ? & _)]
        | done
        | intros _; split_and!;
          [ unfold error_inesperado; eauto | done | done | by intros [? ?] ] ]).
  pose proof (procesar_no_vacio isspace lineas) as Hnv.
  destruct (_procesar_archivo_nacionalidades isspace lineas) as [|x l] eqn:Hs;
    simpl.
  - split_and!; try done.
    + split; [done|]. intros (l' & [= <-] & Hex). by apply Hnv in Hex.
    + intros _. split_and!; eauto. intros Hno. by destruct (Hno lineas).
  - split_and!; try done.
    + split; [|done]. intros _. exists lineas. split; [done|]. by apply Hnv.
    + intros _. unfold len_gestor, obtener_nacionalidades_disponibles. simpl.
      split_and!; try done; try lia. all: by intros ? [= <-].
Qed.

Lemma cargar_nacionalidades_resultado_witness :
  cargar_nacionalidades isspace_latin1 (Lineas lineas_test)
    (nuevo_GestorNacionalidades "nacionalidades.txt")
  = (inr tt,
     {| _ruta_archivo := "nacionalidades.txt";
        _nacionalidades :=
          ["American"; "British"; "French"; "German"; "Italian"]%string;
        _archivo_cargado := true |})
  ∧ _archivo_cargado
      (cargar_nacionalidades isspace_latin1 No_existe
         (nuevo_GestorNacionalidades "nacionalidades.txt")).2
    = false.
Proof.
  split; [reflexivity|].
  destruct (cargar_nacionalidades_resultado isspace_latin1 No_existe
              (nuevo_GestorNacionalidades "nacionalidades.txt"))
    as (_ & _ & _ & Hfalla).
  destruct Hfalla as (_ & Hflag & _); [discriminate|]. exact Hflag.
Defined.

(** X22. What [validar_nacionalidad] accepts. Before a successful load it
    raises, [obtener_nacionalidades_disponibles] raises and the length is
    0. Once loaded, the empty string is rejected; a non-empty string is
    accepted exactly when its stripped, lower-cased form equals the
    lower-cased form of some loaded nationality, so that two inputs with
    the same normal form get the same answer; and every nationality that
    a successful [cargar_nacionalidades] has just loaded is accepted. *)
Theorem validar_nacionalidad_cargadas (isspace : ascii → bool)
    (lower : string → string) (g : GestorNacionalidades) :
  (_archivo_cargado g = false →
   (∀ x, validar_nacionalidad isspace lower x g = inl error_no_cargadas)
   ∧ obtener_nacionalidades_disponibles g = inl error_no_cargadas
   ∧ len_gestor g = 0)
  ∧ (_archivo_cargado g = true →
     validar_nacionalidad isspace lower EmptyString g = inr false
     ∧ (∀ x, validar_nacionalidad isspace lower x g = inr true
             ↔ x ≠ EmptyString
               ∧ ∃ nac, nac ∈ _nacionalidades g
                        ∧ lower nac = lower (strip isspace x))
     ∧ (∀ x y, x ≠ EmptyString → y ≠ EmptyString →
               lower (strip isspace x) = lower (strip isspace y) →
               validar_nacionalidad isspace lower x g
               = validar_nacionalidad isspace lower y g))
  ∧ (∀ (lineas : list string) (g0 : GestorNacionalidades),
       cargar_nacionalidades isspace (Lineas lineas) g0 = (inr tt, g) →
       ∀ nac, nac ∈ _nacionalidades g →
              validar_nacionalidad isspace lower nac g = inr true).
Proof.
  split_and!.
  - intros Hc. unfold validar_nacionalidad,
      obtener_nacionalidades_disponibles, len_gestor. by rewrite Hc.
  - intros Hc. split_and!.
    + unfold validar_nacionalidad. by rewrite Hc.
    + intros x. by apply validar_nacionalidad_true.
    + intros x y Hx Hy Heq. unfold validar_nacionalidad. rewrite Hc. simpl.
      destruct x; [done|]. destruct y; [done|]. simpl. by rewrite Heq.
  - intros lineas g0 Hcarga nac Hnac.
    destruct (cargar_nacionalidades_exito isspace lineas g0 g Hcarga)
      as [Hc Hl].
    pose proof Hnac as Hin. rewrite Hl in Hnac.
    destruct (procesar_archivo_props isspace lineas) as (_ & Hm & _).
    apply Hm in Hnac as (linea & _ & -> & Hne & _).
    apply validar_nacionalidad_true; [done|]. split; [done|].
    exists (strip isspace linea). by rewrite strip_strip.
Qed.

Lemma validar_nacionalidad_cargadas_witness :
  validar_nacionalidad isspace_latin1 lower_latin1 "  amERican "
    (cargar_nacionalidades isspace_latin1 (Lineas lineas_test)
       (nuevo_GestorNacionalidades "nacionalidades.txt")).2
  = inr true
  ∧ validar_nacionalidad isspace_latin1 lower_latin1 "American"
      (nuevo_GestorNacionalidades "nacionalidades.txt")
    = inl error_no_cargadas.
Proof.
  destruct (validar_nacionalidad_cargadas isspace_latin1 lower_latin1
              (cargar_nacionalidades isspace_latin1 (Lineas lineas_test)
                 (nuevo_GestorNacionalidades "nacionalidades.txt")).2)
    as (_ & Hcargado & _).
  destruct (validar_nacionalidad_cargadas isspace_latin1 lower_latin1
              (nuevo_GestorNacionalidades "nacionalidades.txt"))
    as (Hsin & _ & _).
  split.
  - destruct Hcargado as (_ & Hiff & _); [reflexivity|].
    apply Hiff. split; [discriminate|].
    exists "American"%string. split; [|reflexivity].
    apply (bool_decide_unpack (_ ∈ _)). vm_compute. exact I.
  - destruct Hsin as (Hv & _); [reflexivity|]. apply Hv.
Defined.

(** X23. A reload that finds no useful line empties a loaded manager
    without unloading it. If the manager is loaded and
    [cargar_nacionalidades] then reads a file whose lines are all blank or
    comments, the call raises, but the manager stays marked as loaded with
    an empty list: [obtener_nacionalidades_disponibles] returns the empty
    list instead of raising, the length is 0 and [validar_nacionalidad]
    rejects every input. *)
Theorem recarga_sin_lineas_utiles (isspace : ascii → bool)
    (lower : string → string) (g : GestorNacionalidades)
    (lineas : list string) :
  _archivo_cargado g = true →
  _procesar_archivo_nacionalidades isspace lineas = [] →
  let g' := (cargar_nacionalidades isspace (Lineas lineas) g).2 in
  (∃ mensaje, (cargar_nacionalidades isspace (Lineas lineas) g).1
              = inl (Error_archivo_nacionalidades mensaje))
  ∧ _archivo_cargado g' = true
  ∧ obtener_nacionalidades_disponibles g' = inr []
  ∧ len_gestor g' = 0
  ∧ ∀ x, validar_nacionalidad isspace lower x g' = inr false.
Proof.
  intros Hc Hs g'. subst g'. simpl. rewrite Hs. simpl.
  unfold obtener_nacionalidades_disponibles, len_gestor, validar_nacionalidad.
  simpl. rewrite Hc. simpl. split_and!; try done.
  - unfold error_inesperado. eauto.
  - intros x. by destruct (es_vacia x).
Qed.

Lemma recarga_sin_lineas_utiles_witness :
  obtener_nacionalidades_disponibles
    (cargar_nacionalidades isspace_latin1 (Lineas ["# solo"; "  "])
       (cargar_nacionalidades isspace_latin1 (Lineas lineas_test)
          (nuevo_GestorNacionalidades "nacionalidades.txt")).2).2
  = inr [].
Proof.
  destruct (recarga_sin_lineas_utiles isspace_latin1 lower_latin1
              (cargar_nacionalidades isspace_latin1 (Lineas lineas_test)
                 (nuevo_GestorNacionalidades "nacionalidades.txt")).2
              ["# solo"; "  "]%string) as (_ & _ & Hobt & _);
    [reflexivity | reflexivity |]. exact Hobt.
Defined.

(** * The departments lookup of the search service *)

Lemma ltb_asimetrica (a b : string) :
  String.ltb a b = true → String.ltb b a = false.
Proof.
  unfold String.ltb. rewrite (String.compare_antisym a b).
  by destruct (String.compare b a).
Qed.

Lemma ltb_distintas (a b : string) : String.ltb a b = true → a ≠ b.
Proof.
  intros Hlt ->. pose proof (ltb_asimetrica _ _ Hlt) as Hno. congruence.
Qed.

Lemma insertar_clave_departamento lower (x : Departamento)
    (l : list Departamento) :
  insertar (clave_departamento lower x) (clave_departamento lower <$> l)
  = clave_departamento lower <$> insertar_departamento lower x l.
Proof.
  induction l as [|y r IH]; [done|].
  rewrite fmap_cons. cbn [insertar insertar_departamento].
  change (clave_departamento lower y).1 with (lower (nombre_departamento y)).
  change (clave_departamento lower x).1 with (lower (nombre_departamento x)).
  destruct (String.ltb _ _); [|done]. by rewrite IH.
Qed.

Lemma ordenar_clave_departamento lower (l : list Departamento) :
  ordenar (clave_departamento lower <$> l)
  = clave_departamento lower <$> ordenar_departamentos lower l.
Proof.
  induction l as [|x l IH]; [done|].
  rewrite fmap_cons. unfold ordenar, ordenar_departamentos in *.
  cbn [foldr]. by rewrite IH, insertar_clave_departamento.
Qed.

Lemma insertar_departamento_perm lower x l :
  insertar_departamento lower x l ≡ₚ x :: l.
Proof.
  induction l as [|y r IH]; simpl; [done|].
  destruct (String.ltb _ _); [|done].
  rewrite IH. apply Permutation_swap.
Qed.

Lemma ordenar_departamentos_perm lower l :
  ordenar_departamentos lower l ≡ₚ l.
Proof.
  induction l as [|x l IH]; simpl; [done|].
  by rewrite insertar_departamento_perm, IH.
Qed.

Lemma insertar_departamento_sorted lower x l :
  Sorted (no_despues lower) l →
  Sorted (no_despues lower) (insertar_departamento lower x l).
Proof.
  induction l as [|y r IH]; simpl; intros Hs.
  - by repeat constructor.
  - destruct (String.ltb (lower (nombre_departamento y))
                         (lower (nombre_departamento x))) eqn:Hlt.
    + apply Sorted_inv in Hs as [Hr Hhd]. constructor; [by apply IH|].
      destruct r as [|z r']; simpl.
      * constructor. by apply ltb_asimetrica.
      * destruct (String.ltb (lower (nombre_departamento z))
                             (lower (nombre_departamento x))) eqn:Hlt2.
        -- constructor. by apply HdRel_inv in Hhd.
        -- constructor. by apply ltb_asimetrica.
    + constructor; [done|]. by constructor.
Qed.

Lemma ordenar_departamentos_sorted lower l :
  Sorted (no_despues lower) (ordenar_departamentos lower l).
Proof.
  induction l as [|x l IH]; simpl; [constructor|].
  by apply insertar_departamento_sorted.
Qed.

Lemma ordenar_departamentos_fijo lower l :
  Sorted (no_despues lower) l → ordenar_departamentos lower l = l.
Proof.
  induction l as [|x l IH]; [done|]. intros Hs.
  apply Sorted_inv in Hs as [Hl Hhd]. simpl. rewrite (IH Hl).
  destruct l as [|y r]; [done|]. simpl.
  apply HdRel_inv in Hhd. unfold no_despues in Hhd. by rewrite Hhd.
Qed.

(** The insertion never moves an element past one with the same key. *)
Lemma insertar_departamento_con_clave lower k x l :
  con_clave lower k (insertar_departamento lower x l)
  = con_clave lower k (x :: l).
Proof.
  unfold con_clave. induction l as [|y r IH]; [done|].
  cbn [insertar_departamento].
  destruct (String.ltb (lower (nombre_departamento y))
                       (lower (nombre_departamento x))) eqn:Hlt; [|done].
  apply ltb_distintas in Hlt.
  rewrite (filter_cons _ y), IH, !(filter_cons _ x), (filter_cons _ y).
  repeat case_decide; try done. congruence.
Qed.

Lemma ordenar_departamentos_con_clave lower k l :
  con_clave lower k (ordenar_departamentos lower l) = con_clave lower k l.
Proof.
  induction l as [|x l IH]; [done|].
  unfold ordenar_departamentos in *. cbn [foldr].
  rewrite insertar_departamento_con_clave. unfold con_clave in *.
  by rewrite !(filter_cons _ x), IH.
Qed.

Lemma con_claves_departamentos (lower : string → string)
    (ds : list Departamento) :
  con_claves lower (VDepartamento <$> ds)
  = inr (clave_departamento lower <$> ds).
Proof.
  induction ds as [|d ds IH]; [done|].
  rewrite !fmap_cons. cbn [con_claves clave_nombre]. by rewrite IH.
Qed.

Lemma sorted_por_nombre_departamentos (lower : string → string)
    (ds : list Departamento) :
  sorted_por_nombre lower (VLista (VDepartamento <$> ds))
  = inr (VDepartamento <$> ordenar_departamentos lower ds).
Proof.
  unfold sorted_por_nombre. cbn [iterar].
  rewrite con_claves_departamentos, ordenar_clave_departamento.
  f_equal. rewrite <- list_fmap_compose. by apply list_fmap_ext.
Qed.


(** A lookup that misses leaves the slot empty and counts one miss. *)
Lemma obtener_departamentos_fallo (t : Q) (s : AlmacenDatos) :
  (obtener_departamentos t s).1 = inr VNone →
  ∃ s1, obtener_departamentos t s = (inr VNone, s1)
        ∧ _cache_departamentos s1 = None
        ∧ misses_departamentos (_estadisticas s1)
          = misses_departamentos (_estadisticas s) + 1
        ∧ hits_departamentos (_estadisticas s1)
          = hits_departamentos (_estadisticas s)
        ∧ _cache_obras s1 = _cache_obras s
        ∧ _cache_busquedas s1 = _cache_busquedas s
        ∧ _cache_ids_departamento s1 = _cache_ids_departamento s.
Proof.
  rewrite obtener_departamentos_spec.
  destruct (_cache_departamentos s) as [e|] eqn:He.
  - destruct (is_not_None (obtener_datos e t)) eqn:Hn; simpl.
    + intros [= Hv]. by rewrite Hv in Hn.
    + intros _. eexists. split; [reflexivity|]. done.
  - intros _. eexists. split; [reflexivity|]. simpl. by rewrite He.
Qed.

(** X24. [sorted(departamentos, key=lambda d: d.nombre.lower())] on a list of
    departments returns the same departments, rearranged so that no
    lower-cased name is followed by a smaller one, and stably: the
    departments that share a lower-cased name keep the order they had, so a
    list that is already in order comes back unchanged. *)
Theorem sorted_por_nombre_ordena (lower : string → string)
    (ds : list Departamento) :
  ∃ ordenados,
    sorted_por_nombre lower (VLista (VDepartamento <$> ds))
    = inr (VDepartamento <$> ordenados)
    ∧ ordenados ≡ₚ ds
    ∧ Sorted (no_despues lower) ordenados
    ∧ (∀ k, con_clave lower k ordenados = con_clave lower k ds)
    ∧ (Sorted (no_despues lower) ds → ordenados = ds).
Proof.
  exists (ordenar_departamentos lower ds). split_and!.
  - apply sorted_por_nombre_departamentos.
  - apply ordenar_departamentos_perm.
  - apply ordenar_departamentos_sorted.
  - intros k. apply ordenar_departamentos_con_clave.
  - apply ordenar_departamentos_fijo.
Qed.

(** X25. Cache-aside: when the lookup misses and the API answers a list of
    departments, the API is asked once, the list is cached as it came with a
    lifetime of 1800 seconds from the time of the store, and the sorted list
    is returned.  A second call less than 1800 seconds after the store
    returns the same list without asking the API, whatever the API would
    answer, counts a hit and leaves the cached entry as it is. *)
Theorem departamentos_disponibles_cache (lower : string → string)
    (s : AlmacenDatos) (ds : list Departamento) (api2 : respuesta_api)
    (t0 t1 t2 t3 : Q) :
  (obtener_departamentos t0 s).1 = inr VNone →
  (t2 - t1 < TIEMPO_VIDA_DEPARTAMENTOS)%Q →
  let r1 := obtener_departamentos_disponibles lower
              (Devuelve (VLista (VDepartamento <$> ds))) t0 t1 s in
  let r2 := obtener_departamentos_disponibles lower api2 t2 t3
              (almacen_final r1) in
  devuelto r1 = inr (VDepartamento <$> ordenar_departamentos lower ds)
  ∧ consultas_api r1 = 1%nat
  ∧ _cache_departamentos (almacen_final r1)
    = Some (nueva_EntradaCache (VLista (VDepartamento <$> ds))
              TIEMPO_VIDA_DEPARTAMENTOS t1)
  ∧ misses_departamentos (_estadisticas (almacen_final r1))
    = misses_departamentos (_estadisticas s) + 1
  ∧ devuelto r2 = devuelto r1
  ∧ consultas_api r2 = 0%nat
  ∧ hits_departamentos (_estadisticas (almacen_final r2))
    = hits_departamentos (_estadisticas (almacen_final r1)) + 1
  ∧ _cache_departamentos (almacen_final r2)
    = _cache_departamentos (almacen_final r1).
Proof.
  intros Hmiss Ht r1 r2.
  destruct (obtener_departamentos_fallo t0 s Hmiss)
    as (s1 & Hs1 & Hslot & Hm & Hh & _).
  assert (Hr1 : r1 = {| devuelto :=
                          inr (VDepartamento <$> ordenar_departamentos lower ds);
                        almacen_final :=
                          con_departamentos
                            (Some (nueva_EntradaCache
                                     (VLista (VDepartamento <$> ds))
                                     TIEMPO_VIDA_DEPARTAMENTOS t1)) s1;
                        consultas_api := 1 |}).
  { subst r1. unfold obtener_departamentos_disponibles. rewrite Hs1.
    cbn [is_not_None]. rewrite almacenar_departamentos_spec.
    by rewrite sorted_por_nombre_departamentos. }
  subst r2. rewrite Hr1. cbn [devuelto almacen_final consultas_api].
  unfold obtener_departamentos_disponibles.
  rewrite obtener_departamentos_spec.
  cbn [_cache_departamentos con_departamentos].
  unfold obtener_datos. rewrite es_valida_nueva by done.
  cbn [datos nueva_EntradaCache is_not_None devuelto almacen_final
       consultas_api].
  rewrite sorted_por_nombre_departamentos.
  split_and!; done.
Qed.

Lemma departamentos_disponibles_cache_witness :
  let r1 := obtener_departamentos_disponibles lower_latin1
              (Devuelve (VLista (VDepartamento <$> departamentos_desordenados)))
              0 1 nuevo_AlmacenDatos in
  let r2 := obtener_departamentos_disponibles lower_latin1
              (Lanza_ErrorAPIMetMuseum "sin red") 1800 1800
              (almacen_final r1) in
  devuelto r1
  = inr (VDepartamento
           <$> ordenar_departamentos lower_latin1 departamentos_desordenados)
  ∧ consultas_api r1 = 1%nat
  ∧ _cache_departamentos (almacen_final r1)
    = Some (nueva_EntradaCache
              (VLista (VDepartamento <$> departamentos_desordenados))
              TIEMPO_VIDA_DEPARTAMENTOS 1)
  ∧ misses_departamentos (_estadisticas (almacen_final r1))
    = misses_departamentos (_estadisticas nuevo_AlmacenDatos) + 1
  ∧ devuelto r2 = devuelto r1
  ∧ consultas_api r2 = 0%nat
  ∧ hits_departamentos (_estadisticas (almacen_final r2))
    = hits_departamentos (_estadisticas (almacen_final r1)) + 1
  ∧ _cache_departamentos (almacen_final r2)
    = _cache_departamentos (almacen_final r1).
Proof.
  apply (departamentos_disponibles_cache lower_latin1 nuevo_AlmacenDatos
           departamentos_desordenados (Lanza_ErrorAPIMetMuseum "sin red")
           0 1 1800 1800).
  - reflexivity.
  - reflexivity.
Defined.



(** X27. When the lookup hits, the API is not asked: the call returns the
    cached value sorted, whatever the API would answer, counts a hit and
    leaves the four regions of the cache as they are. *)
Theorem departamentos_disponibles_acierto (lower : string → string)
    (s : AlmacenDatos) (api : respuesta_api) (t0 t1 : Q) (v : valor) :
  (obtener_departamentos t0 s).1 = inr v →
  is_not_None v = true →
  let r := obtener_departamentos_disponibles lower api t0 t1 s in
  devuelto r = sorted_por_nombre lower v
  ∧ consultas_api r = 0%nat
  ∧ _cache_departamentos (almacen_final r) = _cache_departamentos s
  ∧ _cache_obras (almacen_final r) = _cache_obras s
  ∧ _cache_busquedas (almacen_final r) = _cache_busquedas s
  ∧ _cache_ids_departamento (almacen_final r) = _cache_ids_departamento s
  ∧ hits_departamentos (_estadisticas (almacen_final r))
    = hits_departamentos (_estadisticas s) + 1.
Proof.
  intros Hv Hn r. subst r. unfold obtener_departamentos_disponibles.
  revert Hv. rewrite obtener_departamentos_spec.
  destruct (_cache_departamentos s) as [e|] eqn:He.
  - destruct (is_not_None (obtener_datos e t0)) eqn:Hd; simpl.
    + intros [= <-]. rewrite Hd. simpl. by rewrite He.
    + intros [= <-]. done.
  - simpl. intros [= <-]. done.
Qed.

Lemma departamentos_disponibles_acierto_witness :
  let s := con_departamentos
             (Some (nueva_EntradaCache
                      (VLista (VDepartamento <$> departamentos_desordenados))
                      TIEMPO_VIDA_DEPARTAMENTOS 0)) nuevo_AlmacenDatos in
  let r := obtener_departamentos_disponibles lower_latin1
             (Lanza_ErrorAPIMetMuseum "sin red") 10 11 s in
  devuelto r
  = sorted_por_nombre lower_latin1
      (VLista (VDepartamento <$> departamentos_desordenados))
  ∧ consultas_api r = 0%nat
  ∧ _cache_departamentos (almacen_final r) = _cache_departamentos s
  ∧ _cache_obras (almacen_final r) = _cache_obras s
  ∧ _cache_busquedas (almacen_final r) = _cache_busquedas s
  ∧ _cache_ids_departamento (almacen_final r) = _cache_ids_departamento s
  ∧ hits_departamentos (_estadisticas (almacen_final r))
    = hits_departamentos (_estadisticas s) + 1.
Proof.
  intros s.
  apply (departamentos_disponibles_acierto lower_latin1 s
           (Lanza_ErrorAPIMetMuseum "sin red") 10 11
           (VLista (VDepartamento <$> departamentos_desordenados)));
    reflexivity.
Defined.

Example test_departamentos_ordenados :
  ordenar_departamentos lower_latin1 departamentos_desordenados
  = [ {| id_departamento := 1; nombre_departamento := "American" |};
      {| id_departamento := 4; nombre_departamento := "AMERICAN" |};
      {| id_departamento := 9; nombre_departamento := "Asian Art" |};
      {| id_departamento := 3; nombre_departamento := "medieval Art" |} ].
Proof. reflexivity. Qed.
